(** * Rate-limit service: a shallow embedding and its properties

    The development follows the TypeScript sources:
    - [types/index.ts]: records and the compiled default table;
    - [services/dynamodb.service.ts]: the DynamoDB adapter;
    - [services/config.service.ts]: configuration resolution, validation;
    - [services/rate-limit.service.ts]: the quota engine, in its plain
      and in its logging variant;
    - [utils/extract-client-info.ts]: who is asking, read off the headers;
    - [index.ts]: the routes.

    JavaScript numbers holding millisecond instants and request counts
    are integers, modelled by [Z].  So are the thresholds of a rule,
    [windowMs] and [maxRequests]: a fractional threshold, which
    [validateConfig] lets through, is outside the model, and what is
    proved of a rule is proved of a rule with whole thresholds.  An
    object used as a table (the rules of a service, the compiled
    defaults) is looked up among its own entries; the names every
    object inherits from [Object.prototype] are listed in
    [Js.objectPrototype] and excluded where a statement depends on a
    name being absent.  An asynchronous method is a program
    over the operations it performs on its environment (the DynamoDB
    document client, the clock, the console); [await] is sequencing and
    [try]/[catch] is [tryCatch]. *)

From Stdlib Require Import ZArith List String Ascii Bool Lia Permutation.
Import ListNotations.

Local Open Scope string_scope.
Local Open Scope list_scope.
Local Open Scope Z_scope.

Infix "+++" := String.append (right associativity, at level 60).

(** A thrown JavaScript error, identified by its message. *)
Inductive exn : Type :=
| Error (message : string).

(* ================================================================= *)
(** ** JavaScript primitives used by the services *)

Module Js.

(** [Number.prototype.toString] on an integer: its decimal digits, with
    a leading minus sign below zero. *)
Definition digitChar (d : Z) : ascii := ascii_of_N (48 + Z.to_N d).

Fixpoint digitsInto (fuel : nat) (n : Z) (acc : string) : string :=
  match fuel with
  | O => acc
  | S fuel' =>
      if n <? 10 then String (digitChar n) acc
      else digitsInto fuel' (n / 10) (String (digitChar (n mod 10)) acc)
  end.

Definition natToString (n : Z) : string :=
  digitsInto (S (Z.to_nat (Z.log2 n))) n "".

Definition toString (n : Z) : string :=
  if n <? 0 then String "-" (natToString (- n)) else natToString n.

(** [Math.ceil (x / d)] for an integer [x] and a positive integer [d]. *)
Definition ceilDiv (x d : Z) : Z := - ((- x) / d).

(** [new Date(t).toISOString()] throws a [RangeError] unless [t] is a
    time value, at most 8.64e15 milliseconds from the epoch on either
    side.  The string it returns goes into an object printed next to a
    message, which the console lines here leave out: what is kept of the
    call is whether it throws. *)
Definition isTimeValue (t : Z) : bool := Z.abs t <=? 8640000000000000.

Definition toISOString (t : Z) : exn + unit :=
  if isTimeValue t then inr tt else inl (Error "Invalid time value").

(** [Array.prototype.reduce] without an initial value: the first element
    seeds the accumulator; on an empty array it throws a [TypeError]. *)
Definition reduce {A : Type} (f : A -> A -> A) (l : list A) : exn + A :=
  match l with
  | [] => inl (Error "Reduce of empty array with no initial value")
  | x :: rest => inr (fold_left f rest x)
  end.

(** Property access [o[k]] on an object used as a map: the entries are
    the object's own properties, in enumeration order, and [getProp]
    looks among them.  JavaScript looks further, in [Object.prototype]:
    under a name that is not the object's own but that of a member of
    the prototype, [o[k]] is that member, a function or an object and so
    truthy, where [getProp] answers [None].  The two agree on every
    name that is the object's own or is not [inherited]; what is stated
    about a lookup under an arbitrary name carries that condition. *)
Fixpoint getProp {V : Type} (o : list (string * V)) (k : string) : option V :=
  match o with
  | [] => None
  | (k', v) :: rest => if String.eqb k' k then Some v else getProp rest k
  end.

(** The names of the members of [Object.prototype], which every object
    literal and every unmarshalled item inherits. *)
Definition objectPrototype : list string :=
  [ "constructor"; "__defineGetter__"; "__defineSetter__"; "hasOwnProperty";
    "__lookupGetter__"; "__lookupSetter__"; "isPrototypeOf";
    "propertyIsEnumerable"; "toString"; "valueOf"; "__proto__";
    "toLocaleString" ].

Definition inherited (k : string) : bool :=
  existsb (String.eqb k) objectPrototype.

(** [Object.keys]: the names of the own properties, in enumeration
    order. *)
Definition keys {V : Type} (o : list (string * V)) : list string :=
  map fst o.

(** [String.prototype.includes]: whether [needle] occurs in [s]. *)
Fixpoint includes (s needle : string) : bool :=
  if String.prefix needle s then true
  else
    match s with
    | EmptyString => false
    | String _ s' => includes s' needle
    end.

(** The code units [trim] strips, among those below 256: tab to
    carriage return, the space and the no-break space. *)
Definition isWhiteSpace (c : ascii) : bool :=
  let n := N_of_ascii c in
  ((9 <=? n) && (n <=? 13) || (n =? 32) || (n =? 160))%N.

Fixpoint trimStart (s : string) : string :=
  match s with
  | EmptyString => EmptyString
  | String c s' => if isWhiteSpace c then trimStart s' else s
  end.

Fixpoint trimEnd (s : string) : string :=
  match s with
  | EmptyString => EmptyString
  | String c s' =>
      match trimEnd s' with
      | EmptyString =>
          if isWhiteSpace c then EmptyString else String c EmptyString
      | rest => String c rest
      end
  end.

Definition trim (s : string) : string := trimEnd (trimStart s).

(** [String.prototype.split] at a separator of one character: the
    pieces between its occurrences, at least one. *)
Fixpoint split (separator : ascii) (s : string) : list string :=
  match s with
  | EmptyString => [EmptyString]
  | String c s' =>
      if Ascii.eqb c separator then EmptyString :: split separator s'
      else
        match split separator s' with
        | [] => [String c EmptyString]
        | piece :: pieces => String c piece :: pieces
        end
  end.

(** Reading a string of decimal digits back, most significant first. *)
Definition digitVal (c : ascii) : Z := Z.of_N (N_of_ascii c) - 48.

Definition isDigit (c : ascii) : Prop := 0 <= digitVal c <= 9.

Fixpoint allDigits (s : string) : Prop :=
  match s with
  | EmptyString => True
  | String c s' => isDigit c /\ allDigits s'
  end.

Fixpoint decimalValue (s : string) : Z :=
  match s with
  | EmptyString => 0
  | String c s' =>
      digitVal c * 10 ^ Z.of_nat (String.length s') + decimalValue s'
  end.

End Js.

(* ================================================================= *)
(** ** Data model ([types/index.ts]) *)

Record RateLimitRule : Type := mkRule {
  windowMs : Z;
  maxRequests : Z
}.

(** [RateLimitConfig["rules"]]: tier name to rule. *)
Definition Rules : Type := list (string * RateLimitRule).

Record RateLimitConfig : Type := mkConfig {
  cfg_serviceId : string;
  rules : Rules
}.

Record RateLimitUsageRecord : Type := mkUsage {
  pk : string;
  sk : string;
  timestamp : Z;
  ttl : Z
}.

Record RateLimitConfigRecord : Type := mkConfigRecord {
  rec_serviceId : string;
  config : Rules;
  createdAt : Z;
  updatedAt : Z
}.

Record RequestMetadata : Type := mkMetadata {
  userTier : option string
}.

Record RateLimitRequest : Type := mkRequest {
  req_serviceId : string;
  clientId : string;
  metadata : option RequestMetadata
}.

Record ResponseMetadata : Type := mkResponseMetadata {
  meta_serviceId : string;
  meta_windowMs : Z;
  meta_maxRequests : Z
}.

Record RateLimitResponse : Type := mkResponse {
  allowed : bool;
  remaining : Z;
  resetTime : Z;
  retryAfter : option Z;
  resp_metadata : ResponseMetadata
}.

Definition DEFAULT_RATE_LIMITS : list (string * Rules) :=
  [ ("upload-images",
      [ ("default", mkRule 7200000 5);
        ("pro", mkRule 3600000 10);
        ("enterprise", mkRule 1800000 20) ]);
    ("api-general",
      [ ("default", mkRule 3600000 3);
        ("pro", mkRule 3600000 10);
        ("enterprise", mkRule 3600000 50) ]);
    ("auth",
      [ ("default", mkRule 900000 5);
        ("pro", mkRule 900000 10);
        ("enterprise", mkRule 900000 20) ]) ].

(* ================================================================= *)
(** ** Programs over the environment *)

(** The key condition of a usage query: [sk >= :v] or [sk < :v]. *)
Inductive SortKeyCondition : Type :=
| SkGe (v : string)
| SkLt (v : string).

(** What a method may ask of its environment.  The first six are
    commands sent through the document client ([docClient.send]); each
    is answered by a value or by the error it threw.  The clock, the
    random source and the console cannot fail. *)
Inductive op : Type -> Type :=
| GetConfigItem (serviceId : string)
    : op (exn + option RateLimitConfigRecord)
| PutConfigItem (item : RateLimitConfigRecord) : op (exn + unit)
| PutUsageItem (item : RateLimitUsageRecord) : op (exn + unit)
| QueryUsage (key : string) (cond : SortKeyCondition)
    : op (exn + list RateLimitUsageRecord)
| QueryUsageKeys (key : string) (cond : SortKeyCondition)
    : op (exn + list (string * string))
| DeleteUsageItem (key sortKey : string) : op (exn + unit)
| DateNow : op Z
| MathRandom : op string
| ConsoleLog (line : string) : op unit
| ConsoleError (line : string) : op unit.

Inductive prog (A : Type) : Type :=
| Ret (a : A)
| Throw (e : exn)
| Vis {X : Type} (o : op X) (k : X -> prog A).

Arguments Ret {A} a.
Arguments Throw {A} e.
Arguments Vis {A X} o k.

Fixpoint bind {A B : Type} (p : prog A) (f : A -> prog B) : prog B :=
  match p with
  | Ret a => f a
  | Throw e => Throw e
  | Vis o k => Vis o (fun x => bind (k x) f)
  end.

Fixpoint tryCatch {A : Type} (p : prog A) (handler : exn -> prog A) : prog A :=
  match p with
  | Ret a => Ret a
  | Throw e => handler e
  | Vis o k => Vis o (fun x => tryCatch (k x) handler)
  end.

Notation "x <- p ;; q" := (bind p (fun x => q))
  (at level 61, p at next level, right associativity).
Notation "p ;; q" := (bind p (fun _ => q))
  (at level 61, right associativity).

(** An operation that cannot fail. *)
Definition perform {X : Type} (o : op X) : prog X := Vis o Ret.

(** [await this.docClient.send(command)]. *)
Definition send {X : Type} (o : op (exn + X)) : prog X :=
  Vis o (fun r => match r with inl e => Throw e | inr x => Ret x end).

(** A pure computation that may throw. *)
Definition lift {A : Type} (r : exn + A) : prog A :=
  match r with inl e => Throw e | inr a => Ret a end.

(** [commands.map(c => this.docClient.send(c))]: every command is sent;
    the outcomes are the settled promises, in order. *)
Fixpoint sendEach {X : Type} (commands : list (op (exn + X)))
  : prog (list (exn + X)) :=
  match commands with
  | [] => Ret []
  | c :: rest => Vis c (fun r => rs <- sendEach rest ;; Ret (r :: rs))
  end.

(** [await Promise.all(promises)]: the values when all fulfilled,
    otherwise the first rejection. *)
Fixpoint promiseAll {X : Type} (settled : list (exn + X)) : exn + list X :=
  match settled with
  | [] => inr []
  | inl e :: _ => inl e
  | inr x :: rest =>
      match promiseAll rest with
      | inl e => inl e
      | inr xs => inr (x :: xs)
      end
  end.

(** A call run to its settlement: fulfilled with a value or rejected
    with an error. *)
Definition settle {A : Type} (p : prog A) : prog (exn + A) :=
  tryCatch (a <- p ;; Ret (inr a)) (fun e => Ret (inl e)).

(** [items.map(item => call(item))] for asynchronous calls, each taken to
    its settlement before the next: one of the schedules the event loop
    allows. *)
Fixpoint settleEach {A : Type} (calls : list (prog A))
  : prog (list (exn + A)) :=
  match calls with
  | [] => Ret []
  | call :: rest =>
      r <- settle call ;;
      rs <- settleEach rest ;;
      Ret (r :: rs)
  end.

(** Two further commands of the document client, sent by the
    administration of configurations alone: a query and a delete on the
    config table.  An [admin] program may send them besides the
    operations of a [prog]. *)
Inductive configOp : Type -> Type :=
| QueryConfigItems (serviceId : string)
    : configOp (exn + list RateLimitConfigRecord)
| DeleteConfigItem (serviceId : string) : configOp (exn + unit).

Inductive admin (A : Type) : Type :=
| ARet (a : A)
| AThrow (e : exn)
| AVis {X : Type} (o : op X) (k : X -> admin A)
| AConfig {X : Type} (o : configOp X) (k : X -> admin A).

Arguments ARet {A} a.
Arguments AThrow {A} e.
Arguments AVis {A X} o k.
Arguments AConfig {A X} o k.

Fixpoint adminBind {A B : Type} (p : admin A) (f : A -> admin B) : admin B :=
  match p with
  | ARet a => f a
  | AThrow e => AThrow e
  | AVis o k => AVis o (fun x => adminBind (k x) f)
  | AConfig o k => AConfig o (fun x => adminBind (k x) f)
  end.

Fixpoint adminTry {A : Type} (p : admin A) (handler : exn -> admin A)
  : admin A :=
  match p with
  | ARet a => ARet a
  | AThrow e => handler e
  | AVis o k => AVis o (fun x => adminTry (k x) handler)
  | AConfig o k => AConfig o (fun x => adminTry (k x) handler)
  end.

(** [await this.docClient.send(command)] for the two commands. *)
Definition sendConfig {X : Type} (o : configOp (exn + X)) : admin X :=
  AConfig o (fun r => match r with inl e => AThrow e | inr x => ARet x end).

(** [console.error(line); throw error]. *)
Definition adminRethrow {A : Type} (line : string) (error : exn) : admin A :=
  AVis (ConsoleError line) (fun _ => AThrow error).

(** A [prog] as an [admin] program. *)
Fixpoint plain {A : Type} (p : prog A) : admin A :=
  match p with
  | Ret a => ARet a
  | Throw e => AThrow e
  | Vis o k => AVis o (fun x => plain (k x))
  end.

(* ================================================================= *)
(** ** [DynamoDBService] ([services/dynamodb.service.ts]) *)

Module DynamoDBService.

(** The partition key [`${serviceId}#${clientId}`]. *)
Definition usageKey (serviceId clientId : string) : string :=
  serviceId +++ "#" +++ clientId.

Definition getConfig (serviceId : string)
  : prog (option RateLimitConfigRecord) :=
  tryCatch
    (send (GetConfigItem serviceId))
    (fun error =>
       perform (ConsoleError
         ("Error getting config for service " +++ serviceId +++ ":")) ;;
       Throw error).

Definition saveConfig (record : RateLimitConfigRecord) : prog unit :=
  tryCatch
    (now <- perform DateNow ;;
     send (PutConfigItem
       (mkConfigRecord (rec_serviceId record) (config record)
          (createdAt record) now)))
    (fun error =>
       perform (ConsoleError
         ("Error saving config for service "
            +++ rec_serviceId record +++ ":")) ;;
       Throw error).

Definition recordUsage (serviceId clientId : string) : prog unit :=
  now <- perform DateNow ;;
  let ttl := now / 1000 + 24 * 60 * 60 in
  tryCatch
    (let record :=
       mkUsage (usageKey serviceId clientId) (Js.toString now) now ttl in
     send (PutUsageItem record))
    (fun error =>
       perform (ConsoleError
         ("Error recording usage for "
            +++ usageKey serviceId clientId +++ ":")) ;;
       Throw error).

Definition getUsageInWindow (serviceId clientId : string)
  (windowStartMs : Z) : prog (list RateLimitUsageRecord) :=
  tryCatch
    (send (QueryUsage (usageKey serviceId clientId)
             (SkGe (Js.toString windowStartMs))))
    (fun error =>
       perform (ConsoleError
         ("Error getting usage for "
            +++ usageKey serviceId clientId +++ ":")) ;;
       Throw error).

Definition cleanupOldUsage (serviceId clientId : string)
  (beforeTimestamp : Z) : prog unit :=
  tryCatch
    (items <- send (QueryUsageKeys (usageKey serviceId clientId)
                      (SkLt (Js.toString beforeTimestamp))) ;;
     match items with
     | [] => Ret tt
     | _ =>
         deletePromises <-
           sendEach (map (fun item => DeleteUsageItem (fst item) (snd item))
                         items) ;;
         lift (promiseAll deletePromises) ;;
         Ret tt
     end)
    (fun error =>
       perform (ConsoleError
         ("Error cleaning up old usage for "
            +++ usageKey serviceId clientId +++ ":")) ;;
       Throw error).

(** The query asks for the items whose key is the string ["ALL"]. *)
Definition getAllConfigs : admin (list RateLimitConfigRecord) :=
  adminTry
    (sendConfig (QueryConfigItems "ALL"))
    (adminRethrow "Error getting all configs:").

Definition deleteConfig (serviceId : string) : admin unit :=
  adminTry
    (sendConfig (DeleteConfigItem serviceId))
    (adminRethrow ("Error deleting config for service " +++ serviceId +++ ":")).

End DynamoDBService.

(* ================================================================= *)
(** ** [ConfigService] ([services/config.service.ts]) *)

(** What [getRateLimit] returns: [{ serviceId, tier, ...rule }]. *)
Record RateLimit : Type := mkRateLimit {
  rl_serviceId : string;
  rl_tier : string;
  rl_windowMs : Z;
  rl_maxRequests : Z
}.

Module ConfigService.

Definition getServiceConfig (serviceId : string) : prog RateLimitConfig :=
  tryCatch
    (configRecord <- DynamoDBService.getConfig serviceId ;;
     match configRecord with
     | Some record => Ret (mkConfig serviceId (config record))
     | None =>
         match Js.getProp DEFAULT_RATE_LIMITS serviceId with
         | None =>
             Throw (Error
               ("No configuration found for service: " +++ serviceId))
         | Some defaultRules => Ret (mkConfig serviceId defaultRules)
         end
     end)
    (fun error =>
       perform (ConsoleError
         ("Error getting config for service " +++ serviceId +++ ":")) ;;
       Throw error).

Definition getRateLimit (serviceId tier : string) : prog RateLimit :=
  cfg <- getServiceConfig serviceId ;;
  (* config.rules[tier] || config.rules.default *)
  let rule :=
    match Js.getProp (rules cfg) tier with
    | Some r => Some r
    | None => Js.getProp (rules cfg) "default"
    end in
  match rule with
  | None =>
      Throw (Error
        ("No rate limit rule found for service " +++ serviceId
           +++ " and tier " +++ tier))
  | Some r =>
      Ret (mkRateLimit serviceId tier (windowMs r) (maxRequests r))
  end.

(** The loop over [Object.entries(config.rules)]. *)
Fixpoint validateRules (entries : Rules) : exn + unit :=
  match entries with
  | [] => inr tt
  | (tier, rule) :: rest =>
      if windowMs rule <=? 0 then
        inl (Error
          ("windowMs for tier '" +++ tier +++ "' must be a positive number"))
      else if maxRequests rule <=? 0 then
        inl (Error
          ("maxRequests for tier '" +++ tier
             +++ "' must be a positive number"))
      else validateRules rest
  end.

(** The checks as they bear on a value of the declared type
    [RateLimitConfig].  The [typeof] guards of the source, its two
    errors for rules or a rule that is not an object, and the
    [TypeError] of a rule that is [null], are for values that are not
    of that type, which this definition does not take; of them what
    remains is the test for an empty [serviceId]. *)
Definition validateConfig (cfg : RateLimitConfig) : exn + unit :=
  if String.eqb (cfg_serviceId cfg) "" then
    inl (Error "Service ID is required and must be a string")
  else
    match Js.getProp (rules cfg) "default" with
    | None => inl (Error "Default tier configuration is required")
    | Some _ => validateRules (rules cfg)
    end.

Definition saveServiceConfig (cfg : RateLimitConfig) : prog unit :=
  tryCatch
    (lift (validateConfig cfg) ;;
     created <- perform DateNow ;;
     updated <- perform DateNow ;;
     let configRecord :=
       mkConfigRecord (cfg_serviceId cfg) (rules cfg) created updated in
     DynamoDBService.saveConfig configRecord)
    (fun error =>
       perform (ConsoleError
         ("Error saving config for service "
            +++ cfg_serviceId cfg +++ ":")) ;;
       Throw error).

Definition hasCustomConfig (serviceId : string) : prog bool :=
  tryCatch
    (configRecord <- DynamoDBService.getConfig serviceId ;;
     Ret (match configRecord with Some _ => true | None => false end))
    (fun error =>
       perform (ConsoleError
         ("Error checking custom config for service "
            +++ serviceId +++ ":")) ;;
       Ret false).

Definition updateServiceConfig (serviceId : string) (rules : Rules)
  : prog unit :=
  let cfg := mkConfig serviceId rules in
  saveServiceConfig cfg.

Definition getAvailableTiers (serviceId : string) : prog (list string) :=
  cfg <- getServiceConfig serviceId ;;
  Ret (Js.keys (rules cfg)).

Definition createDefaultConfig (serviceId : string) : prog RateLimitConfig :=
  let defaultRules :=
    [ ("default", mkRule 3600000 10);
      ("pro", mkRule 3600000 50);
      ("enterprise", mkRule 3600000 200) ] in
  let cfg := mkConfig serviceId defaultRules in
  saveServiceConfig cfg ;;
  Ret cfg.

(** The loop over [Object.entries(DEFAULT_RATE_LIMITS)]: a default is
    pushed when no custom config has its service id. *)
Definition addDefaults (existingServiceIds : list string)
  (configs : list RateLimitConfig) : list RateLimitConfig :=
  fold_left
    (fun configs entry =>
       if negb (existsb (String.eqb (fst entry)) existingServiceIds)
       then configs ++ [mkConfig (fst entry) (snd entry)]
       else configs)
    DEFAULT_RATE_LIMITS configs.

Definition getAllServiceConfigs : admin (list RateLimitConfig) :=
  adminTry
    (adminBind DynamoDBService.getAllConfigs (fun customConfigs =>
     let configs :=
       map (fun record => mkConfig (rec_serviceId record) (config record))
         customConfigs in
     let existingServiceIds := map cfg_serviceId configs in
     ARet (addDefaults existingServiceIds configs)))
    (adminRethrow "Error getting all service configs:").

Definition deleteServiceConfig (serviceId : string) : admin unit :=
  adminTry
    (DynamoDBService.deleteConfig serviceId)
    (adminRethrow ("Error deleting config for service " +++ serviceId +++ ":")).

End ConfigService.

(* ================================================================= *)
(** ** [RateLimitService] ([services/rate-limit.service.ts]) *)

(** What [getUsageStats] returns. *)
Record UsageStats : Type := mkStats {
  st_currentUsage : Z;
  st_maxRequests : Z;
  st_windowMs : Z;
  st_resetTime : Z;
  st_remaining : Z
}.

(** [request.metadata?.userTier || "default"]: an absent or empty tier
    is falsy. *)
Definition tierOf (request : RateLimitRequest) : string :=
  match metadata request with
  | Some m =>
      match userTier m with
      | Some t => if String.eqb t "" then "default" else t
      | None => "default"
      end
  | None => "default"
  end.

Definition includes (l : list string) (s : string) : bool :=
  existsb (String.eqb s) l.

(** The older of two records, as the callback given to [reduce]. *)
Definition older (oldest record : RateLimitUsageRecord)
  : RateLimitUsageRecord :=
  if timestamp record <? timestamp oldest then record else oldest.

Module RateLimitService.

Definition validateRequest (request : RateLimitRequest) : exn + unit :=
  if String.eqb (req_serviceId request) "" then
    inl (Error "Service ID is required and must be a string")
  else if String.eqb (clientId request) "" then
    inl (Error "Client ID is required and must be a string")
  else
    match metadata request with
    | Some m =>
        match userTier m with
        | Some t =>
            if negb (String.eqb t "")
               && negb (includes ["free"; "pro"; "enterprise"; "default"] t)
            then inl (Error "Invalid user tier specified")
            else inr tt
        | None => inr tt
        end
    | None => inr tt
    end.

Definition calculateNextWindowStart (currentTime windowMs : Z) : Z :=
  currentTime + windowMs.

Definition checkRateLimit (request : RateLimitRequest)
  : prog RateLimitResponse :=
  tryCatch
    (lift (validateRequest request) ;;
     let tier := tierOf request in
     rateLimit <- ConfigService.getRateLimit (req_serviceId request) tier ;;
     now <- perform DateNow ;;
     let windowStart := now - rl_windowMs rateLimit in
     usageRecords <-
       DynamoDBService.getUsageInWindow
         (req_serviceId request) (clientId request) windowStart ;;
     let currentUsage := Z.of_nat (List.length usageRecords) in
     let allowed := currentUsage <? rl_maxRequests rateLimit in
     let remaining := Z.max 0 (rl_maxRequests rateLimit - currentUsage) in
     let resetTime :=
       calculateNextWindowStart now (rl_windowMs rateLimit) in
     retryAfter <-
       (if negb allowed && (0 <? Z.of_nat (List.length usageRecords)) then
          oldestRequest <- lift (Js.reduce older usageRecords) ;;
          Ret (Some (Js.ceilDiv
                 (timestamp oldestRequest + rl_windowMs rateLimit - now)
                 1000))
        else Ret None) ;;
     (if allowed then
        DynamoDBService.recordUsage
          (req_serviceId request) (clientId request)
      else Ret tt) ;;
     Ret (mkResponse allowed
            (if allowed then remaining - 1 else remaining)
            resetTime
            retryAfter
            (mkResponseMetadata (req_serviceId request)
               (rl_windowMs rateLimit) (rl_maxRequests rateLimit))))
    (fun error =>
       perform (ConsoleError "Rate limit check error:") ;;
       Throw error).

Definition getUsageStats (serviceId clientId tier : string)
  : prog UsageStats :=
  tryCatch
    (rateLimit <- ConfigService.getRateLimit serviceId tier ;;
     now <- perform DateNow ;;
     let windowStart := now - rl_windowMs rateLimit in
     usageRecords <-
       DynamoDBService.getUsageInWindow serviceId clientId windowStart ;;
     let currentUsage := Z.of_nat (List.length usageRecords) in
     let remaining := Z.max 0 (rl_maxRequests rateLimit - currentUsage) in
     let resetTime :=
       calculateNextWindowStart now (rl_windowMs rateLimit) in
     Ret (mkStats currentUsage (rl_maxRequests rateLimit)
            (rl_windowMs rateLimit) resetTime remaining))
    (fun error =>
       perform (ConsoleError "Error getting usage stats:") ;;
       Throw error).

Definition resetRateLimit (serviceId clientId : string) : prog unit :=
  tryCatch
    (now <- perform DateNow ;;
     DynamoDBService.cleanupOldUsage serviceId clientId now)
    (fun error =>
       perform (ConsoleError "Error resetting rate limit:") ;;
       Throw error).

Definition isBlocked (serviceId clientId tier : string) : prog bool :=
  tryCatch
    (stats <- getUsageStats serviceId clientId tier ;;
     Ret (st_remaining stats <=? 0))
    (fun error =>
       perform (ConsoleError "Error checking if blocked:") ;;
       Ret false).

Definition getTimeUntilReset (serviceId clientId tier : string) : prog Z :=
  tryCatch
    (stats <- getUsageStats serviceId clientId tier ;;
     now <- perform DateNow ;;
     Ret (Z.max 0 (st_resetTime stats - now)))
    (fun error =>
       perform (ConsoleError "Error getting time until reset:") ;;
       Ret 0).

(** [hoursOld] counts whole hours; a caller that leaves it out gets 24. *)
Definition cleanupOldRecords (serviceId clientId : string) (hoursOld : Z)
  : prog unit :=
  tryCatch
    (now <- perform DateNow ;;
     let cutoffTime := now - hoursOld * 60 * 60 * 1000 in
     DynamoDBService.cleanupOldUsage serviceId clientId cutoffTime)
    (fun error =>
       perform (ConsoleError "Error during cleanup:") ;;
       Throw error).

Definition getRateLimitInfo (serviceId tier : string) : prog RateLimit :=
  ConfigService.getRateLimit serviceId tier.

Definition preloadConfigurations (serviceIds : list string) : prog unit :=
  tryCatch
    (settled <-
       settleEach (map ConfigService.getServiceConfig serviceIds) ;;
     lift (promiseAll settled) ;;
     Ret tt)
    (fun error =>
       perform (ConsoleError "Error preloading configurations:") ;;
       Ret tt).

End RateLimitService.

(** The variant of the same class that reports every step on the
    console.  An object printed next to a message is left out of the
    line; what building it reads from the clock is kept, and so is the
    conversion of an instant to an ISO string, which can throw. *)
Module RateLimitServiceLogging.

Definition validateRequest := RateLimitService.validateRequest.

Definition calculateNextWindowStart :=
  RateLimitService.calculateNextWindowStart.

(** [`req_${Date.now()}_${Math.random().toString(36).substr(2, 9)}`];
    [MathRandom] answers with the base-36 fragment. *)
Definition generateRequestId : prog string :=
  now <- perform DateNow ;;
  fragment <- perform MathRandom ;;
  Ret ("req_" +++ Js.toString now +++ "_" +++ fragment).

Definition tag (step requestId : string) : string :=
  "[" +++ step +++ "][" +++ requestId +++ "] ".

Definition checkRateLimit (request : RateLimitRequest)
  : prog RateLimitResponse :=
  requestId <- generateRequestId ;;
  startTime <- perform DateNow ;;
  logTime <- perform DateNow ;;
  lift (Js.toISOString logTime) ;;
  perform (ConsoleLog (tag "1" requestId +++ "Start checkRateLimit")) ;;
  tryCatch
    (perform (ConsoleLog
       (tag "2" requestId +++ "Validating request parameters")) ;;
     lift (validateRequest request) ;;
     perform (ConsoleLog
       (tag "3" requestId +++ "Request validated successfully")) ;;
     let tier := tierOf request in
     perform (ConsoleLog
       (tag "4" requestId +++ "Fetching rate limit config for tier: "
          +++ tier)) ;;
     rateLimit <- ConfigService.getRateLimit (req_serviceId request) tier ;;
     perform (ConsoleLog (tag "5" requestId +++ "Config fetched")) ;;
     now <- perform DateNow ;;
     let windowStart := now - rl_windowMs rateLimit in
     lift (Js.toISOString now) ;;
     lift (Js.toISOString windowStart) ;;
     perform (ConsoleLog
       (tag "6" requestId +++ "Time window calculated")) ;;
     perform (ConsoleLog
       (tag "7" requestId +++ "Querying current usage in DynamoDB")) ;;
     usageRecords <-
       DynamoDBService.getUsageInWindow
         (req_serviceId request) (clientId request) windowStart ;;
     let currentUsage := Z.of_nat (List.length usageRecords) in
     let allowed := currentUsage <? rl_maxRequests rateLimit in
     let remaining := Z.max 0 (rl_maxRequests rateLimit - currentUsage) in
     perform (ConsoleLog (tag "8" requestId +++ "Current usage")) ;;
     let resetTime :=
       calculateNextWindowStart now (rl_windowMs rateLimit) in
     lift (Js.toISOString resetTime) ;;
     perform (ConsoleLog (tag "9" requestId +++ "Reset time calculated")) ;;
     retryAfter <-
       (if negb allowed && (0 <? Z.of_nat (List.length usageRecords)) then
          perform (ConsoleLog
            (tag "10" requestId
               +++ "Calculating retryAfter for blocked request")) ;;
          oldestRequest <- lift (Js.reduce older usageRecords) ;;
          let retryAfter :=
            Js.ceilDiv
              (timestamp oldestRequest + rl_windowMs rateLimit - now) 1000 in
          perform (ConsoleLog
            (tag "11" requestId +++ "retryAfter calculated")) ;;
          Ret (Some retryAfter)
        else Ret None) ;;
     (if allowed then
        perform (ConsoleLog
          (tag "12" requestId +++ "Recording usage in DynamoDB")) ;;
        DynamoDBService.recordUsage
          (req_serviceId request) (clientId request) ;;
        perform (ConsoleLog
          (tag "13" requestId +++ "Usage recorded successfully"))
      else
        perform (ConsoleLog
          (tag "14" requestId
             +++ "Request blocked, usage not recorded"))) ;;
     let response :=
       mkResponse allowed
         (if allowed then remaining - 1 else remaining)
         resetTime
         retryAfter
         (mkResponseMetadata (req_serviceId request)
            (rl_windowMs rateLimit) (rl_maxRequests rateLimit)) in
     endTime <- perform DateNow ;;
     let duration := endTime - startTime in
     perform (ConsoleLog (tag "15" requestId +++ "checkRateLimit finished")) ;;
     Ret response)
    (fun error =>
       endTime <- perform DateNow ;;
       let duration := endTime - startTime in
       perform (ConsoleError (tag "E" requestId +++ "Error in checkRateLimit")) ;;
       Throw error).

Definition getUsageStats (serviceId clientId tier : string)
  : prog UsageStats :=
  requestId <- generateRequestId ;;
  perform (ConsoleLog (tag "1" requestId +++ "getUsageStats")) ;;
  tryCatch
    (rateLimit <- ConfigService.getRateLimit serviceId tier ;;
     now <- perform DateNow ;;
     let windowStart := now - rl_windowMs rateLimit in
     perform (ConsoleLog (tag "2" requestId +++ "Querying current usage")) ;;
     usageRecords <-
       DynamoDBService.getUsageInWindow serviceId clientId windowStart ;;
     let currentUsage := Z.of_nat (List.length usageRecords) in
     let remaining := Z.max 0 (rl_maxRequests rateLimit - currentUsage) in
     let resetTime :=
       calculateNextWindowStart now (rl_windowMs rateLimit) in
     let stats :=
       mkStats currentUsage (rl_maxRequests rateLimit)
         (rl_windowMs rateLimit) resetTime remaining in
     perform (ConsoleLog (tag "3" requestId +++ "Stats fetched")) ;;
     Ret stats)
    (fun error =>
       perform (ConsoleError
         (tag "E" requestId +++ "Error in getUsageStats")) ;;
       Throw error).

Definition resetRateLimit (serviceId clientId : string) : prog unit :=
  requestId <- generateRequestId ;;
  perform (ConsoleLog (tag "1" requestId +++ "resetRateLimit")) ;;
  tryCatch
    (now <- perform DateNow ;;
     DynamoDBService.cleanupOldUsage serviceId clientId now ;;
     perform (ConsoleLog (tag "2" requestId +++ "Rate limit reset")))
    (fun error =>
       perform (ConsoleError
         (tag "E" requestId +++ "Error in resetRateLimit")) ;;
       Throw error).

Definition isBlocked (serviceId clientId tier : string) : prog bool :=
  tryCatch
    (stats <- getUsageStats serviceId clientId tier ;;
     Ret (st_remaining stats <=? 0))
    (fun error =>
       perform (ConsoleError "Error checking if blocked:") ;;
       Ret false).

Definition getTimeUntilReset (serviceId clientId tier : string) : prog Z :=
  tryCatch
    (stats <- getUsageStats serviceId clientId tier ;;
     now <- perform DateNow ;;
     Ret (Z.max 0 (st_resetTime stats - now)))
    (fun error =>
       perform (ConsoleError "Error getting time until reset:") ;;
       Ret 0).

End RateLimitServiceLogging.

(* ================================================================= *)
(** ** Regular expressions ([RegExp.prototype.test]) *)

Module RegExp.

(** The patterns the sources use: a class of characters given by its
    ranges (a literal is the range from itself to itself), a sequence,
    an alternative, an optional part and a bounded repetition
    [p{lo,hi}]. *)
Inductive pattern : Type :=
| Class (ranges : list (ascii * ascii))
| Seq (p q : pattern)
| Alt (p q : pattern)
| Opt (p : pattern)
| Repeat (lo hi : nat) (p : pattern).

Definition inRange (c : ascii) (range : ascii * ascii) : bool :=
  (N_of_ascii (fst range) <=? N_of_ascii c)%N
  && (N_of_ascii c <=? N_of_ascii (snd range))%N.

Definition inClass (ranges : list (ascii * ascii)) (c : ascii) : bool :=
  existsb (inRange c) ranges.

(** A backtracking matcher: [matches p s k] tries every way [p] can
    take a prefix of [s], the longer ones first, and hands the rest to
    the continuation [k]. *)
Fixpoint exactly (m : string -> (string -> bool) -> bool) (n : nat)
  (k : string -> bool) (s : string) : bool :=
  match n with
  | O => k s
  | S n' => m s (exactly m n' k)
  end.

Fixpoint upTo (m : string -> (string -> bool) -> bool) (n : nat)
  (k : string -> bool) (s : string) : bool :=
  match n with
  | O => k s
  | S n' => m s (upTo m n' k) || k s
  end.

Fixpoint matches (p : pattern) (s : string) (k : string -> bool) : bool :=
  match p with
  | Class ranges =>
      match s with
      | String c rest => inClass ranges c && k rest
      | EmptyString => false
      end
  | Seq p q => matches p s (fun rest => matches q rest k)
  | Alt p q => matches p s k || matches q s k
  | Opt p => matches p s k || k s
  | Repeat lo hi p =>
      exactly (matches p) lo (upTo (matches p) (hi - lo) k) s
  end.

(** [/^p$/.test(s)]. *)
Definition test (p : pattern) (s : string) : bool :=
  matches p s (fun rest => String.eqb rest "").

(** The strings a pattern describes. *)
Fixpoint power (L : string -> Prop) (n : nat) (s : string) : Prop :=
  match n with
  | O => s = ""
  | S n' => exists s1 s2, s = s1 +++ s2 /\ L s1 /\ power L n' s2
  end.

Fixpoint lang (p : pattern) (s : string) : Prop :=
  match p with
  | Class ranges => exists c, s = String c "" /\ inClass ranges c = true
  | Seq p q => exists s1 s2, s = s1 +++ s2 /\ lang p s1 /\ lang q s2
  | Alt p q => lang p s \/ lang q s
  | Opt p => lang p s \/ s = ""
  | Repeat lo hi p =>
      exists n, (lo <= n <= lo + (hi - lo))%nat /\ power (lang p) n s
  end.

End RegExp.

(* ================================================================= *)
(** ** Who is asking ([utils/extract-client-info.ts]) *)

(** What the extraction reads of the request: [c.req.header(name)]. *)
Record Context : Type := mkContext {
  header : string -> option string
}.

(** What [extractRequestMetadata] returns. *)
Record ExtractedMetadata : Type := mkExtracted {
  userAgent : option string;
  origin : option string;
  referer : option string;
  extractedAt : Z
}.

Module ExtractClientInfo.
Import RegExp.

Definition lit (c : ascii) : pattern := Class [(c, c)].

Definition digit : pattern := Class [("0", "9")%char].

(** [(?:25[0-5]|2[0-4][0-9]|[01]?[0-9][0-9]?)] *)
Definition octet : pattern :=
  Alt (Seq (lit "2") (Seq (lit "5") (Class [("0", "5")%char])))
    (Alt (Seq (lit "2") (Seq (Class [("0", "4")%char]) digit))
       (Seq (Opt (Class [("0", "0"); ("1", "1")]%char))
          (Seq digit (Opt digit)))).

(** [/^(?:octet\.){3}octet$/] *)
Definition ipv4Regex : pattern :=
  Seq (Repeat 3 3 (Seq octet (lit "."))) octet.

Definition hexDigit : pattern :=
  Class [("0", "9"); ("a", "f"); ("A", "F")]%char.

(** [/^(?:[0-9a-fA-F]{1,4}:){7}[0-9a-fA-F]{1,4}$/] *)
Definition ipv6Regex : pattern :=
  Seq (Repeat 7 7 (Seq (Repeat 1 4 hexDigit) (lit ":"))) (Repeat 1 4 hexDigit).

Definition isValidIP (ip : string) : bool :=
  test ipv4Regex ip || test ipv6Regex ip
  || String.eqb ip "::1" || String.eqb ip "localhost".

Definition headers : list string :=
  [ "x-forwarded-for"; "x-real-ip"; "x-client-ip"; "cf-connecting-ip";
    "x-forwarded"; "forwarded-for"; "forwarded" ].

(** [value.split(",")[0]?.trim()] *)
Definition firstEntry (value : string) : option string :=
  match nth_error (Js.split "," value) 0 with
  | Some piece => Some (Js.trim piece)
  | None => None
  end.

(** The loop over the headers, left at the first valid address. *)
Fixpoint firstValidIP (c : Context) (names : list string) : option string :=
  match names with
  | [] => None
  | name :: rest =>
      match header c name with
      | Some value =>
          if String.eqb value "" then firstValidIP c rest
          else
            match firstEntry value with
            | Some ip =>
                if negb (String.eqb ip "") && isValidIP ip then Some ip
                else firstValidIP c rest
            | None => firstValidIP c rest
            end
      | None => firstValidIP c rest
      end
  end.

Definition extractClientIP (c : Context) : string :=
  match firstValidIP c headers with
  | Some ip => ip
  | None => "unknown"
  end.

Definition extractUserIdFromAuth (c : Context) : option string :=
  match header c "authorization" with
  | None => None
  | Some authHeader =>
      if String.eqb authHeader "" then None
      else if Js.includes authHeader "Bearer" then None
      else None
  end.

Definition extractClientId (c : Context) : string :=
  match extractUserIdFromAuth c with
  | Some userId =>
      if String.eqb userId "" then "ip:" +++ extractClientIP c
      else "user:" +++ userId
  | None => "ip:" +++ extractClientIP c
  end.

Definition extractUserTier (c : Context) : string :=
  match header c "authorization" with
  | None => "default"
  | Some authHeader =>
      if String.eqb authHeader "" then "default"
      else if Js.includes authHeader "Bearer" then "default"
      else if Js.includes authHeader "ApiKey" then "default"
      else "default"
  end.

Definition extractRequestMetadata (c : Context) : prog ExtractedMetadata :=
  timestamp <- perform DateNow ;;
  Ret (mkExtracted (header c "user-agent") (header c "origin")
         (header c "referer") timestamp).

(** A group of one to three decimal digits that reads as at most 255,
    and a group of one to four hexadecimal digits. *)
Definition isOctet (x : string) : Prop :=
  (1 <= String.length x <= 3)%nat /\ Js.allDigits x /\
  Js.decimalValue x <= 255.

Fixpoint allOf (alphabet : string) (s : string) : Prop :=
  match s with
  | EmptyString => True
  | String c s' => In c (list_ascii_of_string alphabet) /\ allOf alphabet s'
  end.

Definition isHexGroup (x : string) : Prop :=
  (1 <= String.length x <= 4)%nat /\ allOf "0123456789abcdefABCDEF" x.

End ExtractClientInfo.

(* ================================================================= *)
(** ** The routes ([index.ts]) *)

(** What a client sends to [POST /check]: [clientId] is optional. *)
Record RateLimitRequestInput : Type := mkInput {
  in_serviceId : string;
  in_clientId : option string;
  in_metadata : option RequestMetadata
}.

(** What a route answers: [c.json(body)] has status 200,
    [c.json(body, 500)] has status 500. *)
Inductive Body : Type :=
| CheckBody (response : RateLimitResponse)
| ConfigsBody (configs : list RateLimitConfig)
| ConfigBody (config : RateLimitConfig)
| MessageBody (message : string)
| ErrorBody (error : string).

Record HttpResponse : Type := mkHttp {
  status : Z;
  body : Body
}.

Module App.

Definition json (b : Body) : HttpResponse := mkHttp 200 b.

Definition internalServerError : HttpResponse :=
  mkHttp 500 (ErrorBody "Internal server error").

(** The request [POST /check] builds from the body and the headers.  Of
    the metadata the service reads the tier alone; the other entries
    (the body's own, the user agent, the origin, the referer, the instant
    and the extraction method) travel with it unread. *)
Definition rateLimitRequest (c : Context) (input : RateLimitRequestInput)
  : RateLimitRequest :=
  let clientId :=
    match in_clientId input with
    | Some id =>
        if String.eqb id "" then ExtractClientInfo.extractClientId c else id
    | None => ExtractClientInfo.extractClientId c
    end in
  let userTier :=
    match in_metadata input with
    | Some m =>
        match userTier m with
        | Some t =>
            if String.eqb t "" then ExtractClientInfo.extractUserTier c else t
        | None => ExtractClientInfo.extractUserTier c
        end
    | None => ExtractClientInfo.extractUserTier c
    end in
  mkRequest (in_serviceId input) clientId (Some (mkMetadata (Some userTier))).

(** [parsed] is what [await c.req.json()] gave: the body, or the error
    it threw. *)
Definition postCheck (c : Context) (parsed : exn + RateLimitRequestInput)
  : prog HttpResponse :=
  tryCatch
    (input <- lift parsed ;;
     requestMetadata <- ExtractClientInfo.extractRequestMetadata c ;;
     response <- RateLimitService.checkRateLimit (rateLimitRequest c input) ;;
     Ret (json (CheckBody response)))
    (fun error =>
       perform (ConsoleError "Rate limit check error:") ;;
       Ret internalServerError).

Definition getConfigs : admin HttpResponse :=
  adminTry
    (adminBind ConfigService.getAllServiceConfigs (fun configs =>
     ARet (json (ConfigsBody configs))))
    (fun error =>
       AVis (ConsoleError "Error getting all configs:") (fun _ =>
       ARet internalServerError)).

Definition postConfig (parsed : exn + RateLimitConfig) : prog HttpResponse :=
  tryCatch
    (input <- lift parsed ;;
     ConfigService.saveServiceConfig input ;;
     Ret (json (MessageBody "Configuration saved successfully")))
    (fun error =>
       perform (ConsoleError "Error saving config:") ;;
       Ret internalServerError).

Definition getConfig (serviceId : string) : prog HttpResponse :=
  tryCatch
    (cfg <- ConfigService.getServiceConfig serviceId ;;
     Ret (json (ConfigBody cfg)))
    (fun error =>
       perform (ConsoleError ("Error getting config for " +++ serviceId
                                +++ ":")) ;;
       Ret internalServerError).

(** The body of [PUT /config/:serviceId] is read for its [rules]. *)
Definition putConfig (serviceId : string) (parsed : exn + Rules)
  : prog HttpResponse :=
  tryCatch
    (newRules <- lift parsed ;;
     ConfigService.updateServiceConfig serviceId newRules ;;
     Ret (json (MessageBody "Configuration updated successfully")))
    (fun error =>
       perform (ConsoleError ("Error updating config for " +++ serviceId
                                +++ ":")) ;;
       Ret internalServerError).

End App.

(* ================================================================= *)
(** ** Running a program against an environment *)

(** One operation together with the answer the environment gave. *)
Inductive event : Type :=
| Event {X : Type} (o : op X) (answer : X).

(** An environment: a state and, for every operation, an answer and a
    next state.  Any behaviour of the stores, failures included, is
    some handler. *)
Record handler (W : Type) : Type := mkHandler {
  handle : forall X : Type, op X -> W -> X * W
}.

Arguments handle {W} h {X} o w.

Fixpoint run {W A : Type} (h : handler W) (p : prog A) (w : W)
  : (exn + A) * W * list event :=
  match p with
  | Ret a => (inr a, w, [])
  | Throw e => (inl e, w, [])
  | Vis o k =>
      let (x, w1) := handle h o w in
      let '(r, w2, tr) := run h (k x) w1 in
      (r, w2, Event o x :: tr)
  end.

(** The runs a program can have, whatever the environment. *)
Fixpoint exec {A : Type} (p : prog A) (tr : list event) (r : exn + A)
  : Prop :=
  match p with
  | Ret a => tr = [] /\ r = inr a
  | Throw e => tr = [] /\ r = inl e
  | Vis o k => exists x tr', tr = Event o x :: tr' /\ exec (k x) tr' r
  end.

(** An environment for [admin] programs answers the two further
    commands as well. *)
Inductive adminEvent : Type :=
| Plain (ev : event)
| ConfigEvent {X : Type} (o : configOp X) (answer : X).

Record adminHandler (W : Type) : Type := mkAdminHandler {
  base : handler W;
  handleConfig : forall X : Type, configOp X -> W -> X * W
}.

Arguments base {W} _.
Arguments handleConfig {W} _ {X} _ _.

Fixpoint adminRun {W A : Type} (h : adminHandler W) (p : admin A) (w : W)
  : (exn + A) * W * list adminEvent :=
  match p with
  | ARet a => (inr a, w, [])
  | AThrow e => (inl e, w, [])
  | AVis o k =>
      let (x, w1) := handle (base h) o w in
      let '(r, w2, tr) := adminRun h (k x) w1 in
      (r, w2, Plain (Event o x) :: tr)
  | AConfig o k =>
      let (x, w1) := handleConfig h o w in
      let '(r, w2, tr) := adminRun h (k x) w1 in
      (r, w2, ConfigEvent o x :: tr)
  end.

(** Commands of the document client, as opposed to the clock, the
    random source and the console. *)
Definition isStoreOp {X : Type} (o : op X) : bool :=
  match o with
  | DateNow | MathRandom | ConsoleLog _ | ConsoleError _ => false
  | _ => true
  end.

Definition storeCalls (tr : list event) : list event :=
  filter (fun ev => match ev with Event o _ => isStoreOp o end) tr.

(** The commands an [admin] run sent, console and clock left out. *)
Definition adminCalls (tr : list adminEvent) : list adminEvent :=
  filter (fun ev =>
            match ev with
            | Plain (Event o _) => isStoreOp o
            | ConfigEvent _ _ => true
            end) tr.

(** The usage queries of a run, each with its key, its condition and
    the answer it got. *)
Definition usageQuery (ev : event)
  : option (string * SortKeyCondition * (exn + list RateLimitUsageRecord)) :=
  match ev with
  | Event o x =>
      match o in op X return X -> option _ with
      | QueryUsage key cond => fun r => Some (key, cond, r)
      | _ => fun _ => None
      end x
  end.

(** The usage records a run wrote, each with the outcome of the write. *)
Definition usagePut (ev : event)
  : option (RateLimitUsageRecord * (exn + unit)) :=
  match ev with
  | Event o x =>
      match o in op X return X -> option _ with
      | PutUsageItem item => fun r => Some (item, r)
      | _ => fun _ => None
      end x
  end.

Definition clockReading (ev : event) : option Z :=
  match ev with
  | Event o x =>
      match o in op X return X -> option Z with
      | DateNow => fun t => Some t
      | _ => fun _ => None
      end x
  end.

(** The error a command of the document client was answered with. *)
Definition storeFailure (ev : event) : option exn :=
  match ev with
  | Event o x =>
      match o in op X return X -> option exn with
      | GetConfigItem _ | PutConfigItem _ | PutUsageItem _
      | QueryUsage _ _ | QueryUsageKeys _ _ | DeleteUsageItem _ _ =>
          fun r => match r with inl e => Some e | inr _ => None end
      | _ => fun _ => None
      end x
  end.

Fixpoint collect {B : Type} (f : event -> option B) (tr : list event)
  : list B :=
  match tr with
  | [] => []
  | ev :: rest =>
      match f ev with
      | Some b => b :: collect f rest
      | None => collect f rest
      end
  end.

Definition usageQueries := collect usageQuery.
Definition usagePuts := collect usagePut.
Definition clockReadings := collect clockReading.
Definition storeFailures := collect storeFailure.

(** A program all of whose operations, whatever the answers, pass the
    test [ok]. *)
Fixpoint performsOnly {A : Type} (ok : forall X : Type, op X -> bool)
  (p : prog A) : Prop :=
  match p with
  | Ret _ => True
  | Throw _ => True
  | Vis o k => ok _ o = true /\ forall x, performsOnly ok (k x)
  end.

(** Commands that change a table. *)
Definition isWrite {X : Type} (o : op X) : bool :=
  match o with
  | PutConfigItem _ | PutUsageItem _ | DeleteUsageItem _ _ => true
  | _ => false
  end.

Definition writes (tr : list event) : list event :=
  filter (fun ev => match ev with Event o _ => isWrite o end) tr.

Definition isRead {X : Type} (o : op X) : bool := negb (isWrite o).

Definition keepsConfig {X : Type} (o : op X) : bool :=
  match o with
  | PutConfigItem _ => false
  | _ => true
  end.

(** A usage record as [recordUsage] builds it for a key at an instant. *)
Definition stampedAt (key : string) (t : Z) : RateLimitUsageRecord :=
  mkUsage key (Js.toString t) t (t / 1000 + 24 * 60 * 60).

(* ================================================================= *)
(** ** The two DynamoDB tables *)

(** The tables as the document client presents them.  The config table
    is keyed by [serviceId]; the usage table by partition key [pk] and
    sort key [sk], both strings, and a key condition on [sk] compares
    strings, byte by byte.  A put replaces the item that has the same
    key.  DynamoDB answers a query in ascending order of the sort key;
    the answer here is in table order.  The services use only the
    number of items and their least timestamp, and what is stated of an
    answer after a put is stated up to the order of its items. *)
Module Dynamo.

Record World : Type := mkWorld {
  configTable : list RateLimitConfigRecord;
  usageTable : list RateLimitUsageRecord;
  now : Z;                (* what the clock last read *)
  upcoming : list Z;      (* what it will read next *)
  entropy : string;
  console : list string
}.

Definition satisfies (cond : SortKeyCondition) (sortKey : string) : bool :=
  match cond with
  | SkGe v => String.leb v sortKey
  | SkLt v => String.ltb sortKey v
  end.

Definition getItem (serviceId : string) (t : list RateLimitConfigRecord)
  : option RateLimitConfigRecord :=
  find (fun r => String.eqb (rec_serviceId r) serviceId) t.

Definition putItem (item : RateLimitConfigRecord)
  (t : list RateLimitConfigRecord) : list RateLimitConfigRecord :=
  item
    :: filter (fun r => negb (String.eqb (rec_serviceId r)
                                (rec_serviceId item))) t.

Definition sameKey (key sortKey : string) (r : RateLimitUsageRecord)
  : bool :=
  String.eqb (pk r) key && String.eqb (sk r) sortKey.

Definition deleteUsage (key sortKey : string)
  (t : list RateLimitUsageRecord) : list RateLimitUsageRecord :=
  filter (fun r => negb (sameKey key sortKey r)) t.

Definition putUsage (item : RateLimitUsageRecord)
  (t : list RateLimitUsageRecord) : list RateLimitUsageRecord :=
  deleteUsage (pk item) (sk item) t ++ [item].

Definition query (key : string) (cond : SortKeyCondition)
  (t : list RateLimitUsageRecord) : list RateLimitUsageRecord :=
  filter (fun r => String.eqb (pk r) key && satisfies cond (sk r)) t.

Definition withConfig (w : World) (t : list RateLimitConfigRecord) : World :=
  mkWorld t (usageTable w) (now w) (upcoming w) (entropy w) (console w).

Definition withUsage (w : World) (t : list RateLimitUsageRecord) : World :=
  mkWorld (configTable w) t (now w) (upcoming w) (entropy w) (console w).

Definition tick (w : World) : Z * World :=
  match upcoming w with
  | [] => (now w, w)
  | t :: rest =>
      (t, mkWorld (configTable w) (usageTable w) t rest
            (entropy w) (console w))
  end.

Definition print (w : World) (line : string) : World :=
  mkWorld (configTable w) (usageTable w) (now w) (upcoming w) (entropy w)
    (console w ++ [line]).

Definition step (X : Type) (o : op X) (w : World) : X * World :=
  match o in op X return X * World with
  | GetConfigItem serviceId => (inr (getItem serviceId (configTable w)), w)
  | PutConfigItem item =>
      (inr tt, withConfig w (putItem item (configTable w)))
  | PutUsageItem item =>
      (inr tt, withUsage w (putUsage item (usageTable w)))
  | QueryUsage key cond => (inr (query key cond (usageTable w)), w)
  | QueryUsageKeys key cond =>
      (inr (map (fun r => (pk r, sk r)) (query key cond (usageTable w))), w)
  | DeleteUsageItem key sortKey =>
      (inr tt, withUsage w (deleteUsage key sortKey (usageTable w)))
  | DateNow => tick w
  | MathRandom => (entropy w, w)
  | ConsoleLog line => (tt, print w line)
  | ConsoleError line => (tt, print w line)
  end.

Definition store : handler World := mkHandler World step.

(** The same tables during an outage: every command of the document
    client is rejected. *)
Definition outage : exn := Error "ServiceUnavailable".

Definition stepUnavailable (X : Type) (o : op X) (w : World) : X * World :=
  match o in op X return X * World with
  | GetConfigItem _ => (inl outage, w)
  | PutConfigItem _ => (inl outage, w)
  | PutUsageItem _ => (inl outage, w)
  | QueryUsage _ _ => (inl outage, w)
  | QueryUsageKeys _ _ => (inl outage, w)
  | DeleteUsageItem _ _ => (inl outage, w)
  | DateNow => tick w
  | MathRandom => (entropy w, w)
  | ConsoleLog line => (tt, print w line)
  | ConsoleError line => (tt, print w line)
  end.

Definition unavailable : handler World := mkHandler World stepUnavailable.

(** The log of one client: the usage records under its key. *)
Definition usageOf (serviceId clientId : string) (w : World)
  : list RateLimitUsageRecord :=
  filter (fun r => String.eqb (pk r)
                     (DynamoDBService.usageKey serviceId clientId))
    (usageTable w).

(** What the window query is meant to return, in the words of the
    store's contract: the records of the key with
    [timestamp >= sinceTimestamp], timestamps compared as numbers. *)
Definition recordsSince (serviceId clientId : string) (sinceTimestamp : Z)
  (w : World) : list RateLimitUsageRecord :=
  filter (fun r => sinceTimestamp <=? timestamp r)
    (usageOf serviceId clientId w).

(** The two further commands on the config table: the query answers
    with the items of the given key, the delete removes them. *)
Definition stepConfig (X : Type) (o : configOp X) (w : World) : X * World :=
  match o in configOp X return X * World with
  | QueryConfigItems serviceId =>
      (inr (filter (fun r => String.eqb (rec_serviceId r) serviceId)
              (configTable w)), w)
  | DeleteConfigItem serviceId =>
      (inr tt,
       withConfig w
         (filter (fun r => negb (String.eqb (rec_serviceId r) serviceId))
            (configTable w)))
  end.

Definition adminStore : adminHandler World :=
  mkAdminHandler World store stepConfig.

(** What one answered operation does to the usage table, and to the
    config table. *)
Definition usageAfter (t : list RateLimitUsageRecord) (ev : event)
  : list RateLimitUsageRecord :=
  match ev with
  | Event o _ =>
      match o with
      | PutUsageItem item => putUsage item t
      | DeleteUsageItem key sortKey => deleteUsage key sortKey t
      | _ => t
      end
  end.

Definition configAfter (t : list RateLimitConfigRecord) (ev : event)
  : list RateLimitConfigRecord :=
  match ev with
  | Event o _ =>
      match o with
      | PutConfigItem item => putItem item t
      | _ => t
      end
  end.

End Dynamo.

(** The result and the final state of a run. *)
Definition outcome {W A : Type} (x : (exn + A) * W * list event) : exn + A :=
  fst (fst x).

Definition final {W A : Type} (x : (exn + A) * W * list event) : W :=
  snd (fst x).

Definition trace {W A : Type} (x : (exn + A) * W * list event)
  : list event := snd x.

(** The result and the final state of an [admin] run. *)
Definition adminOutcome {W A : Type} (x : (exn + A) * W * list adminEvent)
  : exn + A := fst (fst x).

Definition adminFinal {W A : Type} (x : (exn + A) * W * list adminEvent)
  : W := snd (fst x).

Definition adminTrace {W A : Type} (x : (exn + A) * W * list adminEvent)
  : list adminEvent := snd x.

(** The tables once [deleteServiceConfig] has run on them. *)
Definition afterDelete (serviceId : string) (w : Dynamo.World)
  : Dynamo.World :=
  adminFinal (adminRun Dynamo.adminStore
                (ConfigService.deleteServiceConfig serviceId) w).

(** The tables once [resetRateLimit] has run on them. *)
Definition afterReset (serviceId clientId : string) (w : Dynamo.World)
  : Dynamo.World :=
  final (run Dynamo.store
           (RateLimitService.resetRateLimit serviceId clientId) w).

(** The tables once [updateServiceConfig] has run on them, and once
    [createDefaultConfig] has. *)
Definition afterUpdate (serviceId : string) (newRules : Rules)
  (w : Dynamo.World) : Dynamo.World :=
  final (run Dynamo.store
           (ConfigService.updateServiceConfig serviceId newRules) w).

Definition afterCreateDefault (serviceId : string) (w : Dynamo.World)
  : Dynamo.World :=
  final (run Dynamo.store (ConfigService.createDefaultConfig serviceId) w).

(* ================================================================= *)
(** ** Comparing the two variants of [RateLimitService] *)








(* ================================================================= *)
(** ** Sample states *)

Module Demo.

Definition uploads : RateLimitConfigRecord :=
  mkConfigRecord "uploads" [("default", mkRule 60000 5)]
    1690000000000 1690000000000.

Definition stamped (t : Z) : RateLimitUsageRecord :=
  mkUsage "uploads#ip:203.0.113.7" (Js.toString t) t (t / 1000 + 86400).

Definition world (records : list RateLimitUsageRecord) (clock : Z)
  : Dynamo.World :=
  Dynamo.mkWorld [uploads] records clock [] "k3v9x0q1a" [].

Definition request : RateLimitRequest :=
  mkRequest "uploads" "ip:203.0.113.7" None.

Definition noon : Z := 1700000000000.

(** Two requests, thirty and twenty seconds ago. *)
Definition underLimit : Dynamo.World :=
  world [stamped (noon - 30000); stamped (noon - 20000)] noon.

Definition granted : RateLimitResponse :=
  mkResponse true 2 (noon + 60000) None
    (mkResponseMetadata "uploads" 60000 5).

(** Five requests in the window, the oldest 45.5 seconds ago. *)
Definition atLimit : Dynamo.World :=
  world [stamped (noon - 45500); stamped (noon - 40000);
         stamped (noon - 30000); stamped (noon - 20000);
         stamped (noon - 10000)] noon.

Definition denied : RateLimitResponse :=
  mkResponse false 0 (noon + 60000) (Some 15)
    (mkResponseMetadata "uploads" 60000 5).

(** Five requests in the window, the oldest exactly one window ago. *)
Definition onTheEdge : Dynamo.World :=
  world [stamped (noon - 60000); stamped (noon - 40000);
         stamped (noon - 30000); stamped (noon - 20000);
         stamped (noon - 10000)] noon.

Definition deniedNow : RateLimitResponse :=
  mkResponse false 0 (noon + 60000) (Some 0)
    (mkResponseMetadata "uploads" 60000 5).

(** One request, recorded in the very millisecond the clock reads. *)
Definition sameInstant : Dynamo.World := world [stamped noon] noon.

(** A rule whose window is as long as the range of [Date], and a client
    that has not asked yet. *)
Definition endlessWindow : RateLimitConfigRecord :=
  mkConfigRecord "uploads" [("default", mkRule 8640000000000000 5)]
    1690000000000 1690000000000.

Definition endless : Dynamo.World :=
  Dynamo.mkWorld [endlessWindow] [] noon [] "k3v9x0q1a" [].

(** The same five requests, seen an hour less forty seconds later. *)
Definition oneHourLater : Dynamo.World :=
  world [stamped (noon - 45500); stamped (noon - 40000);
         stamped (noon - 30000); stamped (noon - 20000);
         stamped (noon - 10000)] (noon + 3560000).

(** A request that came through a proxy. *)
Definition behindProxy : Context :=
  mkContext (fun name =>
    if String.eqb name "x-forwarded-for"
    then Some " 203.0.113.7 , 10.0.0.1"
    else if String.eqb name "x-real-ip" then Some "10.0.0.1"
    else None).

End Demo.

(* ================================================================= *)
(** ** Proof automation *)

(** Symbolic execution of [run]: reduce, then split on the next answer
    of the environment or on the test the program is waiting for. *)
Ltac red_run H :=
  cbn -[Js.toString Js.ceilDiv Js.reduce Z.of_nat Z.ltb Z.leb Z.max Z.sub Z.add
        Z.div Z.mul String.append DynamoDBService.usageKey tierOf
        RateLimitService.validateRequest ConfigService.validateConfig older
        Js.getProp DEFAULT_RATE_LIMITS ConfigService.getRateLimit
        RateLimitService.getUsageStats RateLimitServiceLogging.getUsageStats
        DynamoDBService.cleanupOldUsage] in H.

Ltac exec_step H :=
  match type of H with
  | context [handle ?h ?o ?w] =>
      let x := fresh "x" in
      let w' := fresh "w" in
      let E := fresh "Hstep" in
      destruct (handle h o w) as [x w'] eqn:E
  | context [match ?x with inl _ => _ | inr _ => _ end] =>
      first [ is_var x; destruct x | let E := fresh "Hsum" in destruct x eqn:E ]
  | context [match ?x with Some _ => _ | None => _ end] =>
      first [ is_var x; destruct x | let E := fresh "Hopt" in destruct x eqn:E ]
  | context [if ?b then _ else _] =>
      let E := fresh "Hif" in destruct b eqn:E
  end.

Ltac execute H :=
  unfold lift in H; red_run H;
  repeat (exec_step H; unfold lift in H; red_run H; try discriminate H).







(* ================================================================= *)
(** * Properties *)

(** ** Decimal strings and their order *)

Example toString_instant : Js.toString 1700000000000 = "1700000000000".
Proof. vm_compute. reflexivity. Qed.

Example toString_below_zero : Js.toString (-42) = "-42".
Proof. vm_compute. reflexivity. Qed.

Example ceilDiv_rounds_up :
  Js.ceilDiv 30000 1000 = 30 /\ Js.ceilDiv 29001 1000 = 30 /\
  Js.ceilDiv 0 1000 = 0 /\ Js.ceilDiv (-1) 1000 = 0.
Proof. repeat split; reflexivity. Qed.

Example strings_are_not_numbers :
  String.leb (Js.toString 999999999999) (Js.toString 1700000000000) = false
  /\ (999999999999 <=? 1700000000000) = true.
Proof. split; vm_compute; reflexivity. Qed.

Module JsFacts.
Import Js.

Lemma ceilDiv_spec x d :
  0 < d -> d * (ceilDiv x d - 1) < x <= d * ceilDiv x d.
Proof.
  intros Hd. unfold ceilDiv.
  pose proof (Z.div_mod (- x) d ltac:(lia)) as Hdm.
  pose proof (Z.mod_pos_bound (- x) d Hd) as Hb.
  nia.
Qed.

Lemma digitVal_digitChar d : 0 <= d <= 9 -> digitVal (digitChar d) = d.
Proof.
  intros Hd. unfold digitVal, digitChar.
  rewrite N_ascii_embedding by lia. lia.
Qed.

Lemma allDigits_bound s :
  allDigits s -> 0 <= decimalValue s < 10 ^ Z.of_nat (String.length s).
Proof.
  induction s as [|c s IH]; cbn [allDigits decimalValue String.length].
  - intros _. cbn. lia.
  - intros [Hc Hs]. specialize (IH Hs). unfold isDigit in Hc.
    rewrite Nat2Z.inj_succ, Z.pow_succ_r by lia. nia.
Qed.

Lemma digitsInto_spec fuel : forall n acc,
  0 <= n < 10 ^ Z.of_nat fuel -> allDigits acc ->
  allDigits (digitsInto fuel n acc) /\
  decimalValue (digitsInto fuel n acc)
    = n * 10 ^ Z.of_nat (String.length acc) + decimalValue acc.
Proof.
  induction fuel as [|fuel IH]; intros n acc Hn Hacc.
  - cbn in Hn. assert (n = 0) by lia. subst n. cbn [digitsInto]. split; [assumption | lia].
  - cbn [digitsInto]. destruct (n <? 10) eqn:Hlt.
    + apply Z.ltb_lt in Hlt. cbn [allDigits decimalValue]. unfold isDigit.
      rewrite digitVal_digitChar by lia. split; [split; [lia | assumption] | reflexivity].
    + apply Z.ltb_ge in Hlt.
      rewrite Nat2Z.inj_succ, Z.pow_succ_r in Hn by lia.
      pose proof (Z.mod_pos_bound n 10 ltac:(lia)) as Hm.
      pose proof (Z.div_mod n 10 ltac:(lia)) as Hdm.
      assert (Hq : 0 <= n / 10 < 10 ^ Z.of_nat fuel).
      { split; [apply Z.div_pos; lia | apply Z.div_lt_upper_bound; lia]. }
      assert (Hacc' : allDigits (String (digitChar (n mod 10)) acc)).
      { cbn [allDigits]. unfold isDigit. rewrite digitVal_digitChar by lia. split; [lia | assumption]. }
      destruct (IH (n / 10) _ Hq Hacc') as [Hall Hval]. split; [assumption |].
      rewrite Hval. cbn [decimalValue String.length].
      rewrite digitVal_digitChar by lia.
      rewrite Nat2Z.inj_succ, Z.pow_succ_r by lia. nia.
Qed.

Lemma natToString_spec n :
  0 <= n -> allDigits (natToString n) /\ decimalValue (natToString n) = n.
Proof.
  intros Hn. unfold natToString.
  assert (Hfuel : 0 <= n < 10 ^ Z.of_nat (S (Z.to_nat (Z.log2 n)))).
  { split; [assumption |].
    rewrite Nat2Z.inj_succ, Z2Nat.id by apply Z.log2_nonneg.
    destruct (Z.eq_dec n 0) as [->|Hnz]; [cbn; lia |].
    pose proof (Z.log2_spec n ltac:(lia)) as [_ Hup].
    eapply Z.lt_le_trans; [exact Hup |].
    apply Z.pow_le_mono_l. lia. }
  destruct (digitsInto_spec _ n "" Hfuel I) as [Hall Hval].
  split; [assumption |]. rewrite Hval. cbn. lia.
Qed.

Lemma toString_nonneg n : 0 <= n -> toString n = natToString n.
Proof.
  intros Hn. unfold toString. destruct (n <? 0) eqn:E; [apply Z.ltb_lt in E; lia | reflexivity].
Qed.

Lemma compare_digits s : forall t,
  allDigits s -> allDigits t -> String.length s = String.length t ->
  String.compare s t = Z.compare (decimalValue s) (decimalValue t).
Proof.
  induction s as [|c s IH]; intros [|d t] Hs Ht Hlen; try discriminate.
  - reflexivity.
  - cbn [allDigits] in Hs, Ht. destruct Hs as [Hc Hs], Ht as [Hd Ht].
    cbn [String.length] in Hlen. injection Hlen as Hlen.
    pose proof (allDigits_bound s Hs) as Bs.
    pose proof (allDigits_bound t Ht) as Bt.
    cbn [String.compare decimalValue]. rewrite <- Hlen in *.
    unfold Ascii.compare. unfold isDigit, digitVal in *.
    set (P := 10 ^ Z.of_nat (String.length s)) in *.
    destruct (N.compare_spec (N_of_ascii c) (N_of_ascii d)) as [E|E|E].
    + rewrite E. rewrite (IH t Hs Ht Hlen).
      symmetry. destruct (Z.compare_spec (decimalValue s) (decimalValue t));
        [apply Z.compare_eq_iff | apply Z.compare_lt_iff | apply Z.compare_gt_iff]; lia.
    + symmetry. apply Z.compare_lt_iff. nia.
    + symmetry. apply Z.compare_gt_iff. nia.
Qed.

Lemma toString_compare a b :
  0 <= a -> 0 <= b ->
  String.length (toString a) = String.length (toString b) ->
  String.compare (toString a) (toString b) = Z.compare a b.
Proof.
  intros Ha Hb Hlen. rewrite !toString_nonneg in * by assumption.
  destruct (natToString_spec a Ha) as [Da Va], (natToString_spec b Hb) as [Db Vb].
  rewrite (compare_digits _ _ Da Db Hlen). now rewrite Va, Vb.
Qed.

Lemma toString_leb a b :
  0 <= a -> 0 <= b ->
  String.length (toString a) = String.length (toString b) ->
  String.leb (toString a) (toString b) = (a <=? b).
Proof.
  intros Ha Hb Hlen. unfold String.leb, Z.leb.
  now rewrite toString_compare.
Qed.

Lemma toString_ltb a b :
  0 <= a -> 0 <= b ->
  String.length (toString a) = String.length (toString b) ->
  String.ltb (toString a) (toString b) = (a <? b).
Proof.
  intros Ha Hb Hlen. unfold String.ltb, Z.ltb.
  now rewrite toString_compare.
Qed.

End JsFacts.

(** ** Runs of composed programs *)

Section Runs.
Context {W : Type} (h : handler W).

Lemma run_bind {A B : Type} (p : prog A) (f : A -> prog B) : forall w,
  run h (bind p f) w =
  let '(r, w1, t1) := run h p w in
  match r with
  | inl e => (inl e, w1, t1)
  | inr a => let '(r2, w2, t2) := run h (f a) w1 in (r2, w2, t1 ++ t2)
  end.
Proof.
  induction p as [a|e|X o k IH]; intros w; cbn [bind run].
  - destruct (run h (f a) w) as [[r2 w2] t2]. reflexivity.
  - reflexivity.
  - destruct (handle h o w) as [x w1]. rewrite IH.
    destruct (run h (k x) w1) as [[[e|a] w2] t1]; [reflexivity|].
    destruct (run h (f a) w2) as [[r3 w3] t3]. reflexivity.
Qed.

Lemma run_tryCatch {A : Type} (p : prog A) (handler : exn -> prog A) :
  forall w,
  run h (tryCatch p handler) w =
  let '(r, w1, t1) := run h p w in
  match r with
  | inl e => let '(r2, w2, t2) := run h (handler e) w1 in (r2, w2, t1 ++ t2)
  | inr a => (inr a, w1, t1)
  end.
Proof.
  induction p as [a|e|X o k IH]; intros w; cbn [tryCatch run].
  - reflexivity.
  - destruct (run h (handler e) w) as [[r2 w2] t2]. reflexivity.
  - destruct (handle h o w) as [x w1]. rewrite IH.
    destruct (run h (k x) w1) as [[[e|a] w2] t1]; [|reflexivity].
    destruct (run h (handler e) w2) as [[r3 w3] t3]. reflexivity.
Qed.

Lemma run_exec {A : Type} (p : prog A) : forall w r w' tr,
  run h p w = (r, w', tr) -> exec p tr r.
Proof.
  induction p as [a|e|X o k IH]; intros w r w' tr; cbn [run exec].
  - intros [= <- _ <-]. auto.
  - intros [= <- _ <-]. auto.
  - destruct (handle h o w) as [x w1].
    destruct (run h (k x) w1) as [[r2 w2] t2] eqn:Hk.
    intros [= <- _ <-]. exists x, t2. split; [reflexivity|]. eapply IH, Hk.
Qed.

End Runs.

Lemma collect_app {B : Type} (f : event -> option B) (t1 t2 : list event) :
  collect f (t1 ++ t2) = collect f t1 ++ collect f t2.
Proof.
  induction t1 as [|ev t1 IH]; cbn [collect app]; [reflexivity|].
  destruct (f ev); cbn; now rewrite IH.
Qed.

(** What the configuration lookup leaves in the trace. *)
Lemma getRateLimit_trace W (h : handler W) w serviceId tier r w1 t1 :
  run h (ConfigService.getRateLimit serviceId tier) w = (r, w1, t1) ->
  usageQueries t1 = [] /\ usagePuts t1 = [] /\ clockReadings t1 = [] /\
  (forall e, In e (storeFailures t1) -> r = inl e).
Proof.
  intros H. unfold ConfigService.getRateLimit in H. execute H.
  all: injection H as <- <- <-; cbn; repeat split; try reflexivity;
       intros e0 Hin; cbn in Hin; intuition congruence.
Qed.

Lemma fold_older_min : forall rest first,
  In (fold_left older rest first) (first :: rest) /\
  forall r, In r (first :: rest) ->
            timestamp (fold_left older rest first) <= timestamp r.
Proof.
  induction rest as [|x rest IH]; intros first; cbn [fold_left].
  - split; [now left|]. intros r [<-|[]]. lia.
  - destruct (IH (older first x)) as [Hin Hmin]. split.
    + destruct Hin as [Hin|Hin]; [|now right; right].
      rewrite <- Hin. unfold older.
      destruct (timestamp x <? timestamp first); [right; now left | now left].
    + intros r Hr.
      assert (Hfx : timestamp (older first x) <= timestamp first /\
                    timestamp (older first x) <= timestamp x).
      { unfold older. destruct (timestamp x <? timestamp first) eqn:E;
          [apply Z.ltb_lt in E | apply Z.ltb_ge in E]; lia. }
      pose proof (Hmin (older first x) (or_introl eq_refl)) as H0.
      destruct Hr as [<-|[<-|Hr]]; [lia | lia |].
      apply Hmin. now right.
Qed.

Lemma checkRateLimit_completed W (h : handler W) w request response :
  outcome (run h (RateLimitService.checkRateLimit request) w) = inr response ->
  let tr := trace (run h (RateLimitService.checkRateLimit request) w) in
  exists rateLimit now usageRecords,
    outcome (run h (ConfigService.getRateLimit (req_serviceId request)
                      (tierOf request)) w) = inr rateLimit /\
    hd_error (clockReadings tr) = Some now /\
    usageQueries tr =
      [(DynamoDBService.usageKey (req_serviceId request) (clientId request),
        SkGe (Js.toString (now - rl_windowMs rateLimit)),
        inr usageRecords)] /\
    let currentUsage := Z.of_nat (List.length usageRecords) in
    allowed response = (currentUsage <? rl_maxRequests rateLimit) /\
    remaining response =
      (if allowed response
       then Z.max 0 (rl_maxRequests rateLimit - currentUsage) - 1
       else Z.max 0 (rl_maxRequests rateLimit - currentUsage)) /\
    resetTime response = now + rl_windowMs rateLimit /\
    retryAfter response =
      (if negb (allowed response) then
         match usageRecords with
         | [] => None
         | first :: rest =>
             Some (Js.ceilDiv
                     (timestamp (fold_left older rest first)
                        + rl_windowMs rateLimit - now) 1000)
         end
       else None) /\
    resp_metadata response =
      mkResponseMetadata (req_serviceId request)
        (rl_windowMs rateLimit) (rl_maxRequests rateLimit) /\
    usagePuts tr =
      (if allowed response then
         match tl (clockReadings tr) with
         | [] => []
         | recordedAt :: _ =>
             [(mkUsage
                 (DynamoDBService.usageKey (req_serviceId request)
                    (clientId request))
                 (Js.toString recordedAt) recordedAt
                 (recordedAt / 1000 + 24 * 60 * 60), inr tt)]
         end
       else []) /\
    List.length (usagePuts tr) = (if allowed response then 1%nat else 0%nat).
Proof.
  unfold outcome, trace.
  destruct (run h (RateLimitService.checkRateLimit request) w)
    as [[r w'] tr] eqn:H.
  cbn [fst snd]. intros ->.
  unfold RateLimitService.checkRateLimit in H.
  rewrite run_tryCatch in H.
  destruct (RateLimitService.validateRequest request) as [e|[]];
    cbn [lift bind] in H.
  { execute H. }
  rewrite run_bind in H.
  destruct (run h (ConfigService.getRateLimit (req_serviceId request)
                     (tierOf request)) w) as [[[e|rateLimit] w1] t1] eqn:Hcfg.
  { execute H. }
  destruct (getRateLimit_trace _ _ _ _ _ _ _ _ Hcfg) as (Hq & Hp & Hc & _).
  exists rateLimit.
  execute H.
  all: injection H as <- <- <-.
  all: unfold usageQueries, usagePuts, clockReadings in *.
  all: rewrite !collect_app, ?Hq, ?Hp, ?Hc.
  all: cbn -[Js.toString Js.ceilDiv Z.of_nat Z.ltb Z.max Z.sub Z.add Z.div Z.mul
             String.append DynamoDBService.usageKey].
  all: match goal with
       | Hu : handle _ (QueryUsage _ (SkGe (Js.toString (?x - _)))) _
                = (inr ?l, _) |- _ =>
           exists x, l; rename l into usageRecords
       end.
  all: repeat (split; [reflexivity|]).
  all: repeat match goal with u : unit |- _ => destruct u end.
  all: cbn [negb andb] in *; try discriminate.
  all: unfold RateLimitService.calculateNextWindowStart.
  all: try (destruct usageRecords as [|first rest];
            [| cbn in *; discriminate ]).
  all: try match goal with
           | Hr : Js.reduce older ?l = _ |- _ =>
               destruct l as [|first rest]; cbn in Hr; [discriminate|];
               injection Hr as <-
           end.
  all: repeat split; try reflexivity; try (symmetry; assumption).
Qed.

(* ================================================================= *)
(** ** The admission decision *)

Example checkRateLimit_under_the_limit :
  outcome (run Dynamo.store (RateLimitService.checkRateLimit Demo.request)
             Demo.underLimit) = inr Demo.granted /\
  Dynamo.usageTable
    (final (run Dynamo.store (RateLimitService.checkRateLimit Demo.request)
              Demo.underLimit))
  = Dynamo.usageTable Demo.underLimit ++ [Demo.stamped Demo.noon].
Proof. split; vm_compute; reflexivity. Qed.

Example checkRateLimit_at_the_limit :
  outcome (run Dynamo.store (RateLimitService.checkRateLimit Demo.request)
             Demo.atLimit) = inr Demo.denied /\
  Dynamo.usageTable
    (final (run Dynamo.store (RateLimitService.checkRateLimit Demo.request)
              Demo.atLimit))
  = Dynamo.usageTable Demo.atLimit.
Proof. split; vm_compute; reflexivity. Qed.

(** C1.  An admitted request is not always a record more.  The sort
    key of a usage record is the millisecond it was written in, and a
    put replaces the item of the same key: for a client whose log
    holds a record of the very millisecond the clock reads, a call finds
    one record in the window, admits the request under a limit of five
    and writes its record in the place of the one that was there.  The
    log holds one record before and one after, and the next call in that
    millisecond is answered as the first was. *)
Lemma checkRateLimit_overwrites_record_of_same_instant :
  Dynamo.usageOf "uploads" "ip:203.0.113.7" Demo.sameInstant
  = [Demo.stamped Demo.noon] /\
  outcome (run Dynamo.store (RateLimitService.checkRateLimit Demo.request)
             Demo.sameInstant)
  = inr (mkResponse true 3 (Demo.noon + 60000) None
           (mkResponseMetadata "uploads" 60000 5)) /\
  usagePuts (trace (run Dynamo.store
                      (RateLimitService.checkRateLimit Demo.request)
                      Demo.sameInstant))
  = [(Demo.stamped Demo.noon, inr tt)] /\
  Dynamo.usageOf "uploads" "ip:203.0.113.7"
    (final (run Dynamo.store (RateLimitService.checkRateLimit Demo.request)
              Demo.sameInstant))
  = [Demo.stamped Demo.noon] /\
  outcome (run Dynamo.store (RateLimitService.checkRateLimit Demo.request)
             (final (run Dynamo.store
                       (RateLimitService.checkRateLimit Demo.request)
                       Demo.sameInstant)))
  = inr (mkResponse true 3 (Demo.noon + 60000) None
           (mkResponseMetadata "uploads" 60000 5)).
Proof. repeat split; vm_compute; reflexivity. Qed.

(** On the tables, an admitted call puts its record, which takes the
    place of a record of the same key and sort key if there is one; a
    denied call leaves the usage table as it was. *)
Lemma checkRateLimit_on_the_table (w : Dynamo.World)
  (request : RateLimitRequest) (response : RateLimitResponse) :
  outcome (run Dynamo.store (RateLimitService.checkRateLimit request) w)
  = inr response ->
  (allowed response = true ->
   exists item,
     usagePuts (trace (run Dynamo.store
                         (RateLimitService.checkRateLimit request) w))
     = [(item, inr tt)] /\
     Dynamo.usageTable
       (final (run Dynamo.store
                 (RateLimitService.checkRateLimit request) w))
     = Dynamo.putUsage item (Dynamo.usageTable w)) /\
  (allowed response = false ->
   Dynamo.usageTable
     (final (run Dynamo.store (RateLimitService.checkRateLimit request) w))
   = Dynamo.usageTable w).
Proof.
  unfold outcome, final, trace.
  destruct (run Dynamo.store (RateLimitService.checkRateLimit request) w)
    as [[r w'] tr] eqn:H.
  cbn [fst snd]. intros ->.
  unfold RateLimitService.checkRateLimit in H.
  destruct w as [ct ut now up en co].
  unfold lift, Dynamo.tick in H.
  cbn -[Js.toString Js.ceilDiv Js.reduce Z.of_nat Z.ltb Z.leb Z.max Z.sub Z.add
        Z.div Z.mul String.append DynamoDBService.usageKey tierOf
        RateLimitService.validateRequest older Js.getProp DEFAULT_RATE_LIMITS
        Dynamo.getItem Dynamo.query Dynamo.putUsage] in H.
  repeat (unfold Dynamo.tick in H; first
    [ discriminate H
    | match type of H with
      | context [match ?x with inl _ => _ | inr _ => _ end] =>
          destruct x eqn:?
      | context [match ?x with Some _ => _ | None => _ end] =>
          destruct x eqn:?
      | context [match ?x with [] => _ | _ :: _ => _ end] =>
          destruct x eqn:?
      | context [if ?b then _ else _] => destruct b eqn:?
      end ];
    cbn -[Js.toString Js.ceilDiv Js.reduce Z.of_nat Z.ltb Z.leb Z.max Z.sub
          Z.add Z.div Z.mul String.append DynamoDBService.usageKey tierOf
          RateLimitService.validateRequest older Js.getProp
          DEFAULT_RATE_LIMITS Dynamo.getItem Dynamo.query Dynamo.putUsage]
      in H).
  all: injection H as <- <- <-.
  all: cbn -[Js.toString Z.div Z.add Z.mul DynamoDBService.usageKey
             Dynamo.putUsage].
  all: split; intros Ha; try discriminate Ha; try reflexivity.
  all: eexists; split; reflexivity.
Qed.

Lemma getUsageStats_trace W (h : handler W) w serviceId clientId tier :
  usagePuts (trace (run h (RateLimitService.getUsageStats
                             serviceId clientId tier) w)) = [].
Proof.
  unfold trace.
  destruct (run h (RateLimitService.getUsageStats serviceId clientId tier) w)
    as [[r w'] tr] eqn:H.
  unfold RateLimitService.getUsageStats in H.
  rewrite run_tryCatch, run_bind in H.
  destruct (run h (ConfigService.getRateLimit serviceId tier) w)
    as [[[e|rateLimit] w1] t1] eqn:Hcfg;
    destruct (getRateLimit_trace _ _ _ _ _ _ _ _ Hcfg) as (_ & Hp & _ & _).
  - execute H. injection H as <- <- <-. cbn [snd].
    unfold usagePuts in *. rewrite collect_app, Hp. reflexivity.
  - execute H. all: injection H as <- <- <-; cbn [snd].
    all: unfold usagePuts in *; rewrite ?collect_app, Hp; reflexivity.
Qed.

(** The read-only operations consume no quota: [getUsageStats],
    [isBlocked] and [getTimeUntilReset] put no usage record, whatever
    the environment answers. *)
Theorem stats_do_not_consume_quota (W : Type) (h : handler W) (w : W)
  (serviceId clientId tier : string) :
  usagePuts (trace (run h (RateLimitService.getUsageStats
                             serviceId clientId tier) w)) = [] /\
  usagePuts (trace (run h (RateLimitService.isBlocked
                             serviceId clientId tier) w)) = [] /\
  usagePuts (trace (run h (RateLimitService.getTimeUntilReset
                             serviceId clientId tier) w)) = [].
Proof.
  pose proof (getUsageStats_trace W h w serviceId clientId tier) as Hstats.
  split; [exact Hstats|].
  unfold RateLimitService.isBlocked, RateLimitService.getTimeUntilReset.
  rewrite !run_tryCatch, !run_bind. unfold trace, usagePuts in *.
  destruct (run h (RateLimitService.getUsageStats serviceId clientId tier) w)
    as [[[e|stats] w1] t1]; cbn [snd] in Hstats; cbn [run perform bind].
  - destruct (handle h _ w1) as [[] w2]. destruct (handle h _ w1) as [[] w3].
    cbn [snd]. rewrite !collect_app, Hstats. now split.
  - destruct (handle h DateNow w1) as [now w2]. cbn [snd].
    rewrite !collect_app, Hstats. now split.
Qed.

(** What remains, under a whole threshold.  [RateLimitRule] holds its
    thresholds as integers.  In a completed [checkRateLimit] under a
    rule whose [maxRequests] is such a whole number, [remaining] equals
    [maxRequests - currentUsage - (1 if allowed else 0)] floored at
    zero, where [currentUsage] counts the records the window query
    returned; it is never negative and, [maxRequests] not being
    negative, never above [maxRequests]. *)
Theorem checkRateLimit_remaining
  (W : Type) (h : handler W) (w : W)
  (request : RateLimitRequest) (response : RateLimitResponse) :
  outcome (run h (RateLimitService.checkRateLimit request) w) = inr response ->
  0 <= meta_maxRequests (resp_metadata response) ->
  exists rateLimit key cond usageRecords,
    outcome (run h (ConfigService.getRateLimit (req_serviceId request)
                      (tierOf request)) w) = inr rateLimit /\
    meta_maxRequests (resp_metadata response) = rl_maxRequests rateLimit /\
    usageQueries (trace (run h (RateLimitService.checkRateLimit request) w))
      = [(key, cond, inr usageRecords)] /\
    remaining response
      = Z.max 0 (rl_maxRequests rateLimit
                 - Z.of_nat (List.length usageRecords)
                 - (if allowed response then 1 else 0)) /\
    0 <= remaining response <= rl_maxRequests rateLimit.
Proof.
  intros H Hmax.
  destruct (checkRateLimit_completed W h w request response H)
    as (rateLimit & now & usageRecords & Hcfg & _ & Hq & Hallowed & Hrem & _
        & _ & Hmeta & _).
  exists rateLimit,
    (DynamoDBService.usageKey (req_serviceId request) (clientId request)),
    (SkGe (Js.toString (now - rl_windowMs rateLimit))), usageRecords.
  rewrite Hmeta in Hmax |- *. cbn [meta_maxRequests] in Hmax |- *.
  cbv zeta in Hallowed, Hrem.
  repeat (split; [first [exact Hcfg | exact Hq | reflexivity]|]).
  rewrite Hrem.
  destruct (allowed response); symmetry in Hallowed;
    [apply Z.ltb_lt in Hallowed | apply Z.ltb_ge in Hallowed]; lia.
Qed.

Lemma checkRateLimit_remaining_witness :
  outcome (run Dynamo.store (RateLimitService.checkRateLimit Demo.request)
             Demo.underLimit) = inr Demo.granted /\
  0 <= meta_maxRequests (resp_metadata Demo.granted) /\
  exists rateLimit key cond usageRecords,
    outcome (run Dynamo.store
               (ConfigService.getRateLimit (req_serviceId Demo.request)
                  (tierOf Demo.request)) Demo.underLimit) = inr rateLimit /\
    meta_maxRequests (resp_metadata Demo.granted)
      = rl_maxRequests rateLimit /\
    usageQueries
      (trace (run Dynamo.store
                (RateLimitService.checkRateLimit Demo.request)
                Demo.underLimit))
      = [(key, cond, inr usageRecords)] /\
    remaining Demo.granted
      = Z.max 0 (rl_maxRequests rateLimit
                 - Z.of_nat (List.length usageRecords)
                 - (if allowed Demo.granted then 1 else 0)) /\
    0 <= remaining Demo.granted <= rl_maxRequests rateLimit.
Proof.
  split; [vm_compute; reflexivity|]. split; [vm_compute; discriminate|].
  apply (checkRateLimit_remaining Dynamo.World Dynamo.store
           Demo.underLimit Demo.request Demo.granted).
  - vm_compute. reflexivity.
  - vm_compute. discriminate.
Defined.

(** C3. A [checkRateLimit] response carries [retryAfter] exactly when it
    is denied and the window query returned at least one record; its
    value is then [ceil ((oldest.timestamp + windowMs - now) / 1000)],
    for a record of least timestamp among those returned, and for any
    other record of that same least timestamp. *)
Theorem checkRateLimit_retryAfter
  (W : Type) (h : handler W) (w : W)
  (request : RateLimitRequest) (response : RateLimitResponse) :
  outcome (run h (RateLimitService.checkRateLimit request) w) = inr response ->
  exists rateLimit now key usageRecords,
    outcome (run h (ConfigService.getRateLimit (req_serviceId request)
                      (tierOf request)) w) = inr rateLimit /\
    hd_error
      (clockReadings
         (trace (run h (RateLimitService.checkRateLimit request) w)))
      = Some now /\
    usageQueries (trace (run h (RateLimitService.checkRateLimit request) w))
      = [(key, SkGe (Js.toString (now - rl_windowMs rateLimit)),
          inr usageRecords)] /\
    (retryAfter response <> None <->
       allowed response = false /\ usageRecords <> []) /\
    (forall seconds, retryAfter response = Some seconds ->
       (exists oldest,
          In oldest usageRecords /\
          (forall r, In r usageRecords -> timestamp oldest <= timestamp r) /\
          seconds = Js.ceilDiv (timestamp oldest + rl_windowMs rateLimit - now)
                      1000) /\
       (forall oldest,
          In oldest usageRecords ->
          (forall r, In r usageRecords -> timestamp oldest <= timestamp r) ->
          seconds = Js.ceilDiv (timestamp oldest + rl_windowMs rateLimit - now)
                      1000)).
Proof.
  intros H.
  destruct (checkRateLimit_completed W h w request response H)
    as (rateLimit & now & usageRecords & Hcfg & Hnow & Hq & _ & _ & _
        & Hretry & _).
  exists rateLimit, now,
    (DynamoDBService.usageKey (req_serviceId request) (clientId request)),
    usageRecords.
  repeat (split; [first [exact Hcfg | exact Hnow | exact Hq]|]).
  cbv zeta in Hretry. rewrite Hretry. split.
  - destruct (allowed response), usageRecords as [|first rest]; cbn;
      (split;
       [ intros Hn; first [congruence | split; congruence]
       | intros [Ha Hne]; congruence ]).
  - intros seconds Hs.
    destruct (allowed response); [discriminate|]. cbn [negb] in Hs.
    destruct usageRecords as [|first rest]; [discriminate|].
    injection Hs as <-.
    destruct (fold_older_min rest first) as [Hin Hmin]. split.
    + exists (fold_left older rest first). repeat split; assumption.
    + intros oldest Ho Hleast.
      assert (timestamp oldest = timestamp (fold_left older rest first))
        by (specialize (Hmin _ Ho); specialize (Hleast _ Hin); lia).
      congruence.
Qed.

Lemma checkRateLimit_retryAfter_witness :
  outcome (run Dynamo.store (RateLimitService.checkRateLimit Demo.request)
             Demo.atLimit) = inr Demo.denied /\
  exists rateLimit now key usageRecords,
    outcome (run Dynamo.store
               (ConfigService.getRateLimit (req_serviceId Demo.request)
                  (tierOf Demo.request)) Demo.atLimit) = inr rateLimit /\
    hd_error
      (clockReadings
         (trace (run Dynamo.store
                   (RateLimitService.checkRateLimit Demo.request)
                   Demo.atLimit)))
      = Some now /\
    usageQueries
      (trace (run Dynamo.store
                (RateLimitService.checkRateLimit Demo.request) Demo.atLimit))
      = [(key, SkGe (Js.toString (now - rl_windowMs rateLimit)),
          inr usageRecords)] /\
    (retryAfter Demo.denied <> None <->
       allowed Demo.denied = false /\ usageRecords <> []) /\
    (forall seconds, retryAfter Demo.denied = Some seconds ->
       (exists oldest,
          In oldest usageRecords /\
          (forall r, In r usageRecords -> timestamp oldest <= timestamp r) /\
          seconds = Js.ceilDiv (timestamp oldest + rl_windowMs rateLimit - now)
                      1000) /\
       (forall oldest,
          In oldest usageRecords ->
          (forall r, In r usageRecords -> timestamp oldest <= timestamp r) ->
          seconds = Js.ceilDiv (timestamp oldest + rl_windowMs rateLimit - now)
                      1000)).
Proof.
  split; [vm_compute; reflexivity|].
  apply (checkRateLimit_retryAfter Dynamo.World Dynamo.store
           Demo.atLimit Demo.request Demo.denied).
  vm_compute. reflexivity.
Defined.

(** C6, as stated, fails on the edge of the window: with the oldest of
    five records stamped exactly [windowMs] before [now], every record
    lies between [now - windowMs] and [now], the request is denied, and
    [retryAfter] is present and zero. *)
Lemma retryAfter_zero_on_window_edge :
  outcome (run Dynamo.store (RateLimitService.checkRateLimit Demo.request)
             Demo.onTheEdge) = inr Demo.deniedNow /\
  hd_error
    (clockReadings
       (trace (run Dynamo.store
                 (RateLimitService.checkRateLimit Demo.request)
                 Demo.onTheEdge))) = Some Demo.noon /\
  usageQueries
    (trace (run Dynamo.store
              (RateLimitService.checkRateLimit Demo.request) Demo.onTheEdge))
    = [("uploads#ip:203.0.113.7", SkGe (Js.toString (Demo.noon - 60000)),
        inr (Dynamo.usageTable Demo.onTheEdge))] /\
  (forall r, In r (Dynamo.usageTable Demo.onTheEdge) ->
             Demo.noon - 60000 <= timestamp r <= Demo.noon) /\
  retryAfter Demo.deniedNow = Some 0 /\
  ~ 0 < 0.
Proof.
  split; [vm_compute; reflexivity|].
  split; [vm_compute; reflexivity|].
  split; [vm_compute; reflexivity|].
  split; [|split; [reflexivity | lia]].
  intros r Hin. vm_compute in Hin.
  repeat (destruct Hin as [<-|Hin]; [vm_compute; split; discriminate|]).
  contradiction.
Qed.

(** C6, amended.  Whenever [retryAfter] is present in a [checkRateLimit]
    response it is a non-negative integer, for every set of window
    records whose timestamps are at least [now - windowMs]; it is
    strictly positive when they are all strictly later than
    [now - windowMs]. *)
Theorem retryAfter_never_negative
  (W : Type) (h : handler W) (w : W)
  (request : RateLimitRequest) (response : RateLimitResponse)
  (now seconds : Z) (key : string) (cond : SortKeyCondition)
  (usageRecords : list RateLimitUsageRecord) :
  outcome (run h (RateLimitService.checkRateLimit request) w) = inr response ->
  hd_error
    (clockReadings
       (trace (run h (RateLimitService.checkRateLimit request) w)))
    = Some now ->
  usageQueries (trace (run h (RateLimitService.checkRateLimit request) w))
    = [(key, cond, inr usageRecords)] ->
  retryAfter response = Some seconds ->
  (forall r, In r usageRecords ->
             now - meta_windowMs (resp_metadata response) <= timestamp r) ->
  0 <= seconds /\
  ((forall r, In r usageRecords ->
              now - meta_windowMs (resp_metadata response) < timestamp r) ->
   0 < seconds).
Proof.
  intros H Hnow Hq Hs Hwindow.
  destruct (checkRateLimit_completed W h w request response H)
    as (rateLimit & now' & usageRecords' & _ & Hnow' & Hq' & _ & _ & _
        & Hretry & Hmeta & _).
  rewrite Hnow in Hnow'. injection Hnow' as <-.
  rewrite Hq in Hq'. injection Hq' as _ _ <-.
  rewrite Hmeta in Hwindow |- *. cbn [meta_windowMs] in Hwindow |- *.
  cbv zeta in Hretry. rewrite Hs in Hretry.
  destruct (allowed response); [discriminate|]. cbn [negb] in Hretry.
  destruct usageRecords as [|first rest]; [discriminate|].
  injection Hretry as ->.
  destruct (fold_older_min rest first) as [Hin _].
  pose proof (JsFacts.ceilDiv_spec
                (timestamp (fold_left older rest first)
                   + rl_windowMs rateLimit - now) 1000 ltac:(lia)) as Hceil.
  split.
  - specialize (Hwindow _ Hin). lia.
  - intros Hstrict. specialize (Hstrict _ Hin). lia.
Qed.

Lemma retryAfter_never_negative_witness :
  outcome (run Dynamo.store (RateLimitService.checkRateLimit Demo.request)
             Demo.atLimit) = inr Demo.denied /\
  hd_error
    (clockReadings
       (trace (run Dynamo.store
                 (RateLimitService.checkRateLimit Demo.request)
                 Demo.atLimit))) = Some Demo.noon /\
  usageQueries
    (trace (run Dynamo.store
              (RateLimitService.checkRateLimit Demo.request) Demo.atLimit))
    = [("uploads#ip:203.0.113.7", SkGe (Js.toString (Demo.noon - 60000)),
        inr (Dynamo.usageTable Demo.atLimit))] /\
  retryAfter Demo.denied = Some 15 /\
  (forall r, In r (Dynamo.usageTable Demo.atLimit) ->
             Demo.noon - meta_windowMs (resp_metadata Demo.denied)
               <= timestamp r) /\
  0 <= 15 /\
  ((forall r, In r (Dynamo.usageTable Demo.atLimit) ->
              Demo.noon - meta_windowMs (resp_metadata Demo.denied)
                < timestamp r) ->
   0 < 15).
Proof.
  assert (Hwindow : forall r, In r (Dynamo.usageTable Demo.atLimit) ->
            Demo.noon - meta_windowMs (resp_metadata Demo.denied)
              <= timestamp r).
  { intros r Hin. vm_compute in Hin.
    repeat (destruct Hin as [<-|Hin]; [vm_compute; discriminate|]).
    contradiction. }
  repeat (split; [first [vm_compute; reflexivity | exact Hwindow]|]).
  apply (retryAfter_never_negative Dynamo.World Dynamo.store
           Demo.atLimit Demo.request Demo.denied Demo.noon 15
           "uploads#ip:203.0.113.7" (SkGe (Js.toString (Demo.noon - 60000)))
           (Dynamo.usageTable Demo.atLimit)).
  - vm_compute. reflexivity.
  - vm_compute. reflexivity.
  - vm_compute. reflexivity.
  - reflexivity.
  - exact Hwindow.
Defined.

(* ================================================================= *)
(** ** Configuration *)

(** Tier fallback.  When the configuration resolved for a service has
    a ["default"] rule, [getRateLimit] succeeds for every tier; for a
    tier the rules name it answers with the window and the threshold of
    its rule, and for a tier they do not name, and whose name
    [Object.prototype] does not take either, with those of the default
    rule. *)
Theorem getRateLimit_falls_back_to_default
  (W : Type) (h : handler W) (w : W)
  (serviceId tier : string) (cfg : RateLimitConfig)
  (defaultRule : RateLimitRule) :
  outcome (run h (ConfigService.getServiceConfig serviceId) w) = inr cfg ->
  Js.getProp (rules cfg) "default" = Some defaultRule ->
  exists rateLimit,
    outcome (run h (ConfigService.getRateLimit serviceId tier) w)
      = inr rateLimit /\
    (Js.getProp (rules cfg) tier = None ->
     Js.inherited tier = false ->
       rl_windowMs rateLimit = windowMs defaultRule /\
       rl_maxRequests rateLimit = maxRequests defaultRule) /\
    (forall rule, Js.getProp (rules cfg) tier = Some rule ->
       rl_windowMs rateLimit = windowMs rule /\
       rl_maxRequests rateLimit = maxRequests rule).
Proof.
  unfold outcome, ConfigService.getRateLimit. intros Hcfg Hdefault.
  rewrite run_bind.
  destruct (run h (ConfigService.getServiceConfig serviceId) w)
    as [[r w1] t1].
  cbn [fst] in Hcfg. subst r. rewrite Hdefault.
  destruct (Js.getProp (rules cfg) tier) as [rule|]; cbn.
  - eexists. split; [reflexivity|]. split; [discriminate|].
    intros ? [= <-]. now split.
  - eexists. split; [reflexivity|]. split; [now split | discriminate].
Qed.

Lemma getRateLimit_falls_back_to_default_witness :
  outcome (run Dynamo.store (ConfigService.getServiceConfig "uploads")
             Demo.underLimit)
    = inr (mkConfig "uploads" [("default", mkRule 60000 5)]) /\
  Js.getProp (rules (mkConfig "uploads" [("default", mkRule 60000 5)]))
    "default" = Some (mkRule 60000 5) /\
  exists rateLimit,
    outcome (run Dynamo.store (ConfigService.getRateLimit "uploads" "platinum")
               Demo.underLimit) = inr rateLimit /\
    (Js.getProp (rules (mkConfig "uploads" [("default", mkRule 60000 5)]))
       "platinum" = None ->
     Js.inherited "platinum" = false ->
       rl_windowMs rateLimit = windowMs (mkRule 60000 5) /\
       rl_maxRequests rateLimit = maxRequests (mkRule 60000 5)) /\
    (forall rule,
       Js.getProp (rules (mkConfig "uploads" [("default", mkRule 60000 5)]))
         "platinum" = Some rule ->
       rl_windowMs rateLimit = windowMs rule /\
       rl_maxRequests rateLimit = maxRequests rule).
Proof.
  split; [vm_compute; reflexivity|]. split; [vm_compute; reflexivity|].
  apply (getRateLimit_falls_back_to_default Dynamo.World Dynamo.store
           Demo.underLimit "uploads" "platinum"
           (mkConfig "uploads" [("default", mkRule 60000 5)])
           (mkRule 60000 5)); vm_compute; reflexivity.
Defined.

Lemma validateRules_ok (entries : Rules) :
  ConfigService.validateRules entries = inr tt <->
  Forall (fun entry => 0 < windowMs (snd entry) /\ 0 < maxRequests (snd entry))
    entries.
Proof.
  induction entries as [|[tier rule] rest IH]; cbn [ConfigService.validateRules].
  - split; [constructor | reflexivity].
  - destruct (windowMs rule <=? 0) eqn:Hw;
      [apply Z.leb_le in Hw | apply Z.leb_gt in Hw].
    { split; [discriminate|]. intros HF. inversion HF; subst. cbn in *. lia. }
    destruct (maxRequests rule <=? 0) eqn:Hm;
      [apply Z.leb_le in Hm | apply Z.leb_gt in Hm].
    { split; [discriminate|]. intros HF. inversion HF; subst. cbn in *. lia. }
    rewrite IH. split.
    + intros HF. constructor; [cbn; lia | exact HF].
    + intros HF. now inversion HF.
Qed.

Lemma validateRules_first_violation (valid rest : Rules) tier rule :
  Forall (fun entry => 0 < windowMs (snd entry) /\ 0 < maxRequests (snd entry))
    valid ->
  ~ (0 < windowMs rule /\ 0 < maxRequests rule) ->
  ConfigService.validateRules (valid ++ (tier, rule) :: rest)
  = inl (Error
      (if windowMs rule <=? 0
       then "windowMs for tier '" +++ tier +++ "' must be a positive number"
       else "maxRequests for tier '" +++ tier
              +++ "' must be a positive number")).
Proof.
  intros Hvalid Hbad.
  induction Hvalid as [|[tier' rule'] valid [Hw Hm] _ IH];
    cbn [app ConfigService.validateRules].
  - destruct (windowMs rule <=? 0) eqn:Hw; [reflexivity|].
    apply Z.leb_gt in Hw.
    destruct (maxRequests rule <=? 0) eqn:Hm; [reflexivity|].
    apply Z.leb_gt in Hm. lia.
  - cbn [snd] in Hw, Hm.
    rewrite (proj2 (Z.leb_gt _ _) Hw), (proj2 (Z.leb_gt _ _) Hm). exact IH.
Qed.

Lemma getItem_putItem item t :
  Dynamo.getItem (rec_serviceId item) (Dynamo.putItem item t) = Some item.
Proof.
  unfold Dynamo.getItem, Dynamo.putItem. cbn [find].
  now rewrite String.eqb_refl.
Qed.

Lemma getItem_putItem_other item t other :
  other <> rec_serviceId item ->
  Dynamo.getItem other (Dynamo.putItem item t) = Dynamo.getItem other t.
Proof.
  intros Hne. unfold Dynamo.getItem, Dynamo.putItem. cbn [find].
  destruct (String.eqb_spec (rec_serviceId item) other) as [E|_];
    [congruence|].
  induction t as [|r t IH]; cbn [filter find]; [reflexivity|].
  destruct (String.eqb_spec (rec_serviceId r) (rec_serviceId item)) as [E|E];
    cbn [negb find].
  - destruct (String.eqb_spec (rec_serviceId r) other); [congruence | exact IH].
  - destruct (String.eqb (rec_serviceId r) other); [reflexivity | exact IH].
Qed.

Lemma putItem_single item t :
  List.length
    (filter (fun r => String.eqb (rec_serviceId r) (rec_serviceId item))
       (Dynamo.putItem item t)) = 1%nat.
Proof.
  unfold Dynamo.putItem. cbn [filter]. rewrite String.eqb_refl. cbn [List.length].
  f_equal. induction t as [|r t IH]; cbn [filter]; [reflexivity|].
  destruct (String.eqb (rec_serviceId r) (rec_serviceId item)) eqn:E;
    cbn [negb filter]; [exact IH|]. now rewrite E.
Qed.

Lemma tick_tables w :
  Dynamo.configTable (snd (Dynamo.tick w)) = Dynamo.configTable w /\
  Dynamo.usageTable (snd (Dynamo.tick w)) = Dynamo.usageTable w.
Proof. unfold Dynamo.tick. destruct (Dynamo.upcoming w); now split. Qed.

Lemma saveServiceConfig_rejected W (h : handler W) w cfg e :
  ConfigService.validateConfig cfg = inl e ->
  outcome (run h (ConfigService.saveServiceConfig cfg) w) = inl e /\
  storeCalls (trace (run h (ConfigService.saveServiceConfig cfg) w)) = [].
Proof.
  intros Hv. unfold ConfigService.saveServiceConfig. rewrite Hv.
  cbn -[String.append]. destruct (handle h _ w) as [[] w1]. now split.
Qed.

Lemma saveServiceConfig_stored w cfg :
  ConfigService.validateConfig cfg = inr tt ->
  outcome (run Dynamo.store (ConfigService.saveServiceConfig cfg) w) = inr tt /\
  exists created updated,
    Dynamo.configTable
      (final (run Dynamo.store (ConfigService.saveServiceConfig cfg) w))
    = Dynamo.putItem
        (mkConfigRecord (cfg_serviceId cfg) (rules cfg) created updated)
        (Dynamo.configTable w).
Proof.
  intros Hv. unfold ConfigService.saveServiceConfig. rewrite Hv.
  cbn -[String.append Dynamo.tick Dynamo.putItem].
  destruct (Dynamo.tick w) as [created w1] eqn:T1.
  destruct (Dynamo.tick w1) as [updated w2] eqn:T2.
  destruct (Dynamo.tick w2) as [saved w3] eqn:T3.
  cbn -[String.append Dynamo.putItem]. split; [reflexivity|].
  exists created, saved. f_equal.
  pose proof (tick_tables w) as [C1 _]. rewrite T1 in C1.
  pose proof (tick_tables w1) as [C2 _]. rewrite T2 in C2.
  pose proof (tick_tables w2) as [C3 _]. rewrite T3 in C3.
  cbn [snd] in *. congruence.
Qed.

(** What [saveServiceConfig] checks, for a configuration of the
    declared type [RateLimitConfig]: a string, and an object of rules
    each with its two numbers.  It accepts the configuration exactly
    when its
    [serviceId] is not empty, its rules have a ["default"] entry and
    every rule has [windowMs > 0] and [maxRequests > 0].  Otherwise it
    throws the error that describes the first constraint violated, in
    that order, sends nothing to the store and leaves the config table
    as it was.  On success the table holds the configuration under its
    [serviceId], in place of any entry it held there before, and every
    other entry is untouched. *)
Theorem saveServiceConfig_validates_then_persists :
  (forall cfg,
     ConfigService.validateConfig cfg = inr tt <->
     cfg_serviceId cfg <> "" /\
     Js.getProp (rules cfg) "default" <> None /\
     Forall (fun entry =>
               0 < windowMs (snd entry) /\ 0 < maxRequests (snd entry))
       (rules cfg)) /\
  (forall cfg,
     cfg_serviceId cfg = "" ->
     ConfigService.validateConfig cfg
     = inl (Error "Service ID is required and must be a string")) /\
  (forall cfg,
     cfg_serviceId cfg <> "" ->
     Js.getProp (rules cfg) "default" = None ->
     ConfigService.validateConfig cfg
     = inl (Error "Default tier configuration is required")) /\
  (forall cfg valid tier rule rest,
     cfg_serviceId cfg <> "" ->
     Js.getProp (rules cfg) "default" <> None ->
     rules cfg = valid ++ (tier, rule) :: rest ->
     Forall (fun entry =>
               0 < windowMs (snd entry) /\ 0 < maxRequests (snd entry))
       valid ->
     ~ (0 < windowMs rule /\ 0 < maxRequests rule) ->
     ConfigService.validateConfig cfg
     = inl (Error
         (if windowMs rule <=? 0
          then "windowMs for tier '" +++ tier
                 +++ "' must be a positive number"
          else "maxRequests for tier '" +++ tier
                 +++ "' must be a positive number"))) /\
  (forall (W : Type) (h : handler W) (w : W) cfg e,
     ConfigService.validateConfig cfg = inl e ->
     outcome (run h (ConfigService.saveServiceConfig cfg) w) = inl e /\
     storeCalls (trace (run h (ConfigService.saveServiceConfig cfg) w)) = []) /\
  (forall w cfg e,
     ConfigService.validateConfig cfg = inl e ->
     Dynamo.configTable
       (final (run Dynamo.store (ConfigService.saveServiceConfig cfg) w))
     = Dynamo.configTable w) /\
  (forall w cfg,
     ConfigService.validateConfig cfg = inr tt ->
     outcome (run Dynamo.store (ConfigService.saveServiceConfig cfg) w)
       = inr tt /\
     (exists created updated,
        Dynamo.getItem (cfg_serviceId cfg)
          (Dynamo.configTable
             (final (run Dynamo.store
                       (ConfigService.saveServiceConfig cfg) w)))
        = Some (mkConfigRecord (cfg_serviceId cfg) (rules cfg)
                  created updated)) /\
     List.length
       (filter (fun r => String.eqb (rec_serviceId r) (cfg_serviceId cfg))
          (Dynamo.configTable
             (final (run Dynamo.store
                       (ConfigService.saveServiceConfig cfg) w))))
       = 1%nat /\
     (forall other,
        other <> cfg_serviceId cfg ->
        Dynamo.getItem other
          (Dynamo.configTable
             (final (run Dynamo.store
                       (ConfigService.saveServiceConfig cfg) w)))
        = Dynamo.getItem other (Dynamo.configTable w))).
Proof.
  repeat apply conj.
  - intros cfg. unfold ConfigService.validateConfig.
    destruct (String.eqb_spec (cfg_serviceId cfg) "") as [E|E].
    { split; [discriminate | intros [? _]; contradiction]. }
    destruct (Js.getProp (rules cfg) "default") as [d|].
    + rewrite validateRules_ok. split.
      * intros HF. repeat split; [assumption | discriminate | assumption].
      * intros (_ & _ & HF). exact HF.
    + split; [discriminate | intros (_ & Hd & _); now contradiction Hd].
  - intros cfg E. unfold ConfigService.validateConfig. now rewrite E.
  - intros cfg E Hd. unfold ConfigService.validateConfig.
    destruct (String.eqb_spec (cfg_serviceId cfg) ""); [contradiction|].
    now rewrite Hd.
  - intros cfg valid tier rule rest E Hd Hrules Hvalid Hbad.
    unfold ConfigService.validateConfig.
    destruct (String.eqb_spec (cfg_serviceId cfg) ""); [contradiction|].
    destruct (Js.getProp (rules cfg) "default"); [|now contradiction Hd].
    rewrite Hrules. now apply validateRules_first_violation.
  - intros W h w cfg e Hv. now apply saveServiceConfig_rejected.
  - intros w cfg e Hv. unfold ConfigService.saveServiceConfig.
    rewrite Hv. reflexivity.
  - intros w cfg Hv.
    destruct (saveServiceConfig_stored w cfg Hv)
      as (Hout & created & updated & Htable).
    split; [exact Hout|]. rewrite Htable.
    split; [|split].
    + exists created, updated.
      apply (getItem_putItem
               (mkConfigRecord (cfg_serviceId cfg) (rules cfg)
                  created updated)).
    + apply (putItem_single
               (mkConfigRecord (cfg_serviceId cfg) (rules cfg)
                  created updated)).
    + intros other Hne. now apply getItem_putItem_other.
Qed.

Example saveServiceConfig_rejects_zero_threshold :
  outcome (run Dynamo.store
             (ConfigService.saveServiceConfig
                (mkConfig "uploads"
                   [("default", mkRule 60000 5); ("pro", mkRule 60000 0)]))
             Demo.underLimit)
  = inl (Error "maxRequests for tier 'pro' must be a positive number").
Proof. vm_compute. reflexivity. Qed.

Example saveServiceConfig_overwrites :
  Dynamo.configTable
    (final (run Dynamo.store
              (ConfigService.saveServiceConfig
                 (mkConfig "uploads" [("default", mkRule 1000 1)]))
              Demo.underLimit))
  = [mkConfigRecord "uploads" [("default", mkRule 1000 1)]
       Demo.noon Demo.noon].
Proof. vm_compute. reflexivity. Qed.

(* ================================================================= *)
(** ** Failures of the store *)

(** A [catch] that reports and throws the error again changes neither
    the result nor the commands sent. *)
Lemma run_rethrow W (h : handler W) A (p : prog A) line w :
  outcome (run h (tryCatch p (fun error =>
                     perform (ConsoleError line) ;; Throw error)) w)
  = outcome (run h p w) /\
  storeFailures (trace (run h (tryCatch p (fun error =>
                     perform (ConsoleError line) ;; Throw error)) w))
  = storeFailures (trace (run h p w)).
Proof.
  rewrite run_tryCatch. unfold outcome, trace, storeFailures.
  destruct (run h p w) as [[[e|a] w1] t1]; [|now split].
  cbn [perform bind run]. destruct (handle h _ w1) as [[] w2].
  cbn [fst snd]. split; [reflexivity|].
  rewrite collect_app. cbn. now rewrite app_nil_r.
Qed.

Lemma run_sendEach_deletes W (h : handler W) items : forall w,
  exists outcomes,
    outcome (run h (sendEach
                      (map (fun item : string * string =>
                              DeleteUsageItem (fst item) (snd item)) items)) w)
    = inr outcomes /\
    hd_error
      (storeFailures
         (trace (run h (sendEach
                   (map (fun item : string * string =>
                           DeleteUsageItem (fst item) (snd item)) items)) w)))
    = match promiseAll outcomes with inl e => Some e | inr _ => None end.
Proof.
  unfold outcome, trace, storeFailures.
  induction items as [|item items IH]; intros w; cbn [map sendEach run].
  - exists []. now split.
  - destruct (handle h _ w) as [x w1]. rewrite run_bind.
    destruct (IH w1) as (outcomes & Hout & Hfail).
    destruct (run h (sendEach _) w1) as [[r w2] t2].
    cbn [fst snd] in Hout, Hfail. subst r. cbn [run fst snd].
    exists (x :: outcomes). split; [reflexivity|].
    rewrite app_nil_r. cbn [collect storeFailure promiseAll].
    destruct x as [e|[]]; [reflexivity|]. rewrite Hfail.
    now destruct (promiseAll outcomes).
Qed.

Lemma run_send_bind W (h : handler W) A X (o : op (exn + X))
  (f : X -> prog A) w :
  run h (x <- send o ;; f x) w =
  let (r, w1) := handle h o w in
  match r with
  | inl e => (inl e, w1, [Event o (inl e)])
  | inr x =>
      let '(r2, w2, t2) := run h (f x) w1 in (r2, w2, Event o (inr x) :: t2)
  end.
Proof.
  cbn [send bind run]. destruct (handle h o w) as [[e|x] w1]; reflexivity.
Qed.

Lemma run_perform_bind W (h : handler W) A X (o : op X)
  (f : X -> prog A) w :
  run h (x <- perform o ;; f x) w =
  let (x, w1) := handle h o w in
  let '(r2, w2, t2) := run h (f x) w1 in (r2, w2, Event o x :: t2).
Proof. reflexivity. Qed.

Lemma deleteAll_propagates W (h : handler W) items w e :
  hd_error
    (storeFailures
       (trace (run h (deletePromises <-
                        sendEach
                          (map (fun item : string * string =>
                                  DeleteUsageItem (fst item) (snd item))
                               items) ;;
                      lift (promiseAll deletePromises) ;; Ret tt) w)))
  = Some e ->
  outcome (run h (deletePromises <-
                    sendEach
                      (map (fun item : string * string =>
                              DeleteUsageItem (fst item) (snd item))
                           items) ;;
                  lift (promiseAll deletePromises) ;; Ret tt) w)
  = inl e.
Proof.
  rewrite run_bind.
  destruct (run_sendEach_deletes W h items w) as (outcomes & Hout & Hfail).
  unfold outcome, trace, storeFailures in *.
  destruct (run h (sendEach _) w) as [[r w2] t2].
  cbn [fst snd] in Hout, Hfail. subst r.
  destruct (promiseAll outcomes) as [e1|xs]; cbn [lift bind run fst snd];
    rewrite app_nil_r, Hfail; [now intros [= <-] | discriminate].
Qed.

Lemma cleanupOldUsage_propagates W (h : handler W) w serviceId clientId t e :
  hd_error
    (storeFailures
       (trace (run h (DynamoDBService.cleanupOldUsage serviceId clientId t) w)))
  = Some e ->
  outcome (run h (DynamoDBService.cleanupOldUsage serviceId clientId t) w)
  = inl e.
Proof.
  unfold DynamoDBService.cleanupOldUsage.
  match goal with
  | |- context [tryCatch ?p (fun error => perform (ConsoleError ?l) ;; _)] =>
      destruct (run_rethrow W h unit p l w) as [-> ->]
  end.
  rewrite run_send_bind.
  destruct (handle h _ w) as [[e0|items] w1].
  { unfold outcome, trace, storeFailures. cbn. now intros [= <-]. }
  destruct items as [|item items].
  { unfold outcome, trace, storeFailures. cbn. discriminate. }
  pose proof (deleteAll_propagates W h (item :: items) w1 e) as Hall.
  unfold outcome, trace, storeFailures in *.
  destruct (run h (_ <- sendEach _ ;; _) w1) as [[r w2] t2].
  cbn [fst snd collect storeFailure] in *. exact Hall.
Qed.

Lemma resetRateLimit_propagates W (h : handler W) w serviceId clientId e :
  hd_error
    (storeFailures
       (trace (run h (RateLimitService.resetRateLimit serviceId clientId) w)))
  = Some e ->
  outcome (run h (RateLimitService.resetRateLimit serviceId clientId) w)
  = inl e.
Proof.
  unfold RateLimitService.resetRateLimit.
  match goal with
  | |- context [tryCatch ?p (fun error => perform (ConsoleError ?l) ;; _)] =>
      destruct (run_rethrow W h unit p l w) as [-> ->]
  end.
  rewrite run_perform_bind. destruct (handle h DateNow w) as [now w1].
  pose proof (cleanupOldUsage_propagates W h w1 serviceId clientId now e)
    as Hclean.
  unfold outcome, trace, storeFailures in *.
  destruct (run h (DynamoDBService.cleanupOldUsage _ _ _) w1) as [[r w2] t2].
  cbn [fst snd collect clockReading storeFailure] in *. exact Hclean.
Qed.

Lemma checkRateLimit_propagates W (h : handler W) w request e :
  hd_error
    (storeFailures (trace (run h (RateLimitService.checkRateLimit request) w)))
  = Some e ->
  outcome (run h (RateLimitService.checkRateLimit request) w) = inl e.
Proof.
  unfold RateLimitService.checkRateLimit.
  match goal with
  | |- context [tryCatch ?p (fun error => perform (ConsoleError ?l) ;; _)] =>
      destruct (run_rethrow W h _ p l w) as [-> ->]
  end.
  unfold outcome, trace, storeFailures.
  match goal with
  | |- context [run h ?p w] => destruct (run h p w) as [[r w'] tr] eqn:H
  end.
  cbn [fst snd].
  destruct (RateLimitService.validateRequest request) as [e0|[]];
    cbn [lift bind] in H.
  { execute H. injection H as <- <- <-. discriminate. }
  rewrite run_bind in H.
  destruct (run h (ConfigService.getRateLimit (req_serviceId request)
                     (tierOf request)) w) as [[[e0|rateLimit] w1] t1] eqn:Hcfg;
    destruct (getRateLimit_trace _ _ _ _ _ _ _ _ Hcfg) as (_ & _ & _ & Hf).
  { injection H as <- <- <-. intros Hhd.
    destruct (collect storeFailure t1) as [|e1 rest] eqn:Ht1; [discriminate|].
    injection Hhd as <-.
    assert (He : @inl exn RateLimit e0 = inl e1)
      by (apply Hf; unfold storeFailures; rewrite Ht1; now left).
    now injection He as ->. }
  assert (Hnone : collect storeFailure t1 = []).
  { destruct (collect storeFailure t1) as [|e1 rest] eqn:Ht1; [reflexivity|].
    specialize (Hf e1). unfold storeFailures in Hf. rewrite Ht1 in Hf.
    discriminate (Hf (or_introl eq_refl)). }
  execute H.
  all: injection H as <- <- <-.
  all: rewrite collect_app, Hnone; cbn; congruence.
Qed.

Lemma isBlocked_fails_open W (h : handler W) w serviceId clientId tier :
  (exists blocked,
     outcome (run h (RateLimitService.isBlocked serviceId clientId tier) w)
     = inr blocked) /\
  (forall e,
     outcome (run h (RateLimitService.getUsageStats serviceId clientId tier) w)
     = inl e ->
     outcome (run h (RateLimitService.isBlocked serviceId clientId tier) w)
     = inr false).
Proof.
  unfold RateLimitService.isBlocked, outcome.
  rewrite run_tryCatch, run_bind.
  destruct (run h (RateLimitService.getUsageStats _ _ _) w)
    as [[[e0|stats] w1] t1]; cbn [run perform bind fst snd].
  - destruct (handle h _ w1) as [[] w2]. cbn. split; [now eexists | reflexivity].
  - split; [now eexists | discriminate].
Qed.

Lemma getTimeUntilReset_fails_to_zero W (h : handler W) w
  serviceId clientId tier :
  (exists ms,
     outcome (run h (RateLimitService.getTimeUntilReset
                       serviceId clientId tier) w) = inr ms) /\
  (forall e,
     outcome (run h (RateLimitService.getUsageStats serviceId clientId tier) w)
     = inl e ->
     outcome (run h (RateLimitService.getTimeUntilReset
                       serviceId clientId tier) w) = inr 0).
Proof.
  unfold RateLimitService.getTimeUntilReset, outcome.
  rewrite run_tryCatch, run_bind.
  destruct (run h (RateLimitService.getUsageStats _ _ _) w)
    as [[[e0|stats] w1] t1]; cbn [run perform bind fst snd].
  - destruct (handle h _ w1) as [[] w2]. cbn. split; [now eexists | reflexivity].
  - destruct (handle h DateNow w1) as [now w2]. cbn.
    split; [now eexists | discriminate].
Qed.

Lemma hasCustomConfig_fails_to_false W (h : handler W) w serviceId :
  (exists custom,
     outcome (run h (ConfigService.hasCustomConfig serviceId) w)
     = inr custom) /\
  (forall e,
     outcome (run h (DynamoDBService.getConfig serviceId) w) = inl e ->
     outcome (run h (ConfigService.hasCustomConfig serviceId) w) = inr false).
Proof.
  unfold ConfigService.hasCustomConfig, outcome.
  rewrite run_tryCatch, run_bind.
  destruct (run h (DynamoDBService.getConfig _) w)
    as [[[e0|record] w1] t1]; cbn [run perform bind fst snd].
  - destruct (handle h _ w1) as [[] w2]. cbn. split; [now eexists | reflexivity].
  - split; [now eexists | discriminate].
Qed.

(** A failed command makes the calls below fail. *)
Lemma getConfig_propagates W (h : handler W) w serviceId e :
  hd_error
    (storeFailures (trace (run h (DynamoDBService.getConfig serviceId) w)))
  = Some e ->
  outcome (run h (DynamoDBService.getConfig serviceId) w) = inl e.
Proof.
  unfold outcome, trace, storeFailures.
  destruct (run h (DynamoDBService.getConfig serviceId) w)
    as [[r w'] tr] eqn:H.
  unfold DynamoDBService.getConfig in H. execute H.
  all: injection H as <- <- <-; cbn; congruence.
Qed.

Lemma getUsageStats_propagates W (h : handler W) w serviceId clientId tier e :
  hd_error
    (storeFailures
       (trace (run h (RateLimitService.getUsageStats
                        serviceId clientId tier) w)))
  = Some e ->
  outcome (run h (RateLimitService.getUsageStats serviceId clientId tier) w)
  = inl e.
Proof.
  unfold RateLimitService.getUsageStats.
  match goal with
  | |- context [tryCatch ?p (fun error => perform (ConsoleError ?l) ;; _)] =>
      destruct (run_rethrow W h _ p l w) as [-> ->]
  end.
  unfold outcome, trace, storeFailures.
  match goal with
  | |- context [run h ?p w] => destruct (run h p w) as [[r w'] tr] eqn:H
  end.
  cbn [fst snd]. rewrite run_bind in H.
  destruct (run h (ConfigService.getRateLimit serviceId tier) w)
    as [[[e0|rateLimit] w1] t1] eqn:Hcfg;
    destruct (getRateLimit_trace _ _ _ _ _ _ _ _ Hcfg) as (_ & _ & _ & Hf).
  { injection H as <- <- <-. intros Hhd.
    destruct (collect storeFailure t1) as [|e1 rest] eqn:Ht1; [discriminate|].
    injection Hhd as <-.
    assert (He : @inl exn RateLimit e0 = inl e1)
      by (apply Hf; unfold storeFailures; rewrite Ht1; now left).
    now injection He as ->. }
  assert (Hnone : collect storeFailure t1 = []).
  { destruct (collect storeFailure t1) as [|e1 rest] eqn:Ht1; [reflexivity|].
    specialize (Hf e1). unfold storeFailures in Hf. rewrite Ht1 in Hf.
    discriminate (Hf (or_introl eq_refl)). }
  execute H.
  all: injection H as <- <- <-.
  all: rewrite collect_app, Hnone; cbn; congruence.
Qed.

Lemma checkRateLimit_config_failure W (h : handler W) w request e :
  RateLimitService.validateRequest request = inr tt ->
  outcome (run h (ConfigService.getRateLimit (req_serviceId request)
                    (tierOf request)) w) = inl e ->
  outcome (run h (RateLimitService.checkRateLimit request) w) = inl e.
Proof.
  intros Hvalid. unfold RateLimitService.checkRateLimit.
  match goal with
  | |- context [tryCatch ?p (fun error => perform (ConsoleError ?l) ;; _)] =>
      destruct (run_rethrow W h _ p l w) as [-> _]
  end.
  rewrite Hvalid. cbn [lift bind]. rewrite run_bind. unfold outcome.
  destruct (run h (ConfigService.getRateLimit _ _) w) as [[r w1] t1].
  cbn [fst]. now intros ->.
Qed.

(** C8. Whatever the store and the configuration do, [isBlocked],
    [getTimeUntilReset] and [hasCustomConfig] return a value: when the
    call underneath fails, or a command it sent was rejected, they
    answer [false], [0] and [false].  [checkRateLimit] and
    [resetRateLimit] end with the very error of the first rejected
    command, and [checkRateLimit] with the error of the configuration
    lookup when that fails. *)
Theorem failures_swallowed_or_propagated (W : Type) (h : handler W) (w : W) :
  (forall serviceId clientId tier,
     (exists blocked,
        outcome (run h (RateLimitService.isBlocked serviceId clientId tier) w)
        = inr blocked) /\
     (forall e,
        outcome (run h (RateLimitService.getUsageStats
                          serviceId clientId tier) w) = inl e \/
        hd_error
          (storeFailures
             (trace (run h (RateLimitService.getUsageStats
                              serviceId clientId tier) w))) = Some e ->
        outcome (run h (RateLimitService.isBlocked serviceId clientId tier) w)
        = inr false)) /\
  (forall serviceId clientId tier,
     (exists ms,
        outcome (run h (RateLimitService.getTimeUntilReset
                          serviceId clientId tier) w) = inr ms) /\
     (forall e,
        outcome (run h (RateLimitService.getUsageStats
                          serviceId clientId tier) w) = inl e \/
        hd_error
          (storeFailures
             (trace (run h (RateLimitService.getUsageStats
                              serviceId clientId tier) w))) = Some e ->
        outcome (run h (RateLimitService.getTimeUntilReset
                          serviceId clientId tier) w) = inr 0)) /\
  (forall serviceId,
     (exists custom,
        outcome (run h (ConfigService.hasCustomConfig serviceId) w)
        = inr custom) /\
     (forall e,
        outcome (run h (DynamoDBService.getConfig serviceId) w) = inl e \/
        hd_error
          (storeFailures
             (trace (run h (DynamoDBService.getConfig serviceId) w)))
        = Some e ->
        outcome (run h (ConfigService.hasCustomConfig serviceId) w)
        = inr false)) /\
  (forall request e,
     hd_error
       (storeFailures
          (trace (run h (RateLimitService.checkRateLimit request) w)))
     = Some e ->
     outcome (run h (RateLimitService.checkRateLimit request) w) = inl e) /\
  (forall request e,
     RateLimitService.validateRequest request = inr tt ->
     outcome (run h (ConfigService.getRateLimit (req_serviceId request)
                       (tierOf request)) w) = inl e ->
     outcome (run h (RateLimitService.checkRateLimit request) w) = inl e) /\
  (forall serviceId clientId e,
     hd_error
       (storeFailures
          (trace (run h (RateLimitService.resetRateLimit
                           serviceId clientId) w))) = Some e ->
     outcome (run h (RateLimitService.resetRateLimit serviceId clientId) w)
     = inl e).
Proof.
  repeat apply conj.
  - intros serviceId clientId tier.
    destruct (isBlocked_fails_open W h w serviceId clientId tier)
      as [Hval Hfail].
    split; [exact Hval|]. intros e [He|He]; [now apply (Hfail e)|].
    apply (Hfail e). now apply getUsageStats_propagates.
  - intros serviceId clientId tier.
    destruct (getTimeUntilReset_fails_to_zero W h w serviceId clientId tier)
      as [Hval Hfail].
    split; [exact Hval|]. intros e [He|He]; [now apply (Hfail e)|].
    apply (Hfail e). now apply getUsageStats_propagates.
  - intros serviceId.
    destruct (hasCustomConfig_fails_to_false W h w serviceId)
      as [Hval Hfail].
    split; [exact Hval|]. intros e [He|He]; [now apply (Hfail e)|].
    apply (Hfail e). now apply getConfig_propagates.
  - intros request e. apply checkRateLimit_propagates.
  - intros request e. apply checkRateLimit_config_failure.
  - intros serviceId clientId e. apply resetRateLimit_propagates.
Qed.

Example isBlocked_during_outage :
  outcome (run Dynamo.unavailable
             (RateLimitService.isBlocked "uploads" "ip:203.0.113.7" "default")
             Demo.atLimit) = inr false /\
  outcome (run Dynamo.store
             (RateLimitService.isBlocked "uploads" "ip:203.0.113.7" "default")
             Demo.atLimit) = inr true.
Proof. split; vm_compute; reflexivity. Qed.

Example getTimeUntilReset_during_outage :
  outcome (run Dynamo.unavailable
             (RateLimitService.getTimeUntilReset
                "uploads" "ip:203.0.113.7" "default")
             Demo.atLimit) = inr 0 /\
  outcome (run Dynamo.store
             (RateLimitService.getTimeUntilReset
                "uploads" "ip:203.0.113.7" "default")
             Demo.atLimit) = inr 60000.
Proof. split; vm_compute; reflexivity. Qed.

Example hasCustomConfig_during_outage :
  outcome (run Dynamo.unavailable (ConfigService.hasCustomConfig "uploads")
             Demo.atLimit) = inr false /\
  outcome (run Dynamo.store (ConfigService.hasCustomConfig "uploads")
             Demo.atLimit) = inr true.
Proof. split; vm_compute; reflexivity. Qed.

Example checkRateLimit_during_outage :
  outcome (run Dynamo.unavailable
             (RateLimitService.checkRateLimit Demo.request) Demo.atLimit)
  = inl Dynamo.outage /\
  outcome (run Dynamo.unavailable
             (RateLimitService.resetRateLimit "uploads" "ip:203.0.113.7")
             Demo.atLimit)
  = inl Dynamo.outage.
Proof. split; vm_compute; reflexivity. Qed.

Example checkRateLimit_unknown_service :
  outcome (run Dynamo.store
             (RateLimitService.checkRateLimit
                (mkRequest "reports" "ip:203.0.113.7" None))
             Demo.atLimit)
  = inl (Error "No configuration found for service: reports").
Proof. vm_compute. reflexivity. Qed.

(* ================================================================= *)
(** ** The usage table *)

Lemma filter_filter {A : Type} (f g : A -> bool) (l : list A) :
  filter f (filter g l) = filter (fun x => g x && f x) l.
Proof.
  induction l as [|x l IH]; cbn [filter]; [reflexivity|].
  destruct (g x); cbn [filter andb]; [destruct (f x)|]; now rewrite IH.
Qed.

Lemma run_tryCatch_ok W (h : handler W) A (p : prog A) handler w :
  (exists a, outcome (run h p w) = inr a) ->
  run h (tryCatch p handler) w = run h p w.
Proof.
  intros [a Ha]. rewrite run_tryCatch. unfold outcome in Ha.
  destruct (run h p w) as [[r w1] t1]. cbn [fst] in Ha. now subst r.
Qed.

(** The window query on the table: the key's records whose sort key is
    not below the bound, as strings. *)
Lemma getUsageInWindow_dynamo w serviceId clientId since :
  outcome (run Dynamo.store
             (DynamoDBService.getUsageInWindow serviceId clientId since) w)
  = inr (Dynamo.query (DynamoDBService.usageKey serviceId clientId)
           (SkGe (Js.toString since)) (Dynamo.usageTable w)) /\
  final (run Dynamo.store
           (DynamoDBService.getUsageInWindow serviceId clientId since) w) = w.
Proof. split; reflexivity. Qed.

(** C5.  The window query compares decimal strings, and a bound with
    fewer digits than the timestamps is compared wrongly: asked for the
    records since [999999999999], the query returns none of the two
    records stamped at [1699999970000] and [1699999980000], although
    both are numerically later and the contract asks for both. *)
Lemma window_query_misses_longer_timestamps :
  outcome (run Dynamo.store
             (DynamoDBService.getUsageInWindow
                "uploads" "ip:203.0.113.7" 999999999999) Demo.underLimit)
  = inr [] /\
  Dynamo.recordsSince "uploads" "ip:203.0.113.7" 999999999999 Demo.underLimit
  = [Demo.stamped 1699999970000; Demo.stamped 1699999980000].
Proof. split; vm_compute; reflexivity. Qed.

(** Where the window query is right.  For every key and every
    non-negative [sinceTimestamp], when each stored record of the key
    carries the decimal string of its non-negative timestamp as sort
    key, with as many digits as [sinceTimestamp] has, the query returns
    exactly the stored records of that key whose numeric timestamp is
    [>= sinceTimestamp]: on strings of one length the order of decimal
    strings is the order of the numbers. *)
Theorem getUsageInWindow_same_width
  (w : Dynamo.World) (serviceId clientId : string) (sinceTimestamp : Z) :
  0 <= sinceTimestamp ->
  (forall r, In r (Dynamo.usageOf serviceId clientId w) ->
     sk r = Js.toString (timestamp r) /\
     0 <= timestamp r /\
     String.length (Js.toString (timestamp r))
     = String.length (Js.toString sinceTimestamp)) ->
  outcome (run Dynamo.store
             (DynamoDBService.getUsageInWindow
                serviceId clientId sinceTimestamp) w)
  = inr (Dynamo.recordsSince serviceId clientId sinceTimestamp w).
Proof.
  intros Hsince Hstamped.
  destruct (getUsageInWindow_dynamo w serviceId clientId sinceTimestamp)
    as [-> _].
  f_equal. unfold Dynamo.recordsSince, Dynamo.usageOf, Dynamo.query.
  rewrite filter_filter. apply filter_ext_in. intros r Hin.
  destruct (String.eqb (pk r) (DynamoDBService.usageKey serviceId clientId))
    eqn:Hkey; [|reflexivity].
  cbn [andb Dynamo.satisfies].
  destruct (Hstamped r) as (Hsk & Hts & Hlen).
  { unfold Dynamo.usageOf. apply filter_In. now split. }
  rewrite Hsk. apply JsFacts.toString_leb; [assumption | assumption | now symmetry].
Qed.

Lemma getUsageInWindow_same_width_witness :
  0 <= Demo.noon - 60000 /\
  (forall r, In r (Dynamo.usageOf "uploads" "ip:203.0.113.7" Demo.underLimit) ->
     sk r = Js.toString (timestamp r) /\
     0 <= timestamp r /\
     String.length (Js.toString (timestamp r))
     = String.length (Js.toString (Demo.noon - 60000))) /\
  outcome (run Dynamo.store
             (DynamoDBService.getUsageInWindow
                "uploads" "ip:203.0.113.7" (Demo.noon - 60000))
             Demo.underLimit)
  = inr (Dynamo.recordsSince "uploads" "ip:203.0.113.7" (Demo.noon - 60000)
           Demo.underLimit).
Proof.
  assert (Hstamped :
    forall r, In r (Dynamo.usageOf "uploads" "ip:203.0.113.7" Demo.underLimit) ->
      sk r = Js.toString (timestamp r) /\
      0 <= timestamp r /\
      String.length (Js.toString (timestamp r))
      = String.length (Js.toString (Demo.noon - 60000))).
  { intros r Hin. vm_compute in Hin.
    repeat (destruct Hin as [<-|Hin];
            [vm_compute; repeat split; discriminate|]).
    contradiction. }
  split; [vm_compute; discriminate|]. split; [exact Hstamped|].
  apply (getUsageInWindow_same_width Demo.underLimit
           "uploads" "ip:203.0.113.7" (Demo.noon - 60000)).
  - vm_compute. discriminate.
  - exact Hstamped.
Defined.

(** The same defect seen from [checkRateLimit]: under a rule whose
    window reaches further back than the timestamps have digits, the
    window query finds nothing and a client at its limit is let in. *)
Example window_longer_than_the_epoch_never_blocks :
  outcome (run Dynamo.store (RateLimitService.checkRateLimit Demo.request)
             (Dynamo.mkWorld
                [mkConfigRecord "uploads"
                   [("default", mkRule 700000000001 1)] 0 0]
                [Demo.stamped (Demo.noon - 1000)] Demo.noon [] "" []))
  = inr (mkResponse true 0 (Demo.noon + 700000000001) None
           (mkResponseMetadata "uploads" 700000000001 1)).
Proof. vm_compute. reflexivity. Qed.

Example window_query_of_the_last_minute :
  outcome (run Dynamo.store
             (DynamoDBService.getUsageInWindow
                "uploads" "ip:203.0.113.7" (Demo.noon - 25000))
             Demo.underLimit)
  = inr [Demo.stamped (Demo.noon - 20000)].
Proof. vm_compute. reflexivity. Qed.

Lemma fold_deleteUsage (items : list (string * string)) : forall t,
  fold_left (fun t item => Dynamo.deleteUsage (fst item) (snd item) t) items t
  = filter (fun r => negb (existsb (fun item =>
                                      Dynamo.sameKey (fst item) (snd item) r)
                             items)) t.
Proof.
  induction items as [|item items IH]; intros t; cbn [fold_left existsb].
  - cbn [negb]. induction t as [|r t IHt]; cbn [filter]; congruence.
  - rewrite IH. unfold Dynamo.deleteUsage. rewrite filter_filter.
    apply filter_ext. intros r. now rewrite negb_orb.
Qed.

Lemma sendEach_deletes_dynamo (items : list (string * string)) : forall w,
  outcome (run Dynamo.store
             (sendEach (map (fun item : string * string =>
                               DeleteUsageItem (fst item) (snd item)) items)) w)
  = inr (map (fun _ => inr tt) items) /\
  Dynamo.usageTable
    (final (run Dynamo.store
              (sendEach (map (fun item : string * string =>
                                DeleteUsageItem (fst item) (snd item)) items))
              w))
  = fold_left (fun t item => Dynamo.deleteUsage (fst item) (snd item) t)
      items (Dynamo.usageTable w).
Proof.
  unfold outcome, final.
  induction items as [|item items IH]; intros w; cbn [map sendEach run].
  - now split.
  - cbn [handle Dynamo.store Dynamo.step]. rewrite run_bind.
    destruct (IH (Dynamo.withUsage w
                    (Dynamo.deleteUsage (fst item) (snd item)
                       (Dynamo.usageTable w)))) as [Hout Htable].
    destruct (run Dynamo.store (sendEach _) _) as [[r w2] t2].
    cbn [fst snd] in Hout, Htable. subst r. cbn [run fst snd fold_left].
    split; [reflexivity | exact Htable].
Qed.

Lemma promiseAll_fulfilled {A : Type} (items : list A) :
  promiseAll (map (fun _ => @inr exn unit tt) items)
  = inr (map (fun _ => tt) items).
Proof.
  induction items as [|x items IH]; cbn [map promiseAll]; [reflexivity|].
  now rewrite IH.
Qed.

(** [cleanupOldUsage] on the table: it removes the key's records whose
    sort key is below the bound, as strings, and no other. *)
Lemma cleanupOldUsage_dynamo w serviceId clientId before :
  outcome (run Dynamo.store
             (DynamoDBService.cleanupOldUsage serviceId clientId before) w)
  = inr tt /\
  Dynamo.usageTable
    (final (run Dynamo.store
              (DynamoDBService.cleanupOldUsage serviceId clientId before) w))
  = filter (fun r =>
              negb (String.eqb (pk r)
                      (DynamoDBService.usageKey serviceId clientId)
                    && String.ltb (sk r) (Js.toString before)))
      (Dynamo.usageTable w).
Proof.
  set (key := DynamoDBService.usageKey serviceId clientId).
  set (found := Dynamo.query key (SkLt (Js.toString before))
                  (Dynamo.usageTable w)).
  assert (Hremoved :
    filter (fun r => negb (existsb (fun item =>
                                      Dynamo.sameKey (fst item) (snd item) r)
                             (map (fun r => (pk r, sk r)) found)))
      (Dynamo.usageTable w)
    = filter (fun r => negb (String.eqb (pk r) key
                             && String.ltb (sk r) (Js.toString before)))
        (Dynamo.usageTable w)).
  { apply filter_ext_in. intros r Hin. f_equal.
    destruct (String.eqb (pk r) key && String.ltb (sk r) (Js.toString before))
      eqn:Hsat.
    - apply existsb_exists. exists (pk r, sk r). split.
      + apply in_map_iff. exists r. split; [reflexivity|].
        apply filter_In. split; [exact Hin | exact Hsat].
      + unfold Dynamo.sameKey. cbn [fst snd]. now rewrite !String.eqb_refl.
    - destruct (existsb _ _) eqn:Hex; [|reflexivity].
      apply existsb_exists in Hex. destruct Hex as ([k s] & Hitem & Hsame).
      apply in_map_iff in Hitem. destruct Hitem as (r' & [= <- <-] & Hr').
      apply filter_In in Hr'. destruct Hr' as [_ Hsat'].
      unfold Dynamo.sameKey in Hsame. cbn [fst snd Dynamo.satisfies] in *.
      apply andb_true_iff in Hsame. destruct Hsame as [Hp Hs].
      apply String.eqb_eq in Hp, Hs. rewrite Hp, Hs in Hsat. congruence. }
  unfold DynamoDBService.cleanupOldUsage. fold key.
  match goal with
  | |- context [run Dynamo.store (tryCatch ?p ?handler) w] =>
      assert (Hbody :
        outcome (run Dynamo.store p w) = inr tt /\
        Dynamo.usageTable (final (run Dynamo.store p w))
        = filter (fun r => negb (String.eqb (pk r) key
                                 && String.ltb (sk r) (Js.toString before)))
            (Dynamo.usageTable w));
      [| rewrite (run_tryCatch_ok _ Dynamo.store _ p handler w);
         [exact Hbody | exists tt; exact (proj1 Hbody)] ]
  end.
  rewrite run_send_bind. cbn [handle Dynamo.store Dynamo.step]. fold found.
  rewrite <- Hremoved.
  destruct found as [|r0 found'] eqn:Hfound; cbn [map].
  - split; [reflexivity|]. cbn [run final fst snd existsb negb].
    clear. induction (Dynamo.usageTable w) as [|r t IH]; cbn [filter];
      congruence.
  - rewrite <- (fold_deleteUsage _ (Dynamo.usageTable w)).
    change ((pk r0, sk r0) :: map (fun r => (pk r, sk r)) found')
      with (map (fun r => (pk r, sk r)) (r0 :: found')).
    set (items := map (fun r => (pk r, sk r)) (r0 :: found')).
    destruct (sendEach_deletes_dynamo items w) as [Hout Htable].
    assert (Hitems : items = (pk r0, sk r0) :: map (fun r => (pk r, sk r)) found')
      by reflexivity.
    rewrite run_bind. unfold outcome, final in *.
    destruct (run Dynamo.store (sendEach _) w) as [[r w2] t2].
    cbn [fst snd] in Hout, Htable. subst r.
    rewrite promiseAll_fulfilled. cbn [lift bind run fst snd].
    split; [reflexivity | exact Htable].
Qed.

(** [resetRateLimit] on the table: with [now] the instant it reads, it
    removes the key's records whose sort key is below [now]'s decimal
    string and no other. *)
Lemma resetRateLimit_dynamo w serviceId clientId :
  outcome (run Dynamo.store
             (RateLimitService.resetRateLimit serviceId clientId) w) = inr tt /\
  Dynamo.usageTable
    (final (run Dynamo.store
              (RateLimitService.resetRateLimit serviceId clientId) w))
  = filter (fun r =>
              negb (String.eqb (pk r)
                      (DynamoDBService.usageKey serviceId clientId)
                    && String.ltb (sk r)
                         (Js.toString (fst (Dynamo.tick w)))))
      (Dynamo.usageTable w).
Proof.
  unfold RateLimitService.resetRateLimit.
  match goal with
  | |- context [run Dynamo.store (tryCatch ?p ?handler) w] =>
      assert (Hbody :
        outcome (run Dynamo.store p w) = inr tt /\
        Dynamo.usageTable (final (run Dynamo.store p w))
        = filter (fun r =>
                    negb (String.eqb (pk r)
                            (DynamoDBService.usageKey serviceId clientId)
                          && String.ltb (sk r)
                               (Js.toString (fst (Dynamo.tick w)))))
            (Dynamo.usageTable w));
      [| rewrite (run_tryCatch_ok _ Dynamo.store _ p handler w);
         [exact Hbody | exists tt; exact (proj1 Hbody)] ]
  end.
  rewrite run_perform_bind. cbn [handle Dynamo.store Dynamo.step].
  pose proof (tick_tables w) as [_ Husage].
  destruct (Dynamo.tick w) as [now w1]. cbn [fst snd] in *.
  destruct (cleanupOldUsage_dynamo w1 serviceId clientId now)
    as [Hout Htable].
  unfold outcome, final in *.
  destruct (run Dynamo.store (DynamoDBService.cleanupOldUsage _ _ _) w1)
    as [[r w2] t2].
  cbn [fst snd] in *. rewrite <- Husage. now split.
Qed.

Lemma usageOf_after_reset w serviceId clientId :
  (forall r, In r (Dynamo.usageOf serviceId clientId w) ->
     sk r = Js.toString (timestamp r) /\
     0 <= timestamp r /\
     String.length (Js.toString (timestamp r))
     = String.length (Js.toString (fst (Dynamo.tick w)))) ->
  0 <= fst (Dynamo.tick w) ->
  Dynamo.usageOf serviceId clientId
    (final (run Dynamo.store
              (RateLimitService.resetRateLimit serviceId clientId) w))
  = filter (fun r => fst (Dynamo.tick w) <=? timestamp r)
      (Dynamo.usageOf serviceId clientId w).
Proof.
  intros Hstamped Hnow.
  destruct (resetRateLimit_dynamo w serviceId clientId) as [_ Htable].
  unfold Dynamo.usageOf at 1. rewrite Htable. unfold Dynamo.usageOf.
  rewrite !filter_filter. apply filter_ext_in. intros r Hin.
  destruct (String.eqb (pk r) (DynamoDBService.usageKey serviceId clientId))
    eqn:Hkey; [|now rewrite andb_false_r].
  cbn [andb]. rewrite andb_true_r.
  destruct (Hstamped r) as (Hsk & Hts & Hlen).
  { unfold Dynamo.usageOf. apply filter_In. now split. }
  rewrite Hsk, JsFacts.toString_ltb by assumption.
  rewrite Z.leb_antisym. reflexivity.
Qed.

Lemma usageOf_empty_reset w serviceId clientId :
  Dynamo.usageOf serviceId clientId w = [] ->
  Dynamo.usageTable
    (final (run Dynamo.store
              (RateLimitService.resetRateLimit serviceId clientId) w))
  = Dynamo.usageTable w.
Proof.
  intros Hempty.
  destruct (resetRateLimit_dynamo w serviceId clientId) as [_ ->].
  unfold Dynamo.usageOf in Hempty.
  induction (Dynamo.usageTable w) as [|r t IH]; cbn [filter] in *;
    [reflexivity|].
  destruct (String.eqb (pk r) _); [discriminate|].
  cbn [andb negb]. now rewrite IH.
Qed.

(** C9, as stated, fails for a record stamped in the millisecond the
    reset reads: the record is not strictly older than [now], so it
    survives the first reset and the second, and usage stays at one. *)
Lemma reset_keeps_record_of_same_instant :
  outcome (run Dynamo.store
             (RateLimitService.resetRateLimit "uploads" "ip:203.0.113.7")
             Demo.sameInstant) = inr tt /\
  Dynamo.usageOf "uploads" "ip:203.0.113.7"
    (final (run Dynamo.store
              (RateLimitService.resetRateLimit "uploads" "ip:203.0.113.7")
              Demo.sameInstant))
  = [Demo.stamped Demo.noon] /\
  Dynamo.usageOf "uploads" "ip:203.0.113.7"
    (final (run Dynamo.store
              (RateLimitService.resetRateLimit "uploads" "ip:203.0.113.7")
              (final (run Dynamo.store
                        (RateLimitService.resetRateLimit
                           "uploads" "ip:203.0.113.7")
                        Demo.sameInstant))))
  = [Demo.stamped Demo.noon] /\
  outcome (run Dynamo.store
             (RateLimitService.getUsageStats
                "uploads" "ip:203.0.113.7" "default")
             (final (run Dynamo.store
                       (RateLimitService.resetRateLimit
                          "uploads" "ip:203.0.113.7")
                       Demo.sameInstant)))
  = inr (mkStats 1 5 60000 (Demo.noon + 60000) 4).
Proof. repeat split; vm_compute; reflexivity. Qed.

Lemma resetRateLimit_empty_answer W (h : handler W) w serviceId clientId :
  (forall now w1,
     handle h DateNow w = (now, w1) ->
     exists w2,
       handle h (QueryUsageKeys
                   (DynamoDBService.usageKey serviceId clientId)
                   (SkLt (Js.toString now))) w1 = (inr [], w2)) ->
  outcome (run h (RateLimitService.resetRateLimit serviceId clientId) w)
  = inr tt /\
  storeCalls
    (trace (run h (RateLimitService.resetRateLimit serviceId clientId) w))
  = [Event (QueryUsageKeys (DynamoDBService.usageKey serviceId clientId)
              (SkLt (Js.toString (fst (handle h DateNow w)))))
       (inr [])].
Proof.
  intros Hempty. unfold outcome, trace.
  destruct (run h (RateLimitService.resetRateLimit serviceId clientId) w)
    as [[r w'] tr] eqn:H.
  unfold RateLimitService.resetRateLimit, DynamoDBService.cleanupOldUsage in H.
  cbn -[Js.toString String.append DynamoDBService.usageKey] in H.
  destruct (handle h DateNow w) as [now w1] eqn:Hnow.
  destruct (Hempty now w1 eq_refl) as [w2 Hq].
  cbn -[Js.toString String.append DynamoDBService.usageKey] in H.
  rewrite Hq in H.
  cbn -[Js.toString String.append DynamoDBService.usageKey] in H.
  injection H as <- <- <-. now split.
Qed.

(** C9, amended.  [resetRateLimit] purges every record of the pair with
    timestamp strictly less than [now], the records carrying the
    decimal string of their timestamp as sort key with as many digits
    as [now] has; so when every record of the pair is stamped strictly
    before [now], calling it twice in succession leaves usage at zero
    both times.  It raises no error when the key's log is already
    empty: answered with no record, it returns without sending a
    delete. *)
Theorem resetRateLimit_twice
  (w : Dynamo.World) (serviceId clientId : string) :
  0 <= fst (Dynamo.tick w) ->
  (forall r, In r (Dynamo.usageOf serviceId clientId w) ->
     sk r = Js.toString (timestamp r) /\
     0 <= timestamp r /\
     String.length (Js.toString (timestamp r))
     = String.length (Js.toString (fst (Dynamo.tick w)))) ->
  Dynamo.usageOf serviceId clientId (afterReset serviceId clientId w)
  = filter (fun r => fst (Dynamo.tick w) <=? timestamp r)
      (Dynamo.usageOf serviceId clientId w) /\
  ((forall r, In r (Dynamo.usageOf serviceId clientId w) ->
      timestamp r < fst (Dynamo.tick w)) ->
   outcome (run Dynamo.store
              (RateLimitService.resetRateLimit serviceId clientId) w)
   = inr tt /\
   Dynamo.usageOf serviceId clientId (afterReset serviceId clientId w) = [] /\
   outcome (run Dynamo.store
              (RateLimitService.resetRateLimit serviceId clientId)
              (afterReset serviceId clientId w))
   = inr tt /\
   Dynamo.usageOf serviceId clientId
     (afterReset serviceId clientId (afterReset serviceId clientId w)) = [] /\
   Dynamo.usageTable
     (afterReset serviceId clientId (afterReset serviceId clientId w))
   = Dynamo.usageTable (afterReset serviceId clientId w)) /\
  (forall (W : Type) (h : handler W) (w0 : W),
     (forall now w1,
        handle h DateNow w0 = (now, w1) ->
        exists w2,
          handle h (QueryUsageKeys
                      (DynamoDBService.usageKey serviceId clientId)
                      (SkLt (Js.toString now))) w1 = (inr [], w2)) ->
     outcome (run h (RateLimitService.resetRateLimit serviceId clientId) w0)
     = inr tt /\
     storeCalls
       (trace (run h (RateLimitService.resetRateLimit serviceId clientId) w0))
     = [Event (QueryUsageKeys (DynamoDBService.usageKey serviceId clientId)
                 (SkLt (Js.toString (fst (handle h DateNow w0)))))
          (inr [])]).
Proof.
  intros Hnow Hstamped.
  pose proof (usageOf_after_reset w serviceId clientId Hstamped Hnow)
    as Hpurged.
  split; [exact Hpurged|]. split.
  - intros Hbefore.
    assert (Hzero :
      Dynamo.usageOf serviceId clientId (afterReset serviceId clientId w) = []).
    { unfold afterReset. rewrite Hpurged. clear Hpurged Hstamped.
      induction (Dynamo.usageOf serviceId clientId w) as [|r l IH];
        [reflexivity|].
      cbn [filter].
      rewrite (proj2 (Z.leb_gt _ _) (Hbefore r (or_introl eq_refl))).
      apply IH. intros r' Hr'. apply Hbefore. now right. }
    pose proof (usageOf_empty_reset _ _ _ Hzero) as Hsame.
    split; [apply resetRateLimit_dynamo|]. split; [exact Hzero|].
    split; [apply resetRateLimit_dynamo|]. split.
    + unfold afterReset at 1, Dynamo.usageOf at 1. rewrite Hsame.
      exact Hzero.
    + exact Hsame.
  - intros W h w0. apply resetRateLimit_empty_answer.
Qed.

Lemma resetRateLimit_twice_witness :
  0 <= fst (Dynamo.tick Demo.atLimit) /\
  (forall r, In r (Dynamo.usageOf "uploads" "ip:203.0.113.7" Demo.atLimit) ->
     sk r = Js.toString (timestamp r) /\
     0 <= timestamp r /\
     String.length (Js.toString (timestamp r))
     = String.length (Js.toString (fst (Dynamo.tick Demo.atLimit)))) /\
  Dynamo.usageOf "uploads" "ip:203.0.113.7"
    (afterReset "uploads" "ip:203.0.113.7" Demo.atLimit)
  = filter (fun r => fst (Dynamo.tick Demo.atLimit) <=? timestamp r)
      (Dynamo.usageOf "uploads" "ip:203.0.113.7" Demo.atLimit) /\
  ((forall r, In r (Dynamo.usageOf "uploads" "ip:203.0.113.7" Demo.atLimit) ->
      timestamp r < fst (Dynamo.tick Demo.atLimit)) ->
   outcome (run Dynamo.store
              (RateLimitService.resetRateLimit "uploads" "ip:203.0.113.7")
              Demo.atLimit)
   = inr tt /\
   Dynamo.usageOf "uploads" "ip:203.0.113.7"
     (afterReset "uploads" "ip:203.0.113.7" Demo.atLimit) = [] /\
   outcome (run Dynamo.store
              (RateLimitService.resetRateLimit "uploads" "ip:203.0.113.7")
              (afterReset "uploads" "ip:203.0.113.7" Demo.atLimit))
   = inr tt /\
   Dynamo.usageOf "uploads" "ip:203.0.113.7"
     (afterReset "uploads" "ip:203.0.113.7"
        (afterReset "uploads" "ip:203.0.113.7" Demo.atLimit)) = [] /\
   Dynamo.usageTable
     (afterReset "uploads" "ip:203.0.113.7"
        (afterReset "uploads" "ip:203.0.113.7" Demo.atLimit))
   = Dynamo.usageTable (afterReset "uploads" "ip:203.0.113.7" Demo.atLimit)) /\
  (forall (W : Type) (h : handler W) (w0 : W),
     (forall now w1,
        handle h DateNow w0 = (now, w1) ->
        exists w2,
          handle h (QueryUsageKeys
                      (DynamoDBService.usageKey "uploads" "ip:203.0.113.7")
                      (SkLt (Js.toString now))) w1 = (inr [], w2)) ->
     outcome (run h (RateLimitService.resetRateLimit
                       "uploads" "ip:203.0.113.7") w0)
     = inr tt /\
     storeCalls
       (trace (run h (RateLimitService.resetRateLimit
                        "uploads" "ip:203.0.113.7") w0))
     = [Event (QueryUsageKeys
                 (DynamoDBService.usageKey "uploads" "ip:203.0.113.7")
                 (SkLt (Js.toString (fst (handle h DateNow w0)))))
          (inr [])]).
Proof.
  assert (Hstamped :
    forall r, In r (Dynamo.usageOf "uploads" "ip:203.0.113.7" Demo.atLimit) ->
      sk r = Js.toString (timestamp r) /\
      0 <= timestamp r /\
      String.length (Js.toString (timestamp r))
      = String.length (Js.toString (fst (Dynamo.tick Demo.atLimit)))).
  { intros r Hin. vm_compute in Hin.
    repeat (destruct Hin as [<-|Hin];
            [vm_compute; repeat split; discriminate|]).
    contradiction. }
  split; [vm_compute; discriminate|]. split; [exact Hstamped|].
  apply (resetRateLimit_twice Demo.atLimit "uploads" "ip:203.0.113.7").
  - vm_compute. discriminate.
  - exact Hstamped.
Defined.

(** Why the amended C9 asks for sort keys of one length: a record whose
    timestamp has fewer digits than [now] is older and yet not below
    [now] as a string, so the reset leaves it. *)
Example reset_keeps_record_of_fewer_digits :
  Dynamo.usageOf "uploads" "ip:203.0.113.7"
    (afterReset "uploads" "ip:203.0.113.7"
       (Demo.world [Demo.stamped 999999999999] Demo.noon))
  = [Demo.stamped 999999999999].
Proof. vm_compute. reflexivity. Qed.

Example reset_clears_then_stays_clear :
  Dynamo.usageOf "uploads" "ip:203.0.113.7"
    (afterReset "uploads" "ip:203.0.113.7" Demo.atLimit) = [] /\
  Dynamo.usageOf "uploads" "ip:203.0.113.7"
    (afterReset "uploads" "ip:203.0.113.7"
       (afterReset "uploads" "ip:203.0.113.7" Demo.atLimit)) = [].
Proof. split; vm_compute; reflexivity. Qed.

(* ================================================================= *)
(** ** The logging variant *)















(** C10.  Where the two variants part.  Under a rule whose window is
    as long as the whole range of [Date], [now + windowMs] is past the
    last instant a [Date] can hold.  The plain variant admits the
    request and records it; the logging variant, asked to print the
    reset time, throws the [RangeError] of [toISOString] after the
    configuration read and the window query, and records nothing. *)
Lemma logging_variant_breaks_off_on_endless_window :
  outcome (run Dynamo.store (RateLimitService.checkRateLimit Demo.request)
             Demo.endless)
  = inr (mkResponse true 4 (Demo.noon + 8640000000000000) None
           (mkResponseMetadata "uploads" 8640000000000000 5)) /\
  Dynamo.usageTable
    (final (run Dynamo.store (RateLimitService.checkRateLimit Demo.request)
              Demo.endless))
  = [Demo.stamped Demo.noon] /\
  outcome (run Dynamo.store
             (RateLimitServiceLogging.checkRateLimit Demo.request)
             Demo.endless)
  = inl (Error "Invalid time value") /\
  storeCalls (trace (run Dynamo.store
                       (RateLimitServiceLogging.checkRateLimit Demo.request)
                       Demo.endless))
  = [ Event (GetConfigItem "uploads") (inr (Some Demo.endlessWindow));
      Event (QueryUsage "uploads#ip:203.0.113.7" (SkGe "-8638300000000000"))
        (inr []) ] /\
  Dynamo.usageTable
    (final (run Dynamo.store
              (RateLimitServiceLogging.checkRateLimit Demo.request)
              Demo.endless))
  = [].
Proof. repeat split; vm_compute; reflexivity. Qed.


Example logging_variant_on_the_tables :
  outcome (run Dynamo.store
             (RateLimitServiceLogging.checkRateLimit Demo.request)
             Demo.underLimit)
  = outcome (run Dynamo.store
               (RateLimitService.checkRateLimit Demo.request)
               Demo.underLimit) /\
  storeCalls (trace (run Dynamo.store
                       (RateLimitServiceLogging.checkRateLimit Demo.request)
                       Demo.underLimit))
  = storeCalls (trace (run Dynamo.store
                         (RateLimitService.checkRateLimit Demo.request)
                         Demo.underLimit)) /\
  Dynamo.usageTable
    (final (run Dynamo.store
              (RateLimitServiceLogging.checkRateLimit Demo.request)
              Demo.underLimit))
  = Dynamo.usageTable
      (final (run Dynamo.store
                (RateLimitService.checkRateLimit Demo.request)
                Demo.underLimit)).
Proof. repeat split; vm_compute; reflexivity. Qed.

(* ================================================================= *)
(** ** Runs on the tables *)

Lemma writes_app (t1 t2 : list event) :
  writes (t1 ++ t2) = writes t1 ++ writes t2.
Proof. apply filter_app. Qed.

Lemma storeCalls_app (t1 t2 : list event) :
  storeCalls (t1 ++ t2) = storeCalls t1 ++ storeCalls t2.
Proof. apply filter_app. Qed.

Lemma tick_eq w x w' :
  Dynamo.tick w = (x, w') ->
  fst (Dynamo.tick w) = x /\ snd (Dynamo.tick w) = w' /\
  Dynamo.configTable w' = Dynamo.configTable w /\
  Dynamo.usageTable w' = Dynamo.usageTable w.
Proof.
  intros H. destruct (tick_tables w) as [Hc Hu]. rewrite H in *.
  cbn [fst snd] in *. auto.
Qed.

(** On the tables, what a run leaves behind is what its writes make of
    what it found. *)
Lemma store_replay {A : Type} (p : prog A) : forall w,
  Dynamo.usageTable (final (run Dynamo.store p w))
  = fold_left Dynamo.usageAfter (trace (run Dynamo.store p w))
      (Dynamo.usageTable w) /\
  Dynamo.configTable (final (run Dynamo.store p w))
  = fold_left Dynamo.configAfter (trace (run Dynamo.store p w))
      (Dynamo.configTable w).
Proof.
  induction p as [a|e|X o k IH]; intros w; try (split; reflexivity).
  cbn [run]. destruct (handle Dynamo.store o w) as [x w1] eqn:Hstep.
  specialize (IH x w1). unfold final, trace in *.
  destruct (run Dynamo.store (k x) w1) as [[r w2] tr]. cbn [fst snd] in *.
  destruct IH as [IHu IHc]. rewrite IHu, IHc. cbn [fold_left].
  assert (Hw1 : Dynamo.usageTable w1
                = Dynamo.usageAfter (Dynamo.usageTable w) (Event o x) /\
                Dynamo.configTable w1
                = Dynamo.configAfter (Dynamo.configTable w) (Event o x)).
  { cbn [handle Dynamo.store] in Hstep. clear - Hstep.
    destruct o; cbn in Hstep; try (injection Hstep as <- <-; now split).
    pose proof (Dynamo.tick w) as _.
    destruct (tick_tables w) as [Hc Hu].
    rewrite Hstep in Hc, Hu. cbn [snd] in Hc, Hu. now split. }
  destruct Hw1 as [-> ->]. split; reflexivity.
Qed.

Lemma replay_writes_usage (tr : list event) : forall t,
  fold_left Dynamo.usageAfter tr t
  = fold_left Dynamo.usageAfter (writes tr) t.
Proof.
  induction tr as [|[X o x] tr IH]; intros t; [reflexivity|].
  cbn [fold_left writes filter]. fold (writes tr).
  destruct o; cbn [isWrite Dynamo.usageAfter fold_left]; apply IH.
Qed.

Lemma replay_writes_config (tr : list event) : forall t,
  fold_left Dynamo.configAfter tr t
  = fold_left Dynamo.configAfter (writes tr) t.
Proof.
  induction tr as [|[X o x] tr IH]; intros t; [reflexivity|].
  cbn [fold_left writes filter]. fold (writes tr).
  destruct o; cbn [isWrite Dynamo.configAfter fold_left]; apply IH.
Qed.

(** What a program never does, no run of it does. *)
Section PerformsOnly.
Context (ok : forall X : Type, op X -> bool).

Lemma performsOnly_bind {A B : Type} (p : prog A) (f : A -> prog B) :
  performsOnly ok p -> (forall a, performsOnly ok (f a)) ->
  performsOnly ok (bind p f).
Proof.
  intros Hp Hf. induction p as [a|e|X o k IH]; cbn [bind performsOnly] in *;
    auto.
  destruct Hp as [Ho Hk]. split; auto.
Qed.

Lemma performsOnly_tryCatch {A : Type} (p : prog A) (handler : exn -> prog A) :
  performsOnly ok p -> (forall e, performsOnly ok (handler e)) ->
  performsOnly ok (tryCatch p handler).
Proof.
  intros Hp Hf.
  induction p as [a|e|X o k IH]; cbn [tryCatch performsOnly] in *; auto.
  destruct Hp as [Ho Hk]. split; auto.
Qed.

Lemma performsOnly_lift {A : Type} (r : exn + A) : performsOnly ok (lift r).
Proof. destruct r; exact I. Qed.

Lemma performsOnly_sendEach {X : Type} (commands : list (op (exn + X))) :
  Forall (fun c => ok _ c = true) commands ->
  performsOnly ok (sendEach commands).
Proof.
  induction 1 as [|c rest Hc _ IH]; cbn [sendEach performsOnly]; [exact I|].
  split; [exact Hc|]. intros r.
  apply performsOnly_bind; [exact IH | intros; exact I].
Qed.

Lemma performsOnly_settleEach {A : Type} (calls : list (prog A)) :
  Forall (performsOnly ok) calls ->
  performsOnly ok (settleEach calls).
Proof.
  induction 1 as [|c rest Hc _ IH]; cbn [settleEach]; [exact I|].
  apply performsOnly_bind.
  - unfold settle. apply performsOnly_tryCatch.
    + apply performsOnly_bind; [exact Hc | intros; exact I].
    + intros; exact I.
  - intros r. apply performsOnly_bind; [exact IH | intros; exact I].
Qed.

Lemma performsOnly_run {W A : Type} (h : handler W) (p : prog A) : forall w,
  performsOnly ok p ->
  Forall (fun ev => match ev with Event o _ => ok _ o = true end)
    (trace (run h p w)).
Proof.
  induction p as [a|e|X o k IH]; intros w Hp; cbn [run]; try constructor.
  destruct Hp as [Ho Hk].
  destruct (handle h o w) as [x w1]. specialize (IH x w1 (Hk x)).
  unfold trace in *. destruct (run h (k x) w1) as [[r w2] tr].
  cbn [snd] in *. constructor; assumption.
Qed.

End PerformsOnly.

Lemma reads_write_nothing (tr : list event) :
  Forall (fun ev => match ev with Event o _ => isRead o = true end) tr ->
  writes tr = [].
Proof.
  induction 1 as [|[X o x] tr Ho _ IH]; [reflexivity|].
  cbn [writes filter]. unfold isRead in Ho.
  apply negb_true_iff in Ho. rewrite Ho. exact IH.
Qed.

Lemma config_kept (tr : list event) : forall t,
  Forall (fun ev => match ev with Event o _ => keepsConfig o = true end) tr ->
  fold_left Dynamo.configAfter tr t = t.
Proof.
  induction tr as [|[X o x] tr IH]; intros t Hall; [reflexivity|].
  inversion Hall as [|? ? Ho Htr]; subst.
  cbn [fold_left]. rewrite <- (IH t Htr) at 2. f_equal.
  destruct o; try reflexivity. discriminate Ho.
Qed.

Lemma getServiceConfig_reads serviceId :
  performsOnly (@isRead) (ConfigService.getServiceConfig serviceId).
Proof.
  unfold ConfigService.getServiceConfig, DynamoDBService.getConfig.
  cbn [tryCatch send bind perform performsOnly].
  split; [reflexivity|].
  intros [e|[record|]]; cbn [tryCatch send bind perform performsOnly]; auto.
  destruct (Js.getProp DEFAULT_RATE_LIMITS serviceId);
    cbn [tryCatch send bind perform performsOnly]; auto.
Qed.

Lemma cleanupOldUsage_keepsConfig serviceId clientId before :
  performsOnly (@keepsConfig)
    (DynamoDBService.cleanupOldUsage serviceId clientId before).
Proof.
  unfold DynamoDBService.cleanupOldUsage.
  apply performsOnly_tryCatch; [|intros e; cbn; auto].
  cbn [send bind performsOnly]. split; [reflexivity|].
  intros [e|found]; cbn [bind performsOnly]; [exact I|].
  destruct found as [|item rest]; cbn [bind performsOnly]; [exact I|].
  apply performsOnly_bind; [|intros; apply performsOnly_bind;
                              [apply performsOnly_lift | intros; exact I]].
  apply performsOnly_sendEach. apply Forall_forall.
  intros c Hin. apply in_map_iff in Hin. destruct Hin as (i & <- & _).
  reflexivity.
Qed.

(* ================================================================= *)
(** ** Resolving a configuration *)

(** How [getServiceConfig] runs: it sends one command, the read of the
    service's item, and resolves according to the answer. *)
Lemma getServiceConfig_run W (h : handler W) w serviceId :
  storeCalls (trace (run h (ConfigService.getServiceConfig serviceId) w))
  = [Event (GetConfigItem serviceId)
       (fst (handle h (GetConfigItem serviceId) w))] /\
  outcome (run h (ConfigService.getServiceConfig serviceId) w)
  = match fst (handle h (GetConfigItem serviceId) w) with
    | inl e => inl e
    | inr (Some record) => inr (mkConfig serviceId (config record))
    | inr None =>
        match Js.getProp DEFAULT_RATE_LIMITS serviceId with
        | Some defaultRules => inr (mkConfig serviceId defaultRules)
        | None =>
            inl (Error ("No configuration found for service: " +++ serviceId))
        end
    end.
Proof.
  unfold outcome, trace.
  destruct (run h (ConfigService.getServiceConfig serviceId) w)
    as [[r w'] tr] eqn:H.
  unfold ConfigService.getServiceConfig in H. execute H.
  all: injection H as <- <- <-; cbn [fst snd]; rewrite ?Hopt; split; reflexivity.
Qed.

(** [getServiceConfig] sends one command, the read of the service's
    item.  A stored configuration comes before the compiled default;
    with neither the call fails, and a failure of the read is passed
    on.  A service named like a member of [Object.prototype] is left
    out of the third case: the lookup in the compiled table finds that
    member, and the call does not fail. *)
Theorem getServiceConfig_custom_before_default
  (W : Type) (h : handler W) (w : W) (serviceId : string) :
  storeCalls (trace (run h (ConfigService.getServiceConfig serviceId) w))
  = [Event (GetConfigItem serviceId)
       (fst (handle h (GetConfigItem serviceId) w))] /\
  (forall record,
     fst (handle h (GetConfigItem serviceId) w) = inr (Some record) ->
     outcome (run h (ConfigService.getServiceConfig serviceId) w)
     = inr (mkConfig serviceId (config record))) /\
  (forall defaultRules,
     fst (handle h (GetConfigItem serviceId) w) = inr None ->
     Js.getProp DEFAULT_RATE_LIMITS serviceId = Some defaultRules ->
     outcome (run h (ConfigService.getServiceConfig serviceId) w)
     = inr (mkConfig serviceId defaultRules)) /\
  (fst (handle h (GetConfigItem serviceId) w) = inr None ->
   Js.getProp DEFAULT_RATE_LIMITS serviceId = None ->
   Js.inherited serviceId = false ->
   outcome (run h (ConfigService.getServiceConfig serviceId) w)
   = inl (Error ("No configuration found for service: " +++ serviceId))) /\
  (forall e,
     fst (handle h (GetConfigItem serviceId) w) = inl e ->
     outcome (run h (ConfigService.getServiceConfig serviceId) w) = inl e).
Proof.
  destruct (getServiceConfig_run W h w serviceId) as [Hcalls Hout].
  split; [exact Hcalls|].
  rewrite Hout.
  repeat split.
  - intros record ->. reflexivity.
  - intros rules0 -> ->. reflexivity.
  - intros -> -> _. reflexivity.
  - intros e ->. reflexivity.
Qed.

(** On the tables, a configuration is resolved from the config table
    alone. *)
Lemma getServiceConfig_dynamo w serviceId :
  outcome (run Dynamo.store (ConfigService.getServiceConfig serviceId) w)
  = match Dynamo.getItem serviceId (Dynamo.configTable w) with
    | Some record => inr (mkConfig serviceId (config record))
    | None =>
        match Js.getProp DEFAULT_RATE_LIMITS serviceId with
        | Some defaultRules => inr (mkConfig serviceId defaultRules)
        | None =>
            inl (Error ("No configuration found for service: " +++ serviceId))
        end
    end.
Proof.
  rewrite (proj2 (getServiceConfig_run _ Dynamo.store w serviceId)).
  reflexivity.
Qed.

Lemma getRateLimit_outcome W (h : handler W) w serviceId tier :
  outcome (run h (ConfigService.getRateLimit serviceId tier) w)
  = match outcome (run h (ConfigService.getServiceConfig serviceId) w) with
    | inl e => inl e
    | inr cfg =>
        match match Js.getProp (rules cfg) tier with
              | Some r => Some r
              | None => Js.getProp (rules cfg) "default"
              end with
        | None =>
            inl (Error ("No rate limit rule found for service " +++ serviceId
                          +++ " and tier " +++ tier))
        | Some r =>
            inr (mkRateLimit serviceId tier (windowMs r) (maxRequests r))
        end
    end.
Proof.
  unfold ConfigService.getRateLimit. rewrite run_bind. unfold outcome.
  destruct (run h (ConfigService.getServiceConfig serviceId) w)
    as [[[e|cfg] w1] t1]; cbn [fst]; [reflexivity|].
  destruct (Js.getProp (rules cfg) tier) as [r|];
    [reflexivity|].
  destruct (Js.getProp (rules cfg) "default") as [r|]; reflexivity.
Qed.

Lemma getAvailableTiers_outcome W (h : handler W) w serviceId :
  outcome (run h (ConfigService.getAvailableTiers serviceId) w)
  = match outcome (run h (ConfigService.getServiceConfig serviceId) w) with
    | inl e => inl e
    | inr cfg => inr (Js.keys (rules cfg))
    end.
Proof.
  unfold ConfigService.getAvailableTiers. rewrite run_bind. unfold outcome.
  destruct (run h (ConfigService.getServiceConfig serviceId) w)
    as [[[e|cfg] w1] t1]; reflexivity.
Qed.

Lemma hasCustomConfig_dynamo w serviceId :
  outcome (run Dynamo.store (ConfigService.hasCustomConfig serviceId) w)
  = inr (match Dynamo.getItem serviceId (Dynamo.configTable w) with
         | Some _ => true
         | None => false
         end).
Proof. reflexivity. Qed.

Lemma saveServiceConfig_dynamo w cfg :
  ConfigService.validateConfig cfg = inr tt ->
  outcome (run Dynamo.store (ConfigService.saveServiceConfig cfg) w) = inr tt /\
  (exists created between updated,
     clockReadings
       (trace (run Dynamo.store (ConfigService.saveServiceConfig cfg) w))
     = [created; between; updated] /\
     Dynamo.configTable
       (final (run Dynamo.store (ConfigService.saveServiceConfig cfg) w))
     = Dynamo.putItem
         (mkConfigRecord (cfg_serviceId cfg) (rules cfg) created updated)
         (Dynamo.configTable w)) /\
  Dynamo.usageTable
    (final (run Dynamo.store (ConfigService.saveServiceConfig cfg) w))
  = Dynamo.usageTable w.
Proof.
  intros Hv. unfold ConfigService.saveServiceConfig. rewrite Hv.
  cbn -[String.append Dynamo.tick Dynamo.putItem].
  destruct (Dynamo.tick w) as [created w1] eqn:T1.
  destruct (Dynamo.tick w1) as [between w2] eqn:T2.
  destruct (Dynamo.tick w2) as [saved w3] eqn:T3.
  cbn -[String.append Dynamo.putItem].
  apply tick_eq in T1, T2, T3.
  split; [reflexivity|]. split.
  - exists created, between, saved. split; [reflexivity|]. f_equal.
    intuition congruence.
  - intuition congruence.
Qed.

(** What [updateServiceConfig] saved is what the service resolves
    afterwards. *)
Theorem updateServiceConfig_round_trip
  (w : Dynamo.World) (serviceId : string) (newRules : Rules) :
  ConfigService.validateConfig (mkConfig serviceId newRules) = inr tt ->
  outcome (run Dynamo.store
             (ConfigService.updateServiceConfig serviceId newRules) w)
  = inr tt /\
  (exists created between updated,
     clockReadings
       (trace (run Dynamo.store
                 (ConfigService.updateServiceConfig serviceId newRules) w))
     = [created; between; updated] /\
     Dynamo.getItem serviceId
       (Dynamo.configTable (afterUpdate serviceId newRules w))
     = Some (mkConfigRecord serviceId newRules created updated)) /\
  outcome (run Dynamo.store (ConfigService.getServiceConfig serviceId)
             (afterUpdate serviceId newRules w))
  = inr (mkConfig serviceId newRules) /\
  outcome (run Dynamo.store (ConfigService.hasCustomConfig serviceId)
             (afterUpdate serviceId newRules w))
  = inr true /\
  outcome (run Dynamo.store (ConfigService.getAvailableTiers serviceId)
             (afterUpdate serviceId newRules w))
  = inr (Js.keys newRules) /\
  (forall tier rule,
     Js.getProp newRules tier = Some rule ->
     outcome (run Dynamo.store (ConfigService.getRateLimit serviceId tier)
                (afterUpdate serviceId newRules w))
     = inr (mkRateLimit serviceId tier (windowMs rule) (maxRequests rule))) /\
  (forall other,
     other <> serviceId ->
     outcome (run Dynamo.store (ConfigService.getServiceConfig other)
                (afterUpdate serviceId newRules w))
     = outcome (run Dynamo.store (ConfigService.getServiceConfig other) w)) /\
  Dynamo.usageTable (afterUpdate serviceId newRules w) = Dynamo.usageTable w.
Proof.
  intros Hv. unfold afterUpdate, ConfigService.updateServiceConfig.
  destruct (saveServiceConfig_dynamo w _ Hv)
    as (Hout & (created & between & updated & Hclock & Htable) & Husage).
  cbn [cfg_serviceId rules] in Htable.
  assert (Hitem :
    Dynamo.getItem serviceId
      (Dynamo.configTable
         (final (run Dynamo.store
                   (ConfigService.saveServiceConfig
                      (mkConfig serviceId newRules)) w)))
    = Some (mkConfigRecord serviceId newRules created updated)).
  { rewrite Htable.
    apply (getItem_putItem
             (mkConfigRecord serviceId newRules created updated)). }
  split; [exact Hout|].
  split; [exists created, between, updated; now split|].
  split; [rewrite getServiceConfig_dynamo, Hitem; reflexivity|].
  split; [rewrite hasCustomConfig_dynamo, Hitem; reflexivity|].
  split.
  { rewrite getAvailableTiers_outcome, getServiceConfig_dynamo, Hitem.
    reflexivity. }
  split.
  { intros tier rule Hrule.
    rewrite getRateLimit_outcome, getServiceConfig_dynamo, Hitem.
    cbn [rules config]. rewrite Hrule. reflexivity. }
  split; [|exact Husage].
  intros other Hother. rewrite !getServiceConfig_dynamo, Htable.
  rewrite (getItem_putItem_other
             (mkConfigRecord serviceId newRules created updated));
    [reflexivity | exact Hother].
Qed.

Lemma updateServiceConfig_round_trip_witness :
  ConfigService.validateConfig
    (mkConfig "uploads" [("default", mkRule 1000 1); ("pro", mkRule 1000 9)])
  = inr tt /\
  outcome (run Dynamo.store
             (ConfigService.updateServiceConfig "uploads"
                [("default", mkRule 1000 1); ("pro", mkRule 1000 9)])
             Demo.underLimit)
  = inr tt /\
  (exists created between updated,
     clockReadings
       (trace (run Dynamo.store
                 (ConfigService.updateServiceConfig "uploads"
                    [("default", mkRule 1000 1); ("pro", mkRule 1000 9)])
                 Demo.underLimit))
     = [created; between; updated] /\
     Dynamo.getItem "uploads"
       (Dynamo.configTable
          (afterUpdate "uploads"
             [("default", mkRule 1000 1); ("pro", mkRule 1000 9)]
             Demo.underLimit))
     = Some (mkConfigRecord "uploads"
               [("default", mkRule 1000 1); ("pro", mkRule 1000 9)]
               created updated)) /\
  outcome (run Dynamo.store (ConfigService.getServiceConfig "uploads")
             (afterUpdate "uploads"
                [("default", mkRule 1000 1); ("pro", mkRule 1000 9)]
                Demo.underLimit))
  = inr (mkConfig "uploads"
           [("default", mkRule 1000 1); ("pro", mkRule 1000 9)]) /\
  outcome (run Dynamo.store (ConfigService.hasCustomConfig "uploads")
             (afterUpdate "uploads"
                [("default", mkRule 1000 1); ("pro", mkRule 1000 9)]
                Demo.underLimit))
  = inr true /\
  outcome (run Dynamo.store (ConfigService.getAvailableTiers "uploads")
             (afterUpdate "uploads"
                [("default", mkRule 1000 1); ("pro", mkRule 1000 9)]
                Demo.underLimit))
  = inr (Js.keys [("default", mkRule 1000 1); ("pro", mkRule 1000 9)]) /\
  (forall tier rule,
     Js.getProp [("default", mkRule 1000 1); ("pro", mkRule 1000 9)] tier
     = Some rule ->
     outcome (run Dynamo.store (ConfigService.getRateLimit "uploads" tier)
                (afterUpdate "uploads"
                   [("default", mkRule 1000 1); ("pro", mkRule 1000 9)]
                   Demo.underLimit))
     = inr (mkRateLimit "uploads" tier (windowMs rule) (maxRequests rule))) /\
  (forall other,
     other <> "uploads" ->
     outcome (run Dynamo.store (ConfigService.getServiceConfig other)
                (afterUpdate "uploads"
                   [("default", mkRule 1000 1); ("pro", mkRule 1000 9)]
                   Demo.underLimit))
     = outcome (run Dynamo.store (ConfigService.getServiceConfig other)
                  Demo.underLimit)) /\
  Dynamo.usageTable
    (afterUpdate "uploads"
       [("default", mkRule 1000 1); ("pro", mkRule 1000 9)] Demo.underLimit)
  = Dynamo.usageTable Demo.underLimit.
Proof.
  split.
  - reflexivity.
  - apply (updateServiceConfig_round_trip Demo.underLimit "uploads"
             [("default", mkRule 1000 1); ("pro", mkRule 1000 9)]).
    reflexivity.
Defined.

(** [createDefaultConfig] stores the baseline of three tiers, in the
    place of whatever the service had, and hands it back; a service
    without an id is refused before anything is stored.  The tiers are
    those whose names [Object.prototype] does not take: under such a
    name the lookup in the stored rules would find the member of the
    prototype, of which nothing is said here. *)
Theorem createDefaultConfig_round_trip :
  (forall (w : Dynamo.World) (serviceId : string),
     serviceId <> "" ->
     outcome (run Dynamo.store
                (ConfigService.createDefaultConfig serviceId) w)
     = inr (mkConfig serviceId
              [ ("default", mkRule 3600000 10);
                ("pro", mkRule 3600000 50);
                ("enterprise", mkRule 3600000 200) ]) /\
     outcome (run Dynamo.store (ConfigService.getAvailableTiers serviceId)
                (afterCreateDefault serviceId w))
     = inr ["default"; "pro"; "enterprise"] /\
     (forall tier,
        Js.inherited tier = false ->
        outcome (run Dynamo.store
                   (RateLimitService.getRateLimitInfo serviceId tier)
                   (afterCreateDefault serviceId w))
        = inr (mkRateLimit serviceId tier 3600000
                 (if String.eqb tier "pro" then 50
                  else if String.eqb tier "enterprise" then 200
                  else 10))) /\
     (forall other,
        other <> serviceId ->
        outcome (run Dynamo.store (ConfigService.getServiceConfig other)
                   (afterCreateDefault serviceId w))
        = outcome (run Dynamo.store (ConfigService.getServiceConfig other)
                     w))) /\
  (forall (W : Type) (h : handler W) (w : W),
     outcome (run h (ConfigService.createDefaultConfig "") w)
     = inl (Error "Service ID is required and must be a string") /\
     storeCalls (trace (run h (ConfigService.createDefaultConfig "") w))
     = []).
Proof.
  split.
  - intros w serviceId Hid.
    set (baseline := [ ("default", mkRule 3600000 10);
                       ("pro", mkRule 3600000 50);
                       ("enterprise", mkRule 3600000 200) ]).
    assert (Hv : ConfigService.validateConfig (mkConfig serviceId baseline)
                 = inr tt).
    { unfold ConfigService.validateConfig. cbn [cfg_serviceId].
      apply String.eqb_neq in Hid. rewrite Hid. reflexivity. }
    destruct (saveServiceConfig_dynamo w _ Hv)
      as (Hout & (created & between & updated & _ & Htable) & _).
    cbn [cfg_serviceId rules] in Htable.
    assert (Hrun :
      run Dynamo.store (ConfigService.createDefaultConfig serviceId) w
      = (inr (mkConfig serviceId baseline),
         final (run Dynamo.store
                  (ConfigService.saveServiceConfig
                     (mkConfig serviceId baseline)) w),
         trace (run Dynamo.store
                  (ConfigService.saveServiceConfig
                     (mkConfig serviceId baseline)) w))).
    { unfold ConfigService.createDefaultConfig. fold baseline.
      rewrite run_bind. unfold outcome, final, trace in *.
      destruct (run Dynamo.store (ConfigService.saveServiceConfig _) w)
        as [[r w1] t1].
      cbn [fst snd] in *. subst r. cbn [run]. now rewrite app_nil_r. }
    unfold afterCreateDefault. rewrite Hrun. unfold outcome at 1, final.
    cbn [fst snd].
    assert (Hitem :
      Dynamo.getItem serviceId
        (Dynamo.configTable
           (snd (fst (run Dynamo.store
                        (ConfigService.saveServiceConfig
                           (mkConfig serviceId baseline)) w))))
      = Some (mkConfigRecord serviceId baseline created updated)).
    { unfold final in Htable. rewrite Htable.
      apply (getItem_putItem
               (mkConfigRecord serviceId baseline created updated)). }
    split; [reflexivity|]. split.
    { rewrite getAvailableTiers_outcome, getServiceConfig_dynamo, Hitem.
      reflexivity. }
    split.
    { intros tier _. unfold RateLimitService.getRateLimitInfo.
      rewrite getRateLimit_outcome, getServiceConfig_dynamo, Hitem.
      cbn [rules config]. unfold baseline. cbn [Js.getProp].
      rewrite !(String.eqb_sym _ tier).
      destruct (String.eqb_spec tier "default") as [->|_]; [reflexivity|].
      destruct (String.eqb tier "pro"); [reflexivity|].
      destruct (String.eqb tier "enterprise"); reflexivity. }
    intros other Hother. rewrite !getServiceConfig_dynamo.
    unfold final in Htable. rewrite Htable.
    rewrite (getItem_putItem_other
               (mkConfigRecord serviceId baseline created updated));
      [reflexivity | exact Hother].
  - intros W h w. unfold outcome, trace.
    destruct (run h (ConfigService.createDefaultConfig "") w)
      as [[r w'] tr] eqn:H.
    unfold ConfigService.createDefaultConfig, ConfigService.saveServiceConfig
      in H.
    execute H.
    all: cbv in Hsum; try discriminate Hsum; injection Hsum as <-.
    all: injection H as <- <- <-; split; reflexivity.
Qed.

Example createDefaultConfig_replaces_custom :
  outcome (run Dynamo.store
             (ConfigService.getRateLimit "uploads" "default")
             Demo.underLimit)
  = inr (mkRateLimit "uploads" "default" 60000 5) /\
  outcome (run Dynamo.store
             (ConfigService.getRateLimit "uploads" "default")
             (afterCreateDefault "uploads" Demo.underLimit))
  = inr (mkRateLimit "uploads" "default" 3600000 10).
Proof. split; vm_compute; reflexivity. Qed.

(* ================================================================= *)
(** ** More on the admission decision *)

Lemma validateRequest_ok request :
  RateLimitService.validateRequest request = inr tt <->
  req_serviceId request <> "" /\ clientId request <> "" /\
  (forall m t, metadata request = Some m -> userTier m = Some t ->
     t = "" \/ In t ["free"; "pro"; "enterprise"; "default"]).
Proof.
  unfold RateLimitService.validateRequest.
  destruct (String.eqb_spec (req_serviceId request) "") as [Hs|Hs].
  { split; [discriminate | intros [H _]; contradiction]. }
  destruct (String.eqb_spec (clientId request) "") as [Hc|Hc].
  { split; [discriminate | intros (_ & H & _); contradiction]. }
  destruct (metadata request) as [m|] eqn:Hm.
  2: { split; [|reflexivity]. intros _. repeat split; auto. discriminate. }
  destruct (userTier m) as [t|] eqn:Ht.
  2: { split; [|reflexivity]. intros _. repeat split; auto.
       intros m0 t0 [= <-]. congruence. }
  destruct (String.eqb_spec t "") as [He|He]; cbn [negb andb].
  { split; [|reflexivity]. intros _. repeat split; auto.
    intros m0 t0 [= <-] Ht0. left. congruence. }
  unfold includes. cbn [existsb].
  split.
  - intros H. repeat split; auto. intros m0 t0 [= <-] Ht0. right.
    assert (t0 = t) by congruence. subst t0.
    destruct (String.eqb_spec t "free"); [subst; cbn; auto|].
    destruct (String.eqb_spec t "pro"); [subst; cbn; auto|].
    destruct (String.eqb_spec t "enterprise"); [subst; cbn; tauto|].
    destruct (String.eqb_spec t "default"); [subst; cbn; tauto|].
    discriminate H.
  - intros (_ & _ & H). destruct (H m t eq_refl Ht) as [->|Hin];
      [contradiction|].
    cbn in Hin.
    destruct Hin as [<-|[<-|[<-|[<-|[]]]]]; reflexivity.
Qed.

(** A request that fails validation is turned away before anything is
    asked of the stores or of the clock. *)
Theorem checkRateLimit_rejects_invalid_request
  (W : Type) (h : handler W) (w : W) (request : RateLimitRequest) :
  (RateLimitService.validateRequest request = inr tt <->
   req_serviceId request <> "" /\ clientId request <> "" /\
   (forall m t, metadata request = Some m -> userTier m = Some t ->
      t = "" \/ In t ["free"; "pro"; "enterprise"; "default"])) /\
  (forall e,
     RateLimitService.validateRequest request = inl e ->
     outcome (run h (RateLimitService.checkRateLimit request) w) = inl e /\
     storeCalls (trace (run h (RateLimitService.checkRateLimit request) w))
     = [] /\
     clockReadings (trace (run h (RateLimitService.checkRateLimit request) w))
     = []) /\
  (req_serviceId request = "" ->
   RateLimitService.validateRequest request
   = inl (Error "Service ID is required and must be a string")) /\
  (req_serviceId request <> "" -> clientId request = "" ->
   RateLimitService.validateRequest request
   = inl (Error "Client ID is required and must be a string")) /\
  (forall e,
     req_serviceId request <> "" -> clientId request <> "" ->
     RateLimitService.validateRequest request = inl e ->
     e = Error "Invalid user tier specified").
Proof.
  split; [apply validateRequest_ok|].
  split.
  { intros e He. unfold outcome, trace.
    destruct (run h (RateLimitService.checkRateLimit request) w)
      as [[r w'] tr] eqn:H.
    unfold RateLimitService.checkRateLimit in H. rewrite He in H.
    execute H. injection H as <- <- <-. repeat split. }
  unfold RateLimitService.validateRequest.
  split; [intros ->; reflexivity|].
  split.
  { intros Hs ->. apply String.eqb_neq in Hs. now rewrite Hs. }
  intros e Hs Hc. apply String.eqb_neq in Hs, Hc. rewrite Hs, Hc.
  destruct (metadata request) as [m|]; [|discriminate].
  destruct (userTier m) as [t|]; [|discriminate].
  destruct (_ && _); [|discriminate]. now intros [= <-].
Qed.

Lemma getRateLimit_reads W (h : handler W) w serviceId tier r w1 t1 :
  run h (ConfigService.getRateLimit serviceId tier) w = (r, w1, t1) ->
  writes t1 = [].
Proof.
  intros H. unfold ConfigService.getRateLimit in H. execute H.
  all: injection H as <- <- <-; reflexivity.
Qed.

Lemma checkRateLimit_writes W (h : handler W) w request r w' tr :
  run h (RateLimitService.checkRateLimit request) w = (r, w', tr) ->
  writes tr = [] \/
  exists t answer,
    writes tr
    = [Event (PutUsageItem
                (stampedAt (DynamoDBService.usageKey (req_serviceId request)
                              (clientId request)) t)) answer] /\
    In t (clockReadings tr).
Proof.
  intros H.
  unfold RateLimitService.checkRateLimit in H.
  rewrite run_tryCatch in H.
  destruct (RateLimitService.validateRequest request) as [e|[]];
    cbn [lift bind] in H.
  { execute H. injection H as <- <- <-. now left. }
  rewrite run_bind in H.
  destruct (run h (ConfigService.getRateLimit (req_serviceId request)
                     (tierOf request)) w) as [[[e|rateLimit] w1] t1] eqn:Hcfg;
    pose proof (getRateLimit_reads _ _ _ _ _ _ _ _ Hcfg) as Hr.
  { execute H. injection H as <- <- <-. left.
    rewrite writes_app, Hr. reflexivity. }
  execute H.
  all: injection H as <- <- <-.
  all: rewrite ?writes_app, Hr; unfold clockReadings; rewrite ?collect_app.
  all: cbn -[Js.toString Z.div Z.add Z.mul DynamoDBService.usageKey In].
  all: first [ left; reflexivity
             | right; eexists; eexists; split; [reflexivity|];
               rewrite ?in_app_iff; cbn; tauto ].
Qed.

(** Whatever the environment answers, a call sends at most one write:
    the put of a usage record under the request's key, stamped at an
    instant the call read off the clock.  It never deletes and never
    writes a configuration. *)
Theorem checkRateLimit_sends_at_most_one_write
  (W : Type) (h : handler W) (w : W) (request : RateLimitRequest) :
  writes (trace (run h (RateLimitService.checkRateLimit request) w)) = [] \/
  exists t answer,
    writes (trace (run h (RateLimitService.checkRateLimit request) w))
    = [Event (PutUsageItem
                (stampedAt (DynamoDBService.usageKey (req_serviceId request)
                              (clientId request)) t)) answer] /\
    In t (clockReadings
            (trace (run h (RateLimitService.checkRateLimit request) w))).
Proof.
  unfold trace.
  destruct (run h (RateLimitService.checkRateLimit request) w)
    as [[r w'] tr] eqn:H.
  exact (checkRateLimit_writes W h w request r w' tr H).
Qed.

Lemma checkRateLimit_dynamo (w : Dynamo.World)
  (request : RateLimitRequest) (response : RateLimitResponse) :
  outcome (run Dynamo.store (RateLimitService.checkRateLimit request) w)
  = inr response ->
  exists rateLimit found,
    outcome (run Dynamo.store
               (ConfigService.getRateLimit (req_serviceId request)
                  (tierOf request)) w) = inr rateLimit /\
    found
    = Dynamo.query
        (DynamoDBService.usageKey (req_serviceId request) (clientId request))
        (SkGe (Js.toString (fst (Dynamo.tick w) - rl_windowMs rateLimit)))
        (Dynamo.usageTable w) /\
    resp_metadata response
    = mkResponseMetadata (req_serviceId request)
        (rl_windowMs rateLimit) (rl_maxRequests rateLimit) /\
    allowed response
    = (Z.of_nat (List.length found) <? rl_maxRequests rateLimit) /\
    remaining response
    = (if allowed response
       then Z.max 0 (rl_maxRequests rateLimit - Z.of_nat (List.length found))
            - 1
       else Z.max 0 (rl_maxRequests rateLimit
                     - Z.of_nat (List.length found))) /\
    (retryAfter response = None \/ found <> []) /\
    Dynamo.usageTable
      (final (run Dynamo.store (RateLimitService.checkRateLimit request) w))
    = (if allowed response
       then Dynamo.putUsage
              (stampedAt
                 (DynamoDBService.usageKey (req_serviceId request)
                    (clientId request))
                 (fst (Dynamo.tick (snd (Dynamo.tick w)))))
              (Dynamo.usageTable w)
       else Dynamo.usageTable w) /\
    Dynamo.configTable
      (final (run Dynamo.store (RateLimitService.checkRateLimit request) w))
    = Dynamo.configTable w.
Proof.
  unfold outcome, final.
  remember Dynamo.store as h eqn:Hh.
  destruct (run h (RateLimitService.checkRateLimit request) w)
    as [[r w'] tr] eqn:H.
  cbn [fst snd]. intros ->.
  unfold RateLimitService.checkRateLimit in H.
  rewrite run_tryCatch in H.
  destruct (RateLimitService.validateRequest request) as [e|[]];
    cbn [lift bind] in H.
  { execute H. }
  rewrite run_bind in H.
  destruct (run h (ConfigService.getRateLimit (req_serviceId request)
                     (tierOf request)) w) as [[[e|rateLimit] w1] t1] eqn:Hcfg.
  { execute H. }
  assert (Hw1 : w1 = w).
  { clear H. unfold ConfigService.getRateLimit in Hcfg. execute Hcfg.
    all: subst h; cbn in *; congruence. }
  subst w1. exists rateLimit. eexists. split; [reflexivity|].
  split; [reflexivity|].
  execute H.
  all: subst h; cbn [handle Dynamo.store Dynamo.step] in *.
  all: repeat match goal with
              | Hs : (_, _) = (_, _) |- _ => injection Hs as ? ?
              end; subst.
  all: cbn [allowed remaining retryAfter resp_metadata Dynamo.usageTable
            Dynamo.configTable Dynamo.withUsage fst snd].
  all: repeat match goal with
              | Ht : Dynamo.tick _ = _ |- _ =>
                  apply tick_eq in Ht; destruct Ht as (? & ? & ? & ?)
              end.
  all: unfold stampedAt; change (24 * 60 * 60) with 86400.
  all: repeat match goal with
              | |- _ /\ _ => split
              end.
  all: try reflexivity; try congruence.
  all: first [ left; reflexivity | right ].
  all: intros Hnil.
  all: match goal with
       | Hif : negb _ && (0 <? Z.of_nat (List.length ?q)) = true |- _ =>
           assert (Hq : q = []) by congruence; rewrite Hq in Hif;
           cbn in Hif;
           first [ discriminate Hif
                 | rewrite andb_false_r in Hif; discriminate Hif ]
       end.
Qed.

Lemma filter_and_length {A : Type} (g f : A -> bool) (l : list A) :
  (List.length (filter (fun x => g x && f x) l)
   <= List.length (filter f l))%nat.
Proof.
  induction l as [|a l IH]; cbn [filter]; [lia|].
  destruct (g a), (f a); cbn [andb List.length]; lia.
Qed.

Lemma query_putUsage_length key cond item t :
  (List.length (Dynamo.query key cond (Dynamo.putUsage item t))
   <= S (List.length (Dynamo.query key cond t)))%nat.
Proof.
  unfold Dynamo.query, Dynamo.putUsage, Dynamo.deleteUsage.
  rewrite filter_app, length_app, filter_filter.
  pose proof (filter_and_length
                (fun x => negb (Dynamo.sameKey (pk item) (sk item) x))
                (fun r => String.eqb (pk r) key
                          && Dynamo.satisfies cond (sk r)) t) as Hle.
  cbn beta in Hle.
  cbn [filter]. destruct (_ && _); cbn [List.length]; lia.
Qed.

(** Under a rule with a whole threshold, a call never leaves more
    records in the window it looked at than the larger of what it found
    there and the limit. *)
Theorem checkRateLimit_keeps_window_within_limit
  (w : Dynamo.World) (request : RateLimitRequest)
  (response : RateLimitResponse) :
  outcome (run Dynamo.store (RateLimitService.checkRateLimit request) w)
  = inr response ->
  Z.of_nat
    (List.length
       (Dynamo.query
          (DynamoDBService.usageKey (req_serviceId request) (clientId request))
          (SkGe (Js.toString (fst (Dynamo.tick w)
                              - meta_windowMs (resp_metadata response))))
          (Dynamo.usageTable
             (final (run Dynamo.store
                       (RateLimitService.checkRateLimit request) w)))))
  <= Z.max
       (Z.of_nat
          (List.length
             (Dynamo.query
                (DynamoDBService.usageKey (req_serviceId request)
                   (clientId request))
                (SkGe (Js.toString (fst (Dynamo.tick w)
                                    - meta_windowMs (resp_metadata response))))
                (Dynamo.usageTable w))))
       (meta_maxRequests (resp_metadata response)).
Proof.
  intros H.
  destruct (checkRateLimit_dynamo w request response H)
    as (rateLimit & found & _ & -> & Hmeta & Hallowed & _ & _ & Htable & _).
  rewrite Hmeta. cbn [meta_windowMs meta_maxRequests].
  rewrite Htable. destruct (allowed response); [|lia].
  symmetry in Hallowed. apply Z.ltb_lt in Hallowed.
  match goal with
  | |- context [Dynamo.query ?k ?c (Dynamo.putUsage ?i ?t)] =>
      pose proof (query_putUsage_length k c i t)
  end.
  lia.
Qed.

Lemma checkRateLimit_keeps_window_within_limit_witness :
  outcome (run Dynamo.store (RateLimitService.checkRateLimit Demo.request)
             Demo.underLimit) = inr Demo.granted /\
  Z.of_nat
    (List.length
       (Dynamo.query
          (DynamoDBService.usageKey (req_serviceId Demo.request)
             (clientId Demo.request))
          (SkGe (Js.toString (fst (Dynamo.tick Demo.underLimit)
                              - meta_windowMs (resp_metadata Demo.granted))))
          (Dynamo.usageTable
             (final (run Dynamo.store
                       (RateLimitService.checkRateLimit Demo.request)
                       Demo.underLimit)))))
  <= Z.max
       (Z.of_nat
          (List.length
             (Dynamo.query
                (DynamoDBService.usageKey (req_serviceId Demo.request)
                   (clientId Demo.request))
                (SkGe (Js.toString (fst (Dynamo.tick Demo.underLimit)
                                    - meta_windowMs
                                        (resp_metadata Demo.granted))))
                (Dynamo.usageTable Demo.underLimit))))
       (meta_maxRequests (resp_metadata Demo.granted)).
Proof.
  split.
  - vm_compute. reflexivity.
  - apply (checkRateLimit_keeps_window_within_limit Demo.underLimit
             Demo.request Demo.granted).
    vm_compute. reflexivity.
Defined.

Lemma usageOf_putUsage_other serviceId clientId item t :
  pk item <> DynamoDBService.usageKey serviceId clientId ->
  filter (fun r => String.eqb (pk r)
                     (DynamoDBService.usageKey serviceId clientId))
    (Dynamo.putUsage item t)
  = filter (fun r => String.eqb (pk r)
                       (DynamoDBService.usageKey serviceId clientId)) t.
Proof.
  intros Hne. unfold Dynamo.putUsage, Dynamo.deleteUsage.
  rewrite filter_app, filter_filter. cbn [filter].
  apply String.eqb_neq in Hne. rewrite Hne, app_nil_r.
  apply filter_ext. intros r. unfold Dynamo.sameKey.
  destruct (String.eqb_spec (pk r) (DynamoDBService.usageKey serviceId clientId))
    as [Hr|Hr]; [|now rewrite andb_false_r].
  rewrite andb_true_r.
  destruct (String.eqb_spec (pk r) (pk item)) as [Hi|Hi]; [|reflexivity].
  apply String.eqb_neq in Hne. congruence.
Qed.

(** Whatever the request, a call changes nothing but the log of the
    request's own key, by at most one record, stamped as [recordUsage]
    stamps; tables whose sort keys spell their timestamps stay so. *)
Theorem checkRateLimit_leaves_the_rest
  (w : Dynamo.World) (request : RateLimitRequest) :
  Dynamo.configTable
    (final (run Dynamo.store (RateLimitService.checkRateLimit request) w))
  = Dynamo.configTable w /\
  (Dynamo.usageTable
     (final (run Dynamo.store (RateLimitService.checkRateLimit request) w))
   = Dynamo.usageTable w \/
   exists t,
     Dynamo.usageTable
       (final (run Dynamo.store (RateLimitService.checkRateLimit request) w))
     = Dynamo.putUsage
         (stampedAt (DynamoDBService.usageKey (req_serviceId request)
                       (clientId request)) t)
         (Dynamo.usageTable w)) /\
  (forall otherService otherClient,
     DynamoDBService.usageKey otherService otherClient
     <> DynamoDBService.usageKey (req_serviceId request) (clientId request) ->
     Dynamo.usageOf otherService otherClient
       (final (run Dynamo.store (RateLimitService.checkRateLimit request) w))
     = Dynamo.usageOf otherService otherClient w) /\
  ((forall r, In r (Dynamo.usageTable w) ->
              sk r = Js.toString (timestamp r)) ->
   forall r,
     In r (Dynamo.usageTable
             (final (run Dynamo.store
                       (RateLimitService.checkRateLimit request) w))) ->
     sk r = Js.toString (timestamp r)).
Proof.
  destruct (store_replay (RateLimitService.checkRateLimit request) w)
    as [Hu Hc].
  rewrite replay_writes_usage in Hu. rewrite replay_writes_config in Hc.
  unfold final, trace in *.
  destruct (run Dynamo.store (RateLimitService.checkRateLimit request) w)
    as [[result w'] tr] eqn:H.
  cbn [fst snd] in *.
  destruct (checkRateLimit_writes _ _ _ _ _ _ _ H)
    as [Hw|(t & answer & Hw & _)]; rewrite Hw in Hu, Hc;
    cbn [fold_left Dynamo.usageAfter Dynamo.configAfter] in Hu, Hc.
  - split; [exact Hc|]. split; [now left|].
    unfold Dynamo.usageOf. rewrite Hu. split; [reflexivity|]. auto.
  - split; [exact Hc|]. split; [right; now exists t|].
    unfold Dynamo.usageOf. rewrite Hu. split.
    + intros otherService otherClient Hne.
      apply usageOf_putUsage_other. cbn [stampedAt pk]. congruence.
    + intros Hinv r Hin. unfold Dynamo.putUsage, Dynamo.deleteUsage in Hin.
      apply in_app_or in Hin. destruct Hin as [Hin|[<-|[]]].
      * apply filter_In in Hin. apply Hinv. tauto.
      * reflexivity.
Qed.

Lemma usagePuts_writes (tr : list event) :
  usagePuts (writes tr) = usagePuts tr.
Proof.
  unfold usagePuts, writes.
  induction tr as [|[X o x] tr IH]; cbn [filter collect]; [reflexivity|].
  destruct o; cbn [isWrite collect usagePut]; now rewrite IH.
Qed.

(** The log of a key after a put under that key: the records it held,
    less those of the same sort key, and the new record. *)
Lemma usageOf_putUsage_same key item t :
  pk item = key ->
  filter (fun r => String.eqb (pk r) key) (Dynamo.putUsage item t)
  = filter (fun r => negb (String.eqb (sk r) (sk item)))
      (filter (fun r => String.eqb (pk r) key) t) ++ [item].
Proof.
  intros <-. unfold Dynamo.putUsage, Dynamo.deleteUsage.
  rewrite filter_app, !filter_filter. cbn [filter].
  rewrite String.eqb_refl. f_equal.
  apply filter_ext. intros r. unfold Dynamo.sameKey.
  destruct (String.eqb (pk r) (pk item)); cbn [andb negb]; [|reflexivity].
  now rewrite andb_true_r.
Qed.

Lemma filter_all {A : Type} (f : A -> bool) (l : list A) :
  (forall x, In x l -> f x = true) -> filter f l = l.
Proof.
  induction l as [|x l IH]; intros H; cbn [filter]; [reflexivity|].
  rewrite (H x (or_introl eq_refl)). f_equal. apply IH.
  intros y Hy. apply H. now right.
Qed.

Lemma filter_drops {A : Type} (f : A -> bool) (l : list A) (x : A) :
  In x l -> f x = false -> (List.length (filter f l) < List.length l)%nat.
Proof.
  induction l as [|y l IH]; intros Hin Hx; [contradiction|].
  cbn [filter List.length]. pose proof (filter_length_le f l) as Hle.
  destruct Hin as [->|Hin].
  - rewrite Hx. lia.
  - specialize (IH Hin Hx). destruct (f y); cbn [List.length]; lia.
Qed.

(** What an admitted request leaves behind.  A completed
    [checkRateLimit] admits the request exactly when the window query
    returned fewer records than [maxRequests].  Admitted, it sends one
    write, the put of a record under the request's key stamped at an
    instant it read off the clock, and the put is acknowledged; denied,
    it sends no write.  On the tables the record is in the client's log
    afterwards; the log is one record longer when it held none of that
    sort key, and no longer than it was when it held one, which the
    put has replaced. *)
Theorem checkRateLimit_records_iff_allowed :
  (forall (W : Type) (h : handler W) (w : W)
          (request : RateLimitRequest) (response : RateLimitResponse),
     outcome (run h (RateLimitService.checkRateLimit request) w)
     = inr response ->
     exists rateLimit cond usageRecords,
       outcome (run h (ConfigService.getRateLimit (req_serviceId request)
                         (tierOf request)) w) = inr rateLimit /\
       usageQueries (trace (run h (RateLimitService.checkRateLimit request) w))
       = [(DynamoDBService.usageKey (req_serviceId request)
             (clientId request), cond, inr usageRecords)] /\
       allowed response
       = (Z.of_nat (List.length usageRecords) <? rl_maxRequests rateLimit) /\
       (allowed response = true ->
        exists recordedAt,
          In recordedAt
            (clockReadings
               (trace (run h (RateLimitService.checkRateLimit request) w))) /\
          writes (trace (run h (RateLimitService.checkRateLimit request) w))
          = [Event (PutUsageItem
                      (stampedAt
                         (DynamoDBService.usageKey (req_serviceId request)
                            (clientId request)) recordedAt)) (inr tt)]) /\
       (allowed response = false ->
        writes (trace (run h (RateLimitService.checkRateLimit request) w))
        = [])) /\
  (forall (w : Dynamo.World)
          (request : RateLimitRequest) (response : RateLimitResponse),
     outcome (run Dynamo.store (RateLimitService.checkRateLimit request) w)
     = inr response ->
     (allowed response = true ->
      exists recordedAt,
        Dynamo.usageTable
          (final (run Dynamo.store
                    (RateLimitService.checkRateLimit request) w))
        = Dynamo.putUsage
            (stampedAt (DynamoDBService.usageKey (req_serviceId request)
                          (clientId request)) recordedAt)
            (Dynamo.usageTable w) /\
        In (stampedAt (DynamoDBService.usageKey (req_serviceId request)
                         (clientId request)) recordedAt)
          (Dynamo.usageOf (req_serviceId request) (clientId request)
             (final (run Dynamo.store
                       (RateLimitService.checkRateLimit request) w))) /\
        ((forall r,
            In r (Dynamo.usageOf (req_serviceId request) (clientId request) w) ->
            sk r <> Js.toString recordedAt) ->
         List.length
           (Dynamo.usageOf (req_serviceId request) (clientId request)
              (final (run Dynamo.store
                        (RateLimitService.checkRateLimit request) w)))
         = S (List.length
                (Dynamo.usageOf (req_serviceId request) (clientId request)
                   w))) /\
        (forall r,
           In r (Dynamo.usageOf (req_serviceId request) (clientId request) w) ->
           sk r = Js.toString recordedAt ->
           (List.length
              (Dynamo.usageOf (req_serviceId request) (clientId request)
                 (final (run Dynamo.store
                           (RateLimitService.checkRateLimit request) w)))
            <= List.length
                 (Dynamo.usageOf (req_serviceId request) (clientId request)
                    w))%nat)) /\
     (allowed response = false ->
      Dynamo.usageTable
        (final (run Dynamo.store (RateLimitService.checkRateLimit request) w))
      = Dynamo.usageTable w)).
Proof.
  split.
  - intros W h w request response H.
    destruct (checkRateLimit_completed W h w request response H)
      as (rateLimit & now & usageRecords & Hcfg & _ & Hq & Hallowed & _ & _
          & _ & _ & Hputs & Hlen).
    exists rateLimit, (SkGe (Js.toString (now - rl_windowMs rateLimit))),
      usageRecords.
    split; [exact Hcfg|]. split; [exact Hq|].
    cbv zeta in Hallowed. split; [exact Hallowed|].
    unfold trace in *.
    destruct (run h (RateLimitService.checkRateLimit request) w)
      as [[r w'] tr] eqn:Hrun. cbn [snd] in *.
    pose proof (usagePuts_writes tr) as Hw.
    destruct (checkRateLimit_writes W h w request r w' tr Hrun)
      as [Hnone|(t & answer & Hone & Hin)].
    + rewrite Hnone in Hw. cbn in Hw. rewrite <- Hw in Hlen.
      split; intros Ha; rewrite Ha in Hlen; [discriminate Hlen | exact Hnone].
    + rewrite Hone in Hw. cbn in Hw. rewrite <- Hw in Hlen, Hputs.
      split; intros Ha; rewrite Ha in Hlen, Hputs; [|discriminate Hlen].
      exists t. split; [exact Hin|]. rewrite Hone.
      destruct (tl (clockReadings tr)) as [|recordedAt rest];
        [discriminate Hputs|].
      assert (Hack : answer = inr tt) by congruence.
      now rewrite Hack.
  - intros w request response H.
    destruct (checkRateLimit_dynamo w request response H)
      as (rateLimit & found & _ & _ & _ & _ & _ & _ & Husage & _).
    split; intros Ha; rewrite Ha in Husage; [|exact Husage].
    exists (fst (Dynamo.tick (snd (Dynamo.tick w)))).
    split; [exact Husage|].
    unfold Dynamo.usageOf. rewrite Husage.
    rewrite (usageOf_putUsage_same
               (DynamoDBService.usageKey (req_serviceId request)
                  (clientId request))
               (stampedAt (DynamoDBService.usageKey (req_serviceId request)
                             (clientId request))
                  (fst (Dynamo.tick (snd (Dynamo.tick w)))))
               _ eq_refl).
    cbn [stampedAt sk].
    split; [|split].
    + apply in_or_app. right. now left.
    + intros Hfresh. rewrite length_app. cbn [List.length].
      rewrite filter_all; [lia|].
      intros r Hr. apply negb_true_iff, String.eqb_neq. now apply Hfresh.
    + intros r Hr Hsame. rewrite length_app. cbn [List.length].
      pose proof (filter_drops
                    (fun r0 => negb (String.eqb (sk r0)
                       (Js.toString (fst (Dynamo.tick (snd (Dynamo.tick w)))))))
                    _ r Hr) as Hlt.
      cbn beta in Hlt. rewrite Hsame, String.eqb_refl in Hlt.
      specialize (Hlt eq_refl). lia.
Qed.

Lemma recordUsage_dynamo w serviceId clientId :
  outcome (run Dynamo.store (DynamoDBService.recordUsage serviceId clientId) w)
  = inr tt /\
  Dynamo.usageTable
    (final (run Dynamo.store (DynamoDBService.recordUsage serviceId clientId) w))
  = Dynamo.putUsage
      (stampedAt (DynamoDBService.usageKey serviceId clientId)
         (fst (Dynamo.tick w)))
      (Dynamo.usageTable w).
Proof.
  unfold DynamoDBService.recordUsage, outcome, final.
  rewrite run_perform_bind. cbn [handle Dynamo.store Dynamo.step].
  destruct (Dynamo.tick w) as [now w1] eqn:Ht. apply tick_eq in Ht.
  destruct Ht as (_ & _ & _ & Hu).
  cbn [send tryCatch run handle Dynamo.store Dynamo.step fst snd
       Dynamo.usageTable Dynamo.withUsage].
  rewrite Hu. split; reflexivity.
Qed.

(** What [recordUsage] wrote, [getUsageInWindow] finds: the answer
    holds the new record and the records the window held before, less
    the one the new record took the place of, in some order. *)
Theorem recordUsage_then_getUsageInWindow
  (w : Dynamo.World) (serviceId clientId : string) (sinceTimestamp : Z) :
  0 <= sinceTimestamp <= fst (Dynamo.tick w) ->
  String.length (Js.toString sinceTimestamp)
  = String.length (Js.toString (fst (Dynamo.tick w))) ->
  exists found,
    outcome (run Dynamo.store
               (DynamoDBService.getUsageInWindow
                  serviceId clientId sinceTimestamp)
               (final (run Dynamo.store
                         (DynamoDBService.recordUsage serviceId clientId) w)))
    = inr found /\
    Permutation found
      (stampedAt (DynamoDBService.usageKey serviceId clientId)
         (fst (Dynamo.tick w))
       :: filter (fun r => negb (String.eqb (sk r)
                                   (Js.toString (fst (Dynamo.tick w)))))
            (Dynamo.query (DynamoDBService.usageKey serviceId clientId)
               (SkGe (Js.toString sinceTimestamp)) (Dynamo.usageTable w))).
Proof.
  intros Hsince Hwidth.
  rewrite (proj1 (getUsageInWindow_dynamo _ _ _ _)).
  rewrite (proj2 (recordUsage_dynamo w serviceId clientId)).
  eexists. split; [reflexivity|].
  unfold Dynamo.query, Dynamo.putUsage, Dynamo.deleteUsage.
  rewrite filter_app, !filter_filter. cbn [filter stampedAt pk sk].
  rewrite String.eqb_refl. cbn [andb Dynamo.satisfies].
  rewrite JsFacts.toString_leb by lia.
  replace (sinceTimestamp <=? fst (Dynamo.tick w)) with true
    by (symmetry; apply Z.leb_le; lia).
  apply Permutation_sym.
  match goal with
  | |- Permutation (_ :: ?l2) (?l1 ++ _) =>
      replace l1 with l2; [apply Permutation_cons_append|]
  end.
  apply filter_ext. intros r. unfold Dynamo.sameKey.
  destruct (String.eqb (pk r) (DynamoDBService.usageKey serviceId clientId));
    cbn [andb negb]; [|reflexivity].
  destruct (String.eqb (sk r) (Js.toString (fst (Dynamo.tick w))));
    cbn [andb negb]; [now rewrite andb_false_r | now rewrite andb_true_r].
Qed.

Lemma recordUsage_then_getUsageInWindow_witness :
  0 <= Demo.noon - 60000 <= fst (Dynamo.tick Demo.underLimit) /\
  String.length (Js.toString (Demo.noon - 60000))
  = String.length (Js.toString (fst (Dynamo.tick Demo.underLimit))) /\
  exists found,
    outcome (run Dynamo.store
               (DynamoDBService.getUsageInWindow
                  "uploads" "ip:203.0.113.7" (Demo.noon - 60000))
               (final (run Dynamo.store
                         (DynamoDBService.recordUsage
                            "uploads" "ip:203.0.113.7")
                         Demo.underLimit)))
    = inr found /\
    Permutation found
      (stampedAt (DynamoDBService.usageKey "uploads" "ip:203.0.113.7")
         (fst (Dynamo.tick Demo.underLimit))
       :: filter (fun r => negb (String.eqb (sk r)
                                   (Js.toString
                                      (fst (Dynamo.tick Demo.underLimit)))))
            (Dynamo.query
               (DynamoDBService.usageKey "uploads" "ip:203.0.113.7")
               (SkGe (Js.toString (Demo.noon - 60000)))
               (Dynamo.usageTable Demo.underLimit))).
Proof.
  assert (H1 : 0 <= Demo.noon - 60000 <= fst (Dynamo.tick Demo.underLimit))
    by (vm_compute; split; discriminate).
  assert (H2 : String.length (Js.toString (Demo.noon - 60000))
               = String.length
                   (Js.toString (fst (Dynamo.tick Demo.underLimit))))
    by (vm_compute; reflexivity).
  split; [exact H1|]. split; [exact H2|].
  exact (recordUsage_then_getUsageInWindow Demo.underLimit
           "uploads" "ip:203.0.113.7" (Demo.noon - 60000) H1 H2).
Defined.

Example recordUsage_twice_in_one_millisecond :
  List.length
    (Dynamo.usageTable
       (final (run Dynamo.store
                 (DynamoDBService.recordUsage "uploads" "ip:203.0.113.7")
                 (final (run Dynamo.store
                           (DynamoDBService.recordUsage
                              "uploads" "ip:203.0.113.7")
                           (Demo.world [] Demo.noon))))))
  = 1%nat.
Proof. vm_compute. reflexivity. Qed.

(** [getUsageStats] and [isBlocked] tell what [checkRateLimit] would
    decide. *)
Theorem getUsageStats_agrees_with_checkRateLimit
  (W : Type) (h : handler W) (w : W)
  (request : RateLimitRequest) (response : RateLimitResponse) :
  outcome (run h (RateLimitService.checkRateLimit request) w) = inr response ->
  exists stats,
    outcome (run h (RateLimitService.getUsageStats (req_serviceId request)
                      (clientId request) (tierOf request)) w) = inr stats /\
    allowed response = (st_currentUsage stats <? st_maxRequests stats) /\
    st_remaining stats
    = remaining response + (if allowed response then 1 else 0) /\
    st_resetTime stats = resetTime response /\
    st_windowMs stats = meta_windowMs (resp_metadata response) /\
    st_maxRequests stats = meta_maxRequests (resp_metadata response) /\
    outcome (run h (RateLimitService.isBlocked (req_serviceId request)
                      (clientId request) (tierOf request)) w)
    = inr (negb (allowed response)).
Proof.
  intros H.
  unfold RateLimitService.isBlocked. rewrite run_tryCatch, run_bind.
  unfold outcome in *.
  destruct (run h (RateLimitService.checkRateLimit request) w)
    as [[r w'] tr] eqn:Hc.
  cbn [fst] in H. subst r.
  destruct (run h (RateLimitService.getUsageStats _ _ _) w)
    as [[rs ws] ts] eqn:Hs.
  unfold RateLimitService.checkRateLimit in Hc.
  unfold RateLimitService.getUsageStats in Hs.
  rewrite run_tryCatch in Hc, Hs.
  destruct (RateLimitService.validateRequest request) as [e|[]];
    cbn [lift bind] in Hc.
  { execute Hc. }
  rewrite run_bind in Hc, Hs.
  destruct (run h (ConfigService.getRateLimit (req_serviceId request)
                     (tierOf request)) w) as [[[e|rateLimit] w1] t1] eqn:Hcfg.
  { execute Hc. }
  unfold lift in *. red_run Hc. red_run Hs.
  repeat (exec_step Hs; unfold lift in *; red_run Hs; red_run Hc;
          try discriminate Hc).
  all: injection Hs as <- <- <-.
  all: execute Hc.
  all: injection Hc as <- _ _.
  all: eexists; split; [reflexivity|].
  all: cbn [allowed remaining resetTime resp_metadata meta_windowMs
            meta_maxRequests st_currentUsage st_maxRequests st_remaining
            st_resetTime st_windowMs fst].
  all: repeat split; try reflexivity; try lia.
  all: try (symmetry; assumption).
  all: cbn [run fst snd negb]; f_equal.
  all: first [ apply Z.leb_le; apply Z.ltb_ge in Hif0; lia
             | apply Z.leb_gt; apply Z.ltb_lt in Hif0; lia ].
Qed.

Lemma getUsageStats_agrees_with_checkRateLimit_witness :
  outcome (run Dynamo.store (RateLimitService.checkRateLimit Demo.request)
             Demo.atLimit) = inr Demo.denied /\
  exists stats,
    outcome (run Dynamo.store
               (RateLimitService.getUsageStats (req_serviceId Demo.request)
                  (clientId Demo.request) (tierOf Demo.request))
               Demo.atLimit) = inr stats /\
    allowed Demo.denied = (st_currentUsage stats <? st_maxRequests stats) /\
    st_remaining stats
    = remaining Demo.denied + (if allowed Demo.denied then 1 else 0) /\
    st_resetTime stats = resetTime Demo.denied /\
    st_windowMs stats = meta_windowMs (resp_metadata Demo.denied) /\
    st_maxRequests stats = meta_maxRequests (resp_metadata Demo.denied) /\
    outcome (run Dynamo.store
               (RateLimitService.isBlocked (req_serviceId Demo.request)
                  (clientId Demo.request) (tierOf Demo.request))
               Demo.atLimit)
    = inr (negb (allowed Demo.denied)).
Proof.
  split.
  - vm_compute. reflexivity.
  - apply (getUsageStats_agrees_with_checkRateLimit Dynamo.World Dynamo.store
             Demo.atLimit Demo.request Demo.denied).
    vm_compute. reflexivity.
Defined.

(** The time until reset is never negative and, with a clock that
    does not run backwards, never longer than the window. *)
Theorem getTimeUntilReset_within_window
  (W : Type) (h : handler W) (w : W) (serviceId clientId tier : string)
  (stats : UsageStats) :
  outcome (run h (RateLimitService.getUsageStats serviceId clientId tier) w)
  = inr stats ->
  exists asked answered,
    clockReadings
      (trace (run h (RateLimitService.getTimeUntilReset
                       serviceId clientId tier) w)) = [asked; answered] /\
    st_resetTime stats = asked + st_windowMs stats /\
    outcome (run h (RateLimitService.getTimeUntilReset
                      serviceId clientId tier) w)
    = inr (Z.max 0 (asked + st_windowMs stats - answered)) /\
    0 <= Z.max 0 (asked + st_windowMs stats - answered) /\
    (asked <= answered ->
     Z.max 0 (asked + st_windowMs stats - answered)
     <= Z.max 0 (st_windowMs stats)).
Proof.
  intros H.
  unfold RateLimitService.getTimeUntilReset.
  rewrite run_tryCatch, run_bind. unfold outcome, trace in *.
  destruct (run h (RateLimitService.getUsageStats serviceId clientId tier) w)
    as [[r w1] t1] eqn:Hs.
  cbn [fst] in H. subst r.
  unfold RateLimitService.getUsageStats in Hs.
  rewrite run_tryCatch, run_bind in Hs.
  destruct (run h (ConfigService.getRateLimit serviceId tier) w)
    as [[[e|rateLimit] w0] t0] eqn:Hcfg;
    destruct (getRateLimit_trace _ _ _ _ _ _ _ _ Hcfg) as (_ & _ & Hclock & _).
  { execute Hs. }
  execute Hs. injection Hs as <- <- <-.
  cbn [run perform bind].
  match goal with
  | Hnow : handle h DateNow w0 = (?x, _) |- context [handle h DateNow ?w2] =>
      destruct (handle h DateNow w2) as [answered wEnd]; exists x, answered
  end.
  cbn [fst snd st_resetTime st_windowMs].
  unfold clockReadings in *. rewrite !collect_app, Hclock.
  unfold RateLimitService.calculateNextWindowStart.
  cbn [collect clockReading usageQuery app].
  repeat split; try reflexivity; lia.
Qed.

Lemma getTimeUntilReset_within_window_witness :
  outcome (run Dynamo.store
             (RateLimitService.getUsageStats
                "uploads" "ip:203.0.113.7" "default") Demo.atLimit)
  = inr (mkStats 5 5 60000 (Demo.noon + 60000) 0) /\
  exists asked answered,
    clockReadings
      (trace (run Dynamo.store
                (RateLimitService.getTimeUntilReset
                   "uploads" "ip:203.0.113.7" "default") Demo.atLimit))
    = [asked; answered] /\
    st_resetTime (mkStats 5 5 60000 (Demo.noon + 60000) 0)
    = asked + st_windowMs (mkStats 5 5 60000 (Demo.noon + 60000) 0) /\
    outcome (run Dynamo.store
               (RateLimitService.getTimeUntilReset
                  "uploads" "ip:203.0.113.7" "default") Demo.atLimit)
    = inr (Z.max 0 (asked
                    + st_windowMs (mkStats 5 5 60000 (Demo.noon + 60000) 0)
                    - answered)) /\
    0 <= Z.max 0 (asked
                  + st_windowMs (mkStats 5 5 60000 (Demo.noon + 60000) 0)
                  - answered) /\
    (asked <= answered ->
     Z.max 0 (asked + st_windowMs (mkStats 5 5 60000 (Demo.noon + 60000) 0)
              - answered)
     <= Z.max 0 (st_windowMs (mkStats 5 5 60000 (Demo.noon + 60000) 0))).
Proof.
  split.
  - vm_compute. reflexivity.
  - apply (getTimeUntilReset_within_window Dynamo.World Dynamo.store
             Demo.atLimit "uploads" "ip:203.0.113.7" "default").
    vm_compute. reflexivity.
Defined.

Lemma includes_hash_cons c s :
  Js.includes (String c s) "#" = false ->
  c <> "#"%char /\ Js.includes s "#" = false.
Proof.
  cbn [Js.includes String.prefix].
  destruct (ascii_dec "#" c) as [<-|Hc].
  - destruct s; discriminate.
  - intros H. split; [congruence | exact H].
Qed.

(** Two pairs of a service and a client share a usage log only if they
    are the same pair, as long as no service id contains the
    separator. *)
Theorem usageKey_injective (serviceId clientId serviceId' clientId' : string) :
  Js.includes serviceId "#" = false ->
  Js.includes serviceId' "#" = false ->
  DynamoDBService.usageKey serviceId clientId
  = DynamoDBService.usageKey serviceId' clientId' ->
  serviceId = serviceId' /\ clientId = clientId'.
Proof.
  unfold DynamoDBService.usageKey.
  revert serviceId'.
  induction serviceId as [|c s IH]; intros [|c' s'] H1 H2 Heq; cbn in Heq.
  - injection Heq as ->. now split.
  - injection Heq as <- _. apply includes_hash_cons in H2. now destruct H2.
  - injection Heq as -> _. apply includes_hash_cons in H1. now destruct H1.
  - injection Heq as <- Heq.
    apply includes_hash_cons in H1, H2.
    destruct (IH s' (proj2 H1) (proj2 H2) Heq) as [-> ->]. now split.
Qed.

Lemma usageKey_injective_witness :
  Js.includes "uploads" "#" = false /\
  Js.includes "uploads" "#" = false /\
  DynamoDBService.usageKey "uploads" "ip:203.0.113.7"
  = DynamoDBService.usageKey "uploads" "ip:203.0.113.7" /\
  "uploads" = "uploads" /\ "ip:203.0.113.7" = "ip:203.0.113.7".
Proof.
  split; [reflexivity|]. split; [reflexivity|]. split; [reflexivity|].
  apply (usageKey_injective "uploads" "ip:203.0.113.7"
           "uploads" "ip:203.0.113.7"); reflexivity.
Defined.

Example usageKey_shared_across_services :
  DynamoDBService.usageKey "files#eu" "ip:203.0.113.7"
  = DynamoDBService.usageKey "files" "eu#ip:203.0.113.7".
Proof. reflexivity. Qed.

(* ================================================================= *)
(** ** Maintenance *)

Lemma cleanupOldRecords_dynamo w serviceId clientId hoursOld :
  outcome (run Dynamo.store
             (RateLimitService.cleanupOldRecords serviceId clientId hoursOld)
             w) = inr tt /\
  Dynamo.usageTable
    (final (run Dynamo.store
              (RateLimitService.cleanupOldRecords serviceId clientId hoursOld)
              w))
  = filter (fun r =>
              negb (String.eqb (pk r)
                      (DynamoDBService.usageKey serviceId clientId)
                    && String.ltb (sk r)
                         (Js.toString (fst (Dynamo.tick w)
                                       - hoursOld * 60 * 60 * 1000))))
      (Dynamo.usageTable w) /\
  Dynamo.configTable
    (final (run Dynamo.store
              (RateLimitService.cleanupOldRecords serviceId clientId hoursOld)
              w))
  = Dynamo.configTable w.
Proof.
  assert (Hconfig :
    Dynamo.configTable
      (final (run Dynamo.store
                (RateLimitService.cleanupOldRecords
                   serviceId clientId hoursOld) w))
    = Dynamo.configTable w).
  { rewrite (proj2 (store_replay _ w)). apply config_kept.
    apply performsOnly_run.
    unfold RateLimitService.cleanupOldRecords.
    apply performsOnly_tryCatch; [|intros e; cbn; auto].
    cbn [perform bind performsOnly]. split; [reflexivity|]. intros now.
    apply cleanupOldUsage_keepsConfig. }
  cut (outcome (run Dynamo.store
                  (RateLimitService.cleanupOldRecords
                     serviceId clientId hoursOld) w) = inr tt /\
       Dynamo.usageTable
         (final (run Dynamo.store
                   (RateLimitService.cleanupOldRecords
                      serviceId clientId hoursOld) w))
       = filter (fun r =>
                   negb (String.eqb (pk r)
                           (DynamoDBService.usageKey serviceId clientId)
                         && String.ltb (sk r)
                              (Js.toString (fst (Dynamo.tick w)
                                            - hoursOld * 60 * 60 * 1000))))
           (Dynamo.usageTable w)); [tauto|].
  clear Hconfig. unfold RateLimitService.cleanupOldRecords.
  match goal with
  | |- context [run Dynamo.store (tryCatch ?p ?handler) w] =>
      assert (Hbody :
        outcome (run Dynamo.store p w) = inr tt /\
        Dynamo.usageTable (final (run Dynamo.store p w))
        = filter (fun r =>
                    negb (String.eqb (pk r)
                            (DynamoDBService.usageKey serviceId clientId)
                          && String.ltb (sk r)
                               (Js.toString
                                  (fst (Dynamo.tick w)
                                   - hoursOld * 60 * 60 * 1000))))
            (Dynamo.usageTable w));
      [| rewrite (run_tryCatch_ok _ Dynamo.store _ p handler w);
         [exact Hbody | exists tt; exact (proj1 Hbody)] ]
  end.
  rewrite run_perform_bind. cbn [handle Dynamo.store Dynamo.step].
  pose proof (tick_tables w) as [_ Husage].
  destruct (Dynamo.tick w) as [now w1]. cbn [fst snd] in *.
  destruct (cleanupOldUsage_dynamo w1 serviceId clientId
              (now - hoursOld * 60 * 60 * 1000)) as [Hout Htable].
  unfold outcome, final in *.
  destruct (run Dynamo.store (DynamoDBService.cleanupOldUsage _ _ _) w1)
    as [[r w2] t2].
  cbn [fst snd] in *. rewrite <- Husage. now split.
Qed.

(** [cleanupOldRecords] on the tables: of the key's records it removes
    those older than the cutoff and keeps the rest; nothing else
    changes. *)
Theorem cleanupOldRecords_on_the_table
  (w : Dynamo.World) (serviceId clientId : string) (hoursOld cutoffTime : Z) :
  cutoffTime = fst (Dynamo.tick w) - hoursOld * 60 * 60 * 1000 ->
  0 <= cutoffTime ->
  (forall r, In r (Dynamo.usageOf serviceId clientId w) ->
     sk r = Js.toString (timestamp r) /\
     0 <= timestamp r /\
     String.length (Js.toString (timestamp r))
     = String.length (Js.toString cutoffTime)) ->
  outcome (run Dynamo.store
             (RateLimitService.cleanupOldRecords serviceId clientId hoursOld)
             w) = inr tt /\
  Dynamo.usageOf serviceId clientId
    (final (run Dynamo.store
              (RateLimitService.cleanupOldRecords serviceId clientId hoursOld)
              w))
  = filter (fun r => cutoffTime <=? timestamp r)
      (Dynamo.usageOf serviceId clientId w) /\
  (forall otherService otherClient,
     DynamoDBService.usageKey otherService otherClient
     <> DynamoDBService.usageKey serviceId clientId ->
     Dynamo.usageOf otherService otherClient
       (final (run Dynamo.store
                 (RateLimitService.cleanupOldRecords
                    serviceId clientId hoursOld) w))
     = Dynamo.usageOf otherService otherClient w) /\
  Dynamo.configTable
    (final (run Dynamo.store
              (RateLimitService.cleanupOldRecords serviceId clientId hoursOld)
              w))
  = Dynamo.configTable w.
Proof.
  intros -> Hcut Hstamped.
  destruct (cleanupOldRecords_dynamo w serviceId clientId hoursOld)
    as (Hout & Htable & Hconfig).
  split; [exact Hout|]. split; [|split; [|exact Hconfig]].
  - unfold Dynamo.usageOf at 1. rewrite Htable. unfold Dynamo.usageOf.
    rewrite !filter_filter. apply filter_ext_in. intros r Hin.
    destruct (String.eqb (pk r) (DynamoDBService.usageKey serviceId clientId))
      eqn:Hkey; [|now rewrite andb_false_r].
    cbn [andb]. rewrite andb_true_r.
    destruct (Hstamped r) as (Hsk & Hts & Hlen).
    { unfold Dynamo.usageOf. apply filter_In. now split. }
    rewrite Hsk, JsFacts.toString_ltb by assumption.
    rewrite Z.leb_antisym. reflexivity.
  - intros otherService otherClient Hne.
    unfold Dynamo.usageOf at 1. rewrite Htable. unfold Dynamo.usageOf.
    rewrite filter_filter. apply filter_ext. intros r.
    destruct (String.eqb_spec (pk r)
                (DynamoDBService.usageKey otherService otherClient))
      as [Hr|Hr]; [|now rewrite andb_false_r].
    rewrite andb_true_r.
    destruct (String.eqb_spec (pk r)
                (DynamoDBService.usageKey serviceId clientId)) as [Hk|Hk];
      [congruence | reflexivity].
Qed.

Lemma cleanupOldRecords_on_the_table_witness :
  Demo.noon - 40000 = fst (Dynamo.tick Demo.oneHourLater) - 1 * 60 * 60 * 1000
  /\
  0 <= Demo.noon - 40000 /\
  (forall r,
     In r (Dynamo.usageOf "uploads" "ip:203.0.113.7" Demo.oneHourLater) ->
     sk r = Js.toString (timestamp r) /\
     0 <= timestamp r /\
     String.length (Js.toString (timestamp r))
     = String.length (Js.toString (Demo.noon - 40000))) /\
  outcome (run Dynamo.store
             (RateLimitService.cleanupOldRecords "uploads" "ip:203.0.113.7" 1)
             Demo.oneHourLater) = inr tt /\
  Dynamo.usageOf "uploads" "ip:203.0.113.7"
    (final (run Dynamo.store
              (RateLimitService.cleanupOldRecords
                 "uploads" "ip:203.0.113.7" 1) Demo.oneHourLater))
  = filter (fun r => Demo.noon - 40000 <=? timestamp r)
      (Dynamo.usageOf "uploads" "ip:203.0.113.7" Demo.oneHourLater) /\
  (forall otherService otherClient,
     DynamoDBService.usageKey otherService otherClient
     <> DynamoDBService.usageKey "uploads" "ip:203.0.113.7" ->
     Dynamo.usageOf otherService otherClient
       (final (run Dynamo.store
                 (RateLimitService.cleanupOldRecords
                    "uploads" "ip:203.0.113.7" 1) Demo.oneHourLater))
     = Dynamo.usageOf otherService otherClient Demo.oneHourLater) /\
  Dynamo.configTable
    (final (run Dynamo.store
              (RateLimitService.cleanupOldRecords
                 "uploads" "ip:203.0.113.7" 1) Demo.oneHourLater))
  = Dynamo.configTable Demo.oneHourLater.
Proof.
  assert (Hcut : Demo.noon - 40000
                 = fst (Dynamo.tick Demo.oneHourLater) - 1 * 60 * 60 * 1000)
    by (vm_compute; reflexivity).
  assert (Hpos : 0 <= Demo.noon - 40000) by (vm_compute; discriminate).
  assert (Hstamped :
    forall r,
      In r (Dynamo.usageOf "uploads" "ip:203.0.113.7" Demo.oneHourLater) ->
      sk r = Js.toString (timestamp r) /\
      0 <= timestamp r /\
      String.length (Js.toString (timestamp r))
      = String.length (Js.toString (Demo.noon - 40000))).
  { intros r Hin. vm_compute in Hin.
    repeat (destruct Hin as [<-|Hin];
            [vm_compute; repeat split; congruence|]).
    destruct Hin. }
  split; [exact Hcut|]. split; [exact Hpos|]. split; [exact Hstamped|].
  exact (cleanupOldRecords_on_the_table Demo.oneHourLater
           "uploads" "ip:203.0.113.7" 1 (Demo.noon - 40000)
           Hcut Hpos Hstamped).
Defined.

Lemma query_of_empty_log w serviceId clientId cond :
  Dynamo.usageOf serviceId clientId w = [] ->
  Dynamo.query (DynamoDBService.usageKey serviceId clientId) cond
    (Dynamo.usageTable w) = [].
Proof.
  unfold Dynamo.usageOf, Dynamo.query. intros H.
  induction (Dynamo.usageTable w) as [|r t IH]; [reflexivity|].
  cbn [filter] in *.
  destruct (String.eqb (pk r) (DynamoDBService.usageKey serviceId clientId));
    [discriminate H|]. cbn [andb]. exact (IH H).
Qed.

(** After a reset that found all of the client's records in the past,
    the next check finds an empty window: the request is allowed as
    long as the limit is positive. *)
Theorem resetRateLimit_unblocks
  (w : Dynamo.World) (request : RateLimitRequest)
  (response : RateLimitResponse) :
  0 <= fst (Dynamo.tick w) ->
  (forall r,
     In r (Dynamo.usageOf (req_serviceId request) (clientId request) w) ->
     sk r = Js.toString (timestamp r) /\
     0 <= timestamp r < fst (Dynamo.tick w) /\
     String.length (Js.toString (timestamp r))
     = String.length (Js.toString (fst (Dynamo.tick w)))) ->
  outcome (run Dynamo.store (RateLimitService.checkRateLimit request)
             (afterReset (req_serviceId request) (clientId request) w))
  = inr response ->
  allowed response = (0 <? meta_maxRequests (resp_metadata response)) /\
  remaining response
  = (if allowed response
     then meta_maxRequests (resp_metadata response) - 1
     else 0) /\
  retryAfter response = None.
Proof.
  intros Hnow Hstamped Hrun.
  assert (Hempty :
    Dynamo.usageOf (req_serviceId request) (clientId request)
      (afterReset (req_serviceId request) (clientId request) w) = []).
  { unfold afterReset. rewrite usageOf_after_reset; [| |exact Hnow].
    - induction (Dynamo.usageOf _ _ w) as [|r t IH]; [reflexivity|].
      cbn [filter].
      destruct (Hstamped r (or_introl eq_refl)) as (_ & Hr & _).
      replace (fst (Dynamo.tick w) <=? timestamp r) with false
        by (symmetry; apply Z.leb_gt; lia).
      apply IH. intros r' Hr'. apply Hstamped. now right.
    - intros r Hr. destruct (Hstamped r Hr) as (? & ? & ?).
      repeat split; auto; lia. }
  destruct (checkRateLimit_dynamo _ request response Hrun)
    as (rateLimit & found & _ & Hfound & Hmeta & Hallowed & Hrem & Hretry
        & _).
  rewrite (query_of_empty_log _ _ _ _ Hempty) in Hfound. subst found.
  cbn [List.length Z.of_nat] in *. rewrite Z.sub_0_r in Hrem.
  rewrite Hmeta. cbn [meta_maxRequests].
  split; [exact Hallowed|]. split.
  - rewrite Hrem. destruct (allowed response); symmetry in Hallowed.
    + apply Z.ltb_lt in Hallowed. lia.
    + apply Z.ltb_ge in Hallowed. lia.
  - destruct Hretry as [Hretry|Hne]; [exact Hretry | now contradiction Hne].
Qed.

Lemma resetRateLimit_unblocks_witness :
  0 <= fst (Dynamo.tick Demo.atLimit) /\
  (forall r,
     In r (Dynamo.usageOf (req_serviceId Demo.request)
             (clientId Demo.request) Demo.atLimit) ->
     sk r = Js.toString (timestamp r) /\
     0 <= timestamp r < fst (Dynamo.tick Demo.atLimit) /\
     String.length (Js.toString (timestamp r))
     = String.length (Js.toString (fst (Dynamo.tick Demo.atLimit)))) /\
  outcome (run Dynamo.store (RateLimitService.checkRateLimit Demo.request)
             (afterReset (req_serviceId Demo.request)
                (clientId Demo.request) Demo.atLimit))
  = inr (mkResponse true 4 (Demo.noon + 60000) None
           (mkResponseMetadata "uploads" 60000 5)) /\
  allowed (mkResponse true 4 (Demo.noon + 60000) None
             (mkResponseMetadata "uploads" 60000 5))
  = (0 <? meta_maxRequests
            (resp_metadata
               (mkResponse true 4 (Demo.noon + 60000) None
                  (mkResponseMetadata "uploads" 60000 5)))) /\
  remaining (mkResponse true 4 (Demo.noon + 60000) None
               (mkResponseMetadata "uploads" 60000 5))
  = (if allowed (mkResponse true 4 (Demo.noon + 60000) None
                   (mkResponseMetadata "uploads" 60000 5))
     then meta_maxRequests
            (resp_metadata
               (mkResponse true 4 (Demo.noon + 60000) None
                  (mkResponseMetadata "uploads" 60000 5))) - 1
     else 0) /\
  retryAfter (mkResponse true 4 (Demo.noon + 60000) None
                (mkResponseMetadata "uploads" 60000 5)) = None.
Proof.
  assert (Hnow : 0 <= fst (Dynamo.tick Demo.atLimit))
    by (vm_compute; discriminate).
  assert (Hstamped :
    forall r,
      In r (Dynamo.usageOf (req_serviceId Demo.request)
              (clientId Demo.request) Demo.atLimit) ->
      sk r = Js.toString (timestamp r) /\
      0 <= timestamp r < fst (Dynamo.tick Demo.atLimit) /\
      String.length (Js.toString (timestamp r))
      = String.length (Js.toString (fst (Dynamo.tick Demo.atLimit)))).
  { intros r Hin. vm_compute in Hin.
    repeat (destruct Hin as [<-|Hin];
            [vm_compute; repeat split; congruence|]).
    destruct Hin. }
  assert (Hrun :
    outcome (run Dynamo.store (RateLimitService.checkRateLimit Demo.request)
               (afterReset (req_serviceId Demo.request)
                  (clientId Demo.request) Demo.atLimit))
    = inr (mkResponse true 4 (Demo.noon + 60000) None
             (mkResponseMetadata "uploads" 60000 5)))
    by (vm_compute; reflexivity).
  split; [exact Hnow|]. split; [exact Hstamped|]. split; [exact Hrun|].
  exact (resetRateLimit_unblocks Demo.atLimit Demo.request _
           Hnow Hstamped Hrun).
Defined.

Lemma run_settle W (h : handler W) A (p : prog A) w :
  run h (settle p) w
  = (inr (outcome (run h p w)), final (run h p w), trace (run h p w)).
Proof.
  unfold settle, outcome, final, trace. rewrite run_tryCatch, run_bind.
  destruct (run h p w) as [[[e|a] w1] t1]; cbn [run fst snd];
    now rewrite app_nil_r.
Qed.

Lemma settleEach_getServiceConfig W (h : handler W) serviceIds : forall w,
  exists settled,
    outcome (run h (settleEach
                      (map ConfigService.getServiceConfig serviceIds)) w)
    = inr settled /\
    Forall2 (fun ev serviceId =>
               exists answer, ev = Event (GetConfigItem serviceId) answer)
      (storeCalls
         (trace (run h (settleEach
                          (map ConfigService.getServiceConfig serviceIds)) w)))
      serviceIds.
Proof.
  induction serviceIds as [|serviceId rest IH]; intros w; cbn [map settleEach].
  { exists []. split; [reflexivity | constructor]. }
  rewrite run_bind, run_settle.
  destruct (getServiceConfig_run W h w serviceId) as [Hcalls _].
  set (first := run h (ConfigService.getServiceConfig serviceId) w) in *.
  destruct (IH (final first)) as (settled & Hout & Hrest).
  rewrite run_bind. unfold outcome, trace in *.
  destruct (run h (settleEach _) (final first)) as [[r w2] t2].
  cbn [fst snd] in *. subst r. cbn [run fst snd].
  exists (fst (fst first) :: settled). split; [reflexivity|].
  rewrite app_nil_r, storeCalls_app, Hcalls. cbn [app].
  constructor; [eexists; reflexivity | exact Hrest].
Qed.

(** [preloadConfigurations] never fails and never writes: it reads the
    configuration of each service once, in the order given. *)
Theorem preloadConfigurations_never_fails
  (W : Type) (h : handler W) (w : W) (serviceIds : list string) :
  outcome (run h (RateLimitService.preloadConfigurations serviceIds) w)
  = inr tt /\
  writes (trace (run h (RateLimitService.preloadConfigurations serviceIds) w))
  = [] /\
  Forall2 (fun ev serviceId =>
             exists answer, ev = Event (GetConfigItem serviceId) answer)
    (storeCalls
       (trace (run h (RateLimitService.preloadConfigurations serviceIds) w)))
    serviceIds.
Proof.
  split; [|split].
  - unfold RateLimitService.preloadConfigurations.
    rewrite run_tryCatch, run_bind.
    destruct (settleEach_getServiceConfig W h serviceIds w)
      as (settled & Hout & _).
    unfold outcome in *.
    destruct (run h (settleEach _) w) as [[r w1] t1].
    cbn [fst] in Hout. subst r.
    destruct (promiseAll settled) as [e|configs]; cbn [lift bind run fst].
    + cbn [perform bind run].
      match goal with
      | |- context [handle h ?o w1] => destruct (handle h o w1) as [[] w2]
      end.
      reflexivity.
    + reflexivity.
  - apply reads_write_nothing, performsOnly_run.
    unfold RateLimitService.preloadConfigurations.
    apply performsOnly_tryCatch.
    + apply performsOnly_bind.
      * apply performsOnly_settleEach, Forall_forall.
        intros call Hin. apply in_map_iff in Hin.
        destruct Hin as (serviceId & <- & _). apply getServiceConfig_reads.
      * intros settled. apply performsOnly_bind;
          [apply performsOnly_lift | intros; exact I].
    + intros e. cbn. auto.
  - unfold RateLimitService.preloadConfigurations.
    rewrite run_tryCatch, run_bind.
    destruct (settleEach_getServiceConfig W h serviceIds w)
      as (settled & Hout & Hcalls).
    unfold outcome, trace in *.
    destruct (run h (settleEach _) w) as [[r w1] t1].
    cbn [fst snd] in Hout, Hcalls. subst r.
    destruct (promiseAll settled) as [e|configs]; cbn [lift bind run fst snd].
    + cbn [perform bind run].
      match goal with
      | |- context [handle h ?o w1] => destruct (handle h o w1) as [[] w2]
      end.
      cbn [snd].
      rewrite app_nil_r, storeCalls_app. cbn. rewrite app_nil_r. exact Hcalls.
    + rewrite app_nil_r. exact Hcalls.
Qed.

Example preloadConfigurations_with_unknown_service :
  outcome (run Dynamo.store
             (RateLimitService.preloadConfigurations
                ["uploads"; "reports"; "auth"]) Demo.underLimit) = inr tt /\
  outcome (run Dynamo.unavailable
             (RateLimitService.preloadConfigurations
                ["uploads"; "reports"; "auth"]) Demo.underLimit) = inr tt /\
  storeCalls
    (trace (run Dynamo.store
              (RateLimitService.preloadConfigurations
                 ["uploads"; "reports"; "auth"]) Demo.underLimit))
  = [Event (GetConfigItem "uploads") (inr (Some Demo.uploads));
     Event (GetConfigItem "reports") (inr None);
     Event (GetConfigItem "auth") (inr None)].
Proof. repeat split; vm_compute; reflexivity. Qed.

(* ================================================================= *)
(** ** Listing and deleting configurations *)

Lemma fold_left_push {A B : Type} (p : A -> bool) (g : A -> B) (l : list A) :
  forall acc,
    fold_left (fun acc x => if p x then acc ++ [g x] else acc) l acc
    = acc ++ map g (filter p l).
Proof.
  induction l as [|x l IH]; intros acc; cbn [fold_left filter map].
  - now rewrite app_nil_r.
  - rewrite IH. destruct (p x); [|reflexivity].
    cbn [map]. now rewrite <- app_assoc.
Qed.

Lemma addDefaults_closed existingServiceIds configs :
  ConfigService.addDefaults existingServiceIds configs
  = configs
    ++ map (fun entry => mkConfig (fst entry) (snd entry))
         (filter (fun entry =>
                    negb (existsb (String.eqb (fst entry)) existingServiceIds))
            DEFAULT_RATE_LIMITS).
Proof.
  unfold ConfigService.addDefaults.
  apply (fold_left_push
           (fun entry : string * Rules =>
              negb (existsb (String.eqb (fst entry)) existingServiceIds))
           (fun entry => mkConfig (fst entry) (snd entry))).
Qed.

Lemma getAllServiceConfigs_run W (h : adminHandler W) w :
  adminCalls (adminTrace (adminRun h ConfigService.getAllServiceConfigs w))
  = [ConfigEvent (QueryConfigItems "ALL")
       (fst (handleConfig h (QueryConfigItems "ALL") w))] /\
  adminOutcome (adminRun h ConfigService.getAllServiceConfigs w)
  = match fst (handleConfig h (QueryConfigItems "ALL") w) with
    | inl e => inl e
    | inr customConfigs =>
        inr (ConfigService.addDefaults
               (map cfg_serviceId
                  (map (fun record =>
                          mkConfig (rec_serviceId record) (config record))
                     customConfigs))
               (map (fun record =>
                       mkConfig (rec_serviceId record) (config record))
                  customConfigs))
    end.
Proof.
  unfold ConfigService.getAllServiceConfigs, DynamoDBService.getAllConfigs,
    adminOutcome, adminTrace.
  cbn [adminTry adminBind sendConfig adminRun adminRethrow].
  destruct (handleConfig h (QueryConfigItems "ALL") w) as [[e|custom] w1].
  - cbn [adminTry adminBind adminRun adminRethrow].
    destruct (handle (base h) _ w1) as [[] w2].
    cbn [adminTry adminBind adminRun adminRethrow].
    destruct (handle (base h) _ w2) as [[] w3].
    cbn. split; reflexivity.
  - cbn. split; reflexivity.
Qed.

Lemma NoDup_app_disjoint {A : Type} (l1 l2 : list A) :
  NoDup l1 -> NoDup l2 -> (forall x, In x l1 -> ~ In x l2) -> NoDup (l1 ++ l2).
Proof.
  induction l1 as [|a l1 IH]; intros H1 H2 Hd; [exact H2|].
  inversion H1 as [|? ? Ha Hl1]; subst. cbn. constructor.
  - rewrite in_app_iff. intros [Hin|Hin]; [contradiction|].
    exact (Hd a (or_introl eq_refl) Hin).
  - apply IH; auto. intros x Hx. apply Hd. now right.
Qed.

(** [getAllServiceConfigs] lists what the query answered, each as it
    is, and after them the compiled default of every service the answer
    does not name; a failure of the query is passed on. *)
Theorem getAllServiceConfigs_merges
  (W : Type) (h : adminHandler W) (w : W) :
  adminCalls (adminTrace (adminRun h ConfigService.getAllServiceConfigs w))
  = [ConfigEvent (QueryConfigItems "ALL")
       (fst (handleConfig h (QueryConfigItems "ALL") w))] /\
  (forall e,
     fst (handleConfig h (QueryConfigItems "ALL") w) = inl e ->
     adminOutcome (adminRun h ConfigService.getAllServiceConfigs w) = inl e) /\
  (forall customConfigs,
     fst (handleConfig h (QueryConfigItems "ALL") w) = inr customConfigs ->
     exists configs,
       adminOutcome (adminRun h ConfigService.getAllServiceConfigs w)
       = inr configs /\
       configs
       = map (fun record => mkConfig (rec_serviceId record) (config record))
           customConfigs
         ++ map (fun entry => mkConfig (fst entry) (snd entry))
              (filter (fun entry =>
                         negb (existsb (String.eqb (fst entry))
                                 (map rec_serviceId customConfigs)))
                 DEFAULT_RATE_LIMITS) /\
       (forall entry, In entry DEFAULT_RATE_LIMITS ->
          In (fst entry) (map cfg_serviceId configs)) /\
       (NoDup (map rec_serviceId customConfigs) ->
        NoDup (map cfg_serviceId configs))).
Proof.
  destruct (getAllServiceConfigs_run W h w) as [Hcalls Hout].
  split; [exact Hcalls|]. rewrite Hout. split.
  { intros e ->. reflexivity. }
  intros customConfigs ->. eexists. split; [reflexivity|].
  rewrite addDefaults_closed, !map_map. cbn [cfg_serviceId].
  split; [reflexivity|].
  set (named := map rec_serviceId customConfigs).
  set (missing := filter (fun entry : string * Rules =>
                            negb (existsb (String.eqb (fst entry)) named))
                    DEFAULT_RATE_LIMITS).
  assert (Hids :
    map cfg_serviceId
      (map (fun record => mkConfig (rec_serviceId record) (config record))
         customConfigs
       ++ map (fun entry => mkConfig (fst entry) (snd entry)) missing)
    = named ++ map fst missing).
  { rewrite map_app, !map_map. reflexivity. }
  rewrite Hids. split.
  - intros entry Hin. apply in_app_iff.
    destruct (existsb (String.eqb (fst entry)) named) eqn:Hex.
    + left. apply existsb_exists in Hex. destruct Hex as (x & Hx & Heq).
      apply String.eqb_eq in Heq. now rewrite Heq.
    + right. apply in_map. apply filter_In. split; [exact Hin|].
      now rewrite Hex.
  - intros Hnodup. apply NoDup_app_disjoint; [exact Hnodup| |].
    + unfold missing, DEFAULT_RATE_LIMITS. cbn [filter fst].
      repeat match goal with
             | |- context [if ?b then _ else _] => destruct b
             end; cbn [map fst];
        repeat constructor; cbn; intuition discriminate.
    + intros x Hx Hin. apply in_map_iff in Hin.
      destruct Hin as (entry & <- & Hentry).
      apply filter_In in Hentry. destruct Hentry as [_ Hex].
      apply negb_true_iff in Hex.
      assert (Htrue : existsb (String.eqb (fst entry)) named = true).
      { apply existsb_exists. exists (fst entry).
        split; [exact Hx | apply String.eqb_refl]. }
      congruence.
Qed.

(** On the tables the query finds the item filed under ["ALL"] and no
    other: whatever configurations are stored for the services, what
    is listed for them is their compiled defaults. *)
Theorem getAllServiceConfigs_lists_defaults (w : Dynamo.World) :
  adminOutcome (adminRun Dynamo.adminStore ConfigService.getAllServiceConfigs w)
  = inr (map (fun record => mkConfig (rec_serviceId record) (config record))
           (filter (fun r => String.eqb (rec_serviceId r) "ALL")
              (Dynamo.configTable w))
         ++ map (fun entry => mkConfig (fst entry) (snd entry))
              DEFAULT_RATE_LIMITS) /\
  adminFinal (adminRun Dynamo.adminStore ConfigService.getAllServiceConfigs w)
  = w.
Proof.
  split; [|reflexivity].
  rewrite (proj2 (getAllServiceConfigs_run _ Dynamo.adminStore w)).
  cbn [handleConfig Dynamo.adminStore Dynamo.stepConfig fst].
  rewrite addDefaults_closed. do 2 f_equal.
  set (stray := filter (fun r => String.eqb (rec_serviceId r) "ALL")
                  (Dynamo.configTable w)).
  assert (Hall : forall x,
             In x (map cfg_serviceId
                     (map (fun record =>
                             mkConfig (rec_serviceId record) (config record))
                        stray)) -> x = "ALL").
  { intros x Hin. rewrite map_map in Hin. apply in_map_iff in Hin.
    destruct Hin as (r & <- & Hr). apply filter_In in Hr.
    now apply String.eqb_eq. }
  unfold DEFAULT_RATE_LIMITS. cbn [filter fst].
  repeat match goal with
         | |- context [existsb ?f ?l] =>
             let E := fresh "E" in
             destruct (existsb f l) eqn:E;
             [ apply existsb_exists in E; destruct E as (x & Hx & Heq);
               apply String.eqb_eq in Heq; subst x;
               discriminate (Hall _ Hx)
             | cbn [negb] ]
         end.
  reflexivity.
Qed.

Example getAllServiceConfigs_after_update :
  outcome (run Dynamo.store (ConfigService.getServiceConfig "auth")
             (afterUpdate "auth" [("default", mkRule 1000 1)]
                Demo.underLimit))
  = inr (mkConfig "auth" [("default", mkRule 1000 1)]) /\
  adminOutcome
    (adminRun Dynamo.adminStore ConfigService.getAllServiceConfigs
       (afterUpdate "auth" [("default", mkRule 1000 1)] Demo.underLimit))
  = inr (map (fun entry => mkConfig (fst entry) (snd entry))
           DEFAULT_RATE_LIMITS).
Proof. split; vm_compute; reflexivity. Qed.

Lemma getItem_removed serviceId t :
  Dynamo.getItem serviceId
    (filter (fun r => negb (String.eqb (rec_serviceId r) serviceId)) t)
  = None.
Proof.
  unfold Dynamo.getItem. induction t as [|r t IH]; [reflexivity|].
  cbn [filter]. destruct (String.eqb (rec_serviceId r) serviceId) eqn:E;
    cbn [negb]; [exact IH|].
  cbn [find]. rewrite E. exact IH.
Qed.

Lemma getItem_removed_other serviceId other t :
  other <> serviceId ->
  Dynamo.getItem other
    (filter (fun r => negb (String.eqb (rec_serviceId r) serviceId)) t)
  = Dynamo.getItem other t.
Proof.
  intros Hne. unfold Dynamo.getItem.
  induction t as [|r t IH]; [reflexivity|].
  cbn [filter find].
  destruct (String.eqb_spec (rec_serviceId r) serviceId) as [E|E];
    cbn [negb].
  - destruct (String.eqb_spec (rec_serviceId r) other) as [E'|E'];
      [congruence | exact IH].
  - cbn [find]. destruct (String.eqb (rec_serviceId r) other);
      [reflexivity | exact IH].
Qed.

(** Once [deleteServiceConfig] has run, the service is resolved from
    the compiled defaults again, or not at all when it has none and is
    not named like a member of [Object.prototype]; the other services
    and the usage records are as they were. *)
Theorem deleteServiceConfig_falls_back_to_default
  (w : Dynamo.World) (serviceId : string) :
  adminOutcome (adminRun Dynamo.adminStore
                  (ConfigService.deleteServiceConfig serviceId) w) = inr tt /\
  outcome (run Dynamo.store (ConfigService.hasCustomConfig serviceId)
             (afterDelete serviceId w)) = inr false /\
  (forall defaultRules,
     Js.getProp DEFAULT_RATE_LIMITS serviceId = Some defaultRules ->
     outcome (run Dynamo.store (ConfigService.getServiceConfig serviceId)
                (afterDelete serviceId w))
     = inr (mkConfig serviceId defaultRules)) /\
  (Js.getProp DEFAULT_RATE_LIMITS serviceId = None ->
   Js.inherited serviceId = false ->
   outcome (run Dynamo.store (ConfigService.getServiceConfig serviceId)
              (afterDelete serviceId w))
   = inl (Error ("No configuration found for service: " +++ serviceId))) /\
  (forall other,
     other <> serviceId ->
     outcome (run Dynamo.store (ConfigService.getServiceConfig other)
                (afterDelete serviceId w))
     = outcome (run Dynamo.store (ConfigService.getServiceConfig other) w)) /\
  Dynamo.usageTable (afterDelete serviceId w) = Dynamo.usageTable w /\
  (forall (W : Type) (h : adminHandler W) (w0 : W) (e : exn),
     fst (handleConfig h (DeleteConfigItem serviceId) w0) = inl e ->
     adminOutcome (adminRun h (ConfigService.deleteServiceConfig serviceId) w0)
     = inl e).
Proof.
  assert (Htable :
    Dynamo.configTable (afterDelete serviceId w)
    = filter (fun r => negb (String.eqb (rec_serviceId r) serviceId))
        (Dynamo.configTable w)) by reflexivity.
  split; [reflexivity|].
  split; [rewrite hasCustomConfig_dynamo, Htable, getItem_removed;
          reflexivity|].
  split; [intros defaultRules Hdefault;
          rewrite getServiceConfig_dynamo, Htable, getItem_removed, Hdefault;
          reflexivity|].
  split; [intros Hnone _;
          rewrite getServiceConfig_dynamo, Htable, getItem_removed, Hnone;
          reflexivity|].
  split.
  { intros other Hne.
    rewrite !getServiceConfig_dynamo, Htable, getItem_removed_other;
      [reflexivity | exact Hne]. }
  split; [reflexivity|].
  intros W h w0 e He.
  unfold ConfigService.deleteServiceConfig, DynamoDBService.deleteConfig,
    adminOutcome.
  cbn [adminTry adminBind sendConfig adminRun adminRethrow].
  destruct (handleConfig h (DeleteConfigItem serviceId) w0) as [r w1].
  cbn [fst] in He. subst r.
  cbn [adminTry adminBind adminRun adminRethrow].
  destruct (handle (base h) _ w1) as [[] w2].
  cbn [adminTry adminBind adminRun adminRethrow].
  destruct (handle (base h) _ w2) as [[] w3]. reflexivity.
Qed.

Example deleteServiceConfig_of_a_custom_service :
  outcome (run Dynamo.store (ConfigService.getServiceConfig "uploads")
             Demo.underLimit)
  = inr (mkConfig "uploads" [("default", mkRule 60000 5)]) /\
  outcome (run Dynamo.store (ConfigService.getServiceConfig "uploads")
             (afterDelete "uploads" Demo.underLimit))
  = inl (Error "No configuration found for service: uploads").
Proof. split; vm_compute; reflexivity. Qed.

(* ================================================================= *)
(** ** Who is asking *)

Module RegExpFacts.
Import RegExp.

Lemma append_assoc (a b c : string) : (a +++ b) +++ c = a +++ b +++ c.
Proof. induction a as [|x a IH]; cbn; [reflexivity | now rewrite IH]. Qed.

Lemma append_nil_r (a : string) : a +++ "" = a.
Proof. induction a as [|x a IH]; cbn; [reflexivity | now rewrite IH]. Qed.

Section Matcher.
Variable m : string -> (string -> bool) -> bool.
Variable L : string -> Prop.
Hypothesis m_spec : forall s k,
  m s k = true <-> exists s1 s2, s = s1 +++ s2 /\ L s1 /\ k s2 = true.

Lemma exactly_spec n : forall s k,
  exactly m n k s = true <->
  exists s1 s2, s = s1 +++ s2 /\ power L n s1 /\ k s2 = true.
Proof.
  induction n as [|n IH]; intros s k; cbn [exactly power].
  - split.
    + intros H. exists "", s. auto.
    + intros (s1 & s2 & -> & -> & H). exact H.
  - rewrite m_spec. split.
    + intros (s1 & s2 & -> & H1 & H2). apply IH in H2.
      destruct H2 as (s3 & s4 & -> & H3 & H4).
      exists (s1 +++ s3), s4. rewrite append_assoc. split; [reflexivity|].
      split; [|exact H4]. exists s1, s3. auto.
    + intros (s1 & s2 & -> & (s3 & s4 & -> & H3 & H4) & H2).
      exists s3, (s4 +++ s2). rewrite append_assoc. split; [reflexivity|].
      split; [exact H3|]. apply IH. exists s4, s2. auto.
Qed.

Lemma upTo_spec n : forall s k,
  upTo m n k s = true <->
  exists i s1 s2, (i <= n)%nat /\ s = s1 +++ s2 /\ power L i s1 /\ k s2 = true.
Proof.
  induction n as [|n IH]; intros s k; cbn [upTo].
  - split.
    + intros H. exists 0%nat, "", s. cbn. auto.
    + intros (i & s1 & s2 & Hi & -> & Hp & H).
      assert (i = 0%nat) by lia. subst i. cbn in Hp. subst s1. exact H.
  - rewrite orb_true_iff, m_spec. split.
    + intros [(s1 & s2 & -> & H1 & H2)|H].
      * apply IH in H2. destruct H2 as (i & s3 & s4 & Hi & -> & H3 & H4).
        exists (S i), (s1 +++ s3), s4. rewrite append_assoc.
        split; [lia|]. split; [reflexivity|]. split; [|exact H4].
        exists s1, s3. auto.
      * exists 0%nat, "", s. cbn. split; [lia|]. auto.
    + intros (i & s1 & s2 & Hi & -> & Hp & H).
      destruct i as [|i]; cbn [power] in Hp.
      * subst s1. right. exact H.
      * left. destruct Hp as (s3 & s4 & -> & H3 & H4).
        exists s3, (s4 +++ s2). rewrite append_assoc. split; [reflexivity|].
        split; [exact H3|]. apply IH. exists i, s4, s2.
        split; [lia|]. auto.
Qed.

End Matcher.

Lemma power_add (L : string -> Prop) a : forall b s1 s2,
  power L a s1 -> power L b s2 -> power L (a + b) (s1 +++ s2).
Proof.
  induction a as [|a IH]; intros b s1 s2 H1 H2; cbn [power Nat.add] in *.
  - subst s1. exact H2.
  - destruct H1 as (s3 & s4 & -> & H3 & H4).
    exists s3, (s4 +++ s2). rewrite append_assoc. split; [reflexivity|].
    split; [exact H3|]. now apply IH.
Qed.

Lemma power_split (L : string -> Prop) a : forall b s,
  power L (a + b) s ->
  exists s1 s2, s = s1 +++ s2 /\ power L a s1 /\ power L b s2.
Proof.
  induction a as [|a IH]; intros b s H; cbn [power Nat.add] in *.
  - exists "", s. auto.
  - destruct H as (s3 & s4 & -> & H3 & H4).
    destruct (IH b s4 H4) as (s5 & s6 & -> & H5 & H6).
    exists (s3 +++ s5), s6. rewrite append_assoc. split; [reflexivity|].
    split; [|exact H6]. exists s3, s5. auto.
Qed.

(** The matcher accepts a prefix the pattern describes and hands the
    rest to its continuation. *)
Lemma matches_spec (p : pattern) : forall s k,
  matches p s k = true <->
  exists s1 s2, s = s1 +++ s2 /\ lang p s1 /\ k s2 = true.
Proof.
  induction p as [ranges|p IHp q IHq|p IHp q IHq|p IHp|lo hi p IHp];
    intros s k; cbn [matches lang].
  - destruct s as [|c rest].
    + split; [discriminate|].
      intros (s1 & s2 & H & (c & -> & _) & _). discriminate H.
    + rewrite andb_true_iff. split.
      * intros [Hc Hk]. exists (String c ""), rest.
        split; [reflexivity|]. split; [|exact Hk]. exists c. auto.
      * intros (s1 & s2 & H & (c' & -> & Hc) & Hk).
        cbn in H. injection H as -> ->. auto.
  - rewrite IHp. split.
    + intros (s1 & s2 & -> & H1 & H2). apply IHq in H2.
      destruct H2 as (s3 & s4 & -> & H3 & H4).
      exists (s1 +++ s3), s4. rewrite append_assoc. split; [reflexivity|].
      split; [|exact H4]. exists s1, s3. auto.
    + intros (s1 & s2 & -> & (s3 & s4 & -> & H3 & H4) & H2).
      exists s3, (s4 +++ s2). rewrite append_assoc. split; [reflexivity|].
      split; [exact H3|]. apply IHq. exists s4, s2. auto.
  - rewrite orb_true_iff, IHp, IHq. split.
    + intros [(s1 & s2 & -> & H1 & H2)|(s1 & s2 & -> & H1 & H2)];
        exists s1, s2; auto.
    + intros (s1 & s2 & -> & [H1|H1] & H2); [left|right]; exists s1, s2; auto.
  - rewrite orb_true_iff, IHp. split.
    + intros [(s1 & s2 & -> & H1 & H2)|H].
      * exists s1, s2. auto.
      * exists "", s. auto.
    + intros (s1 & s2 & -> & [H1|Hnil] & H2).
      * left. exists s1, s2. auto.
      * right. subst s1. exact H2.
  - rewrite (exactly_spec (matches p) (lang p) IHp). split.
    + intros (s1 & s2 & -> & H1 & H2).
      apply (upTo_spec (matches p) (lang p) IHp) in H2.
      destruct H2 as (i & s3 & s4 & Hi & -> & H3 & H4).
      exists (s1 +++ s3), s4. rewrite append_assoc. split; [reflexivity|].
      split; [|exact H4]. exists (lo + i)%nat. split; [lia|].
      now apply power_add.
    + intros (s1 & s2 & -> & (n & Hn & Hp) & H2).
      replace n with (lo + (n - lo))%nat in Hp by lia.
      apply power_split in Hp. destruct Hp as (s3 & s4 & -> & H3 & H4).
      exists s3, (s4 +++ s2). rewrite append_assoc. split; [reflexivity|].
      split; [exact H3|].
      apply (upTo_spec (matches p) (lang p) IHp).
      exists (n - lo)%nat, s4, s2. split; [lia|]. auto.
Qed.

Lemma test_spec (p : pattern) (s : string) : test p s = true <-> lang p s.
Proof.
  unfold test. rewrite matches_spec. split.
  - intros (s1 & s2 & -> & H & Hk). apply String.eqb_eq in Hk. subst s2.
    now rewrite append_nil_r.
  - intros H. exists s, "". rewrite append_nil_r. auto.
Qed.

End RegExpFacts.

Module ExtractClientInfoFacts.
Import RegExp RegExpFacts ExtractClientInfo.

Lemma inRange_spec c lo hi :
  inClass [(lo, hi)] c = true <->
  (N_of_ascii lo <= N_of_ascii c <= N_of_ascii hi)%N.
Proof.
  unfold inClass, inRange. cbn [existsb fst snd].
  rewrite orb_false_r, andb_true_iff, !N.leb_le. tauto.
Qed.

Lemma lang_lit c s : lang (lit c) s <-> s = String c "".
Proof.
  unfold lit. cbn [lang]. split.
  - intros (c' & -> & H). apply inRange_spec in H.
    assert (N_of_ascii c' = N_of_ascii c) by lia.
    f_equal. rewrite <- (ascii_N_embedding c'), <- (ascii_N_embedding c).
    congruence.
  - intros ->. exists c. split; [reflexivity|]. apply inRange_spec. lia.
Qed.

(** Groups that each end in a separator, then a last group. *)
Lemma power_groups (P : pattern) (sep : ascii) n : forall s,
  power (lang (Seq P (lit sep))) n s ->
  forall last, lang P last ->
  exists groups,
    List.length groups = S n /\ Forall (lang P) groups /\
    s +++ last = String.concat (String sep "") groups.
Proof.
  induction n as [|n IH]; intros s Hs last Hlast; cbn [power] in Hs.
  - subst s. exists [last]. repeat split; auto.
  - destruct Hs as (s1 & s2 & -> & (g & d & -> & Hg & Hd) & Hrest).
    apply lang_lit in Hd. subst d.
    destruct (IH s2 Hrest last Hlast) as (groups & Hlen & Hall & Heq).
    exists (g :: groups). split; [cbn; lia|]. split; [now constructor|].
    rewrite !append_assoc, Heq. cbn [String.concat].
    destruct groups as [|g' groups']; [discriminate Hlen|]. reflexivity.
Qed.

Lemma groups_power (P : pattern) (sep : ascii) : forall groups n,
  List.length groups = S n -> Forall (lang P) groups ->
  exists s last,
    String.concat (String sep "") groups = s +++ last /\
    power (lang (Seq P (lit sep))) n s /\ lang P last.
Proof.
  induction groups as [|g groups IH]; intros n Hlen Hall; [discriminate|].
  inversion Hall as [|? ? Hg Hrest]; subst.
  destruct groups as [|g' groups'].
  - destruct n; [|discriminate]. exists "", g. cbn. auto.
  - destruct n as [|n]; [discriminate|].
    destruct (IH n) as (s & last & Heq & Hp & Hl); [cbn in *; lia | exact Hrest |].
    exists ((g +++ String sep "") +++ s), last.
    split.
    + change (String.concat (String sep "") (g :: g' :: groups'))
        with (g +++ String sep "" +++ String.concat (String sep "")
                                        (g' :: groups')).
      now rewrite Heq, !append_assoc.
    + split; [|exact Hl]. cbn [power].
      exists (g +++ String sep ""), s. split; [reflexivity|].
      split; [|exact Hp]. exists g, (String sep "").
      split; [reflexivity|]. split; [exact Hg|]. now apply lang_lit.
Qed.

Lemma separated_spec (P : pattern) (sep : ascii) (n : nat) (s : string) :
  lang (Seq (Repeat n n (Seq P (lit sep))) P) s <->
  exists groups,
    List.length groups = S n /\ Forall (lang P) groups /\
    s = String.concat (String sep "") groups.
Proof.
  cbn [lang]. split.
  - intros (s1 & last & -> & (i & Hi & Hp) & Hlast).
    assert (i = n) by lia. subst i.
    exact (power_groups P sep n s1 Hp last Hlast).
  - intros (groups & Hlen & Hall & ->).
    destruct (groups_power P sep groups n Hlen Hall)
      as (s1 & last & -> & Hp & Hl).
    exists s1, last. split; [reflexivity|]. split; [|exact Hl].
    exists n. split; [lia | exact Hp].
Qed.

Lemma class_char c lo hi :
  inClass [(lo, hi)] c = true <->
  Z.of_N (N_of_ascii lo) - 48 <= Js.digitVal c <= Z.of_N (N_of_ascii hi) - 48.
Proof. rewrite inRange_spec. unfold Js.digitVal. lia. Qed.

Lemma class_01 c :
  inClass [("0", "0"); ("1", "1")]%char c = true <-> 0 <= Js.digitVal c <= 1.
Proof.
  unfold inClass, inRange, Js.digitVal. cbn [existsb fst snd].
  rewrite orb_false_r, orb_true_iff, !andb_true_iff, !N.leb_le.
  change (N_of_ascii "0") with 48%N. change (N_of_ascii "1") with 49%N. lia.
Qed.

Lemma lang_octet x : lang octet x <-> isOctet x.
Proof.
  unfold isOctet. split.
  - unfold octet, digit. cbn [lang].
    intros [H|[H|H]];
      (repeat match goal with
                | H : exists _, _ |- _ => destruct H
                | H : _ /\ _ |- _ => destruct H
                | H : lang (lit _) _ |- _ => apply lang_lit in H
                | H : inClass [("0", "0"); ("1", "1")]%char _ = true |- _ =>
                    apply class_01 in H
                | H : inClass [(_, _)] _ = true |- _ =>
                    apply class_char in H; cbn in H
                end; subst).
    + cbn -[Z.mul Z.add Js.digitVal]. unfold Js.isDigit.
      change (Js.digitVal "2") with 2. change (Js.digitVal "5") with 5.
      repeat split; lia.
    + cbn -[Z.mul Z.add Js.digitVal]. unfold Js.isDigit.
      change (Js.digitVal "2") with 2.
      repeat split; lia.
    + repeat match goal with
             | H : _ \/ _ |- _ => destruct H
             end;
        (repeat match goal with
                  | H : exists _, _ |- _ => destruct H
                  | H : _ /\ _ |- _ => destruct H
                  | H : lang (lit _) _ |- _ => apply lang_lit in H
                  | H : inClass [("0", "0"); ("1", "1")]%char _ = true |- _ =>
                      apply class_01 in H
                  | H : inClass [(_, _)] _ = true |- _ =>
                      apply class_char in H; cbn in H
                  end; subst);
        cbn -[Z.mul Z.add Js.digitVal]; unfold Js.isDigit;
        repeat split; lia.
  - intros (Hlen & Hdigits & Hval).
    destruct x as [|c1 [|c2 [|c3 [|c4 x]]]]; cbn [String.length] in Hlen;
      try lia; cbn [Js.allDigits] in Hdigits; unfold Js.isDigit in Hdigits;
      cbn -[Z.mul Z.add Js.digitVal] in Hval.
    + right. right. exists "", (String c1 ""). split; [reflexivity|].
      split; [now right|]. exists (String c1 ""), "".
      split; [reflexivity|]. split; [|now right].
      exists c1. split; [reflexivity|]. apply class_char. cbn. lia.
    + right. right. exists "", (String c1 (String c2 "")).
      split; [reflexivity|]. split; [now right|].
      exists (String c1 ""), (String c2 ""). split; [reflexivity|].
      split; [|left]; eexists; (split; [reflexivity|]);
        apply class_char; cbn; lia.
    + destruct (Z.le_gt_cases (Js.digitVal c1) 1) as [H1|H1].
      * right. right. exists (String c1 ""), (String c2 (String c3 "")).
        split; [reflexivity|]. split.
        { left. exists c1. split; [reflexivity|]. apply class_01. lia. }
        exists (String c2 ""), (String c3 ""). split; [reflexivity|].
        split; [|left]; eexists; (split; [reflexivity|]);
          apply class_char; cbn; lia.
      * assert (Hc1 : c1 = "2"%char).
        { rewrite <- (ascii_N_embedding c1). unfold Js.digitVal in *.
          replace (N_of_ascii c1) with 50%N by lia. reflexivity. }
        subst c1. change (Js.digitVal "2") with 2 in *.
        destruct (Z.le_gt_cases (Js.digitVal c2) 4) as [H2|H2].
        -- right. left. exists "2", (String c2 (String c3 "")).
           split; [reflexivity|]. split; [now apply lang_lit|].
           exists (String c2 ""), (String c3 ""). split; [reflexivity|].
           split; eexists; (split; [reflexivity|]);
             apply class_char; cbn; lia.
        -- assert (Hc2 : c2 = "5"%char).
           { rewrite <- (ascii_N_embedding c2). unfold Js.digitVal in *.
             replace (N_of_ascii c2) with 53%N by lia. reflexivity. }
           subst c2. change (Js.digitVal "5") with 5 in *.
           left. exists "2", (String "5" (String c3 "")).
           split; [reflexivity|]. split; [now apply lang_lit|].
           exists "5", (String c3 ""). split; [reflexivity|].
           split; [now apply lang_lit|].
           exists c3. split; [reflexivity|]. apply class_char. cbn. lia.
Qed.

Lemma hexDigit_alphabet c :
  inClass [("0", "9"); ("a", "f"); ("A", "F")]%char c = true <->
  In c (list_ascii_of_string "0123456789abcdefABCDEF").
Proof.
  assert (Hb : inClass [("0", "9"); ("a", "f"); ("A", "F")]%char c
               = existsb (Ascii.eqb c)
                   (list_ascii_of_string "0123456789abcdefABCDEF")).
  { destruct c as [[] [] [] [] [] [] [] []]; vm_compute; reflexivity. }
  rewrite Hb, existsb_exists. split.
  - intros (c' & Hin & Heq). apply Ascii.eqb_eq in Heq. now subst.
  - intros Hin. exists c. split; [exact Hin | apply Ascii.eqb_refl].
Qed.

Lemma power_hexDigit n : forall g,
  power (lang hexDigit) n g <->
  String.length g = n /\ allOf "0123456789abcdefABCDEF" g.
Proof.
  induction n as [|n IH]; intros g; cbn [power].
  - split.
    + intros ->. now split.
    + intros [Hlen _]. now destruct g.
  - split.
    + intros (s1 & s2 & -> & (c & -> & Hc) & Hrest).
      apply IH in Hrest. destruct Hrest as [Hlen Hall].
      cbn [String.append String.length allOf]. split; [congruence|].
      split; [now apply hexDigit_alphabet | exact Hall].
    + intros [Hlen Hall]. destruct g as [|c g]; [discriminate|].
      cbn [String.length allOf] in *. destruct Hall as [Hc Hall].
      exists (String c ""), g. split; [reflexivity|]. split.
      * exists c. split; [reflexivity|]. now apply hexDigit_alphabet.
      * apply IH. split; [congruence | exact Hall].
Qed.

Lemma lang_hexGroup g : lang (Repeat 1 4 hexDigit) g <-> isHexGroup g.
Proof.
  unfold isHexGroup. cbn [lang]. split.
  - intros (n & Hn & Hp). apply power_hexDigit in Hp.
    destruct Hp as [<- Hall]. split; [cbn in Hn; lia | exact Hall].
  - intros [Hlen Hall]. exists (String.length g). split; [cbn; lia|].
    apply power_hexDigit. now split.
Qed.

Lemma Forall_iff {A : Type} (P Q : A -> Prop) (l : list A) :
  (forall x, P x <-> Q x) -> Forall P l <-> Forall Q l.
Proof.
  intros H. split; intros HF; eapply Forall_impl; try exact HF;
    intros x; apply H.
Qed.

End ExtractClientInfoFacts.

(** [isValidIP] accepts dotted quads of decimal groups up to 255, full
    IPv6 addresses of eight groups, and the two names of the local
    host; nothing else. *)
Theorem isValidIP_spec (ip : string) :
  ExtractClientInfo.isValidIP ip = true <->
  (exists octets,
     List.length octets = 4%nat /\
     Forall ExtractClientInfo.isOctet octets /\
     ip = String.concat "." octets) \/
  (exists groups,
     List.length groups = 8%nat /\
     Forall ExtractClientInfo.isHexGroup groups /\
     ip = String.concat ":" groups) \/
  ip = "::1" \/ ip = "localhost".
Proof.
  unfold ExtractClientInfo.isValidIP.
  rewrite !orb_true_iff, !String.eqb_eq, !RegExpFacts.test_spec.
  unfold ExtractClientInfo.ipv4Regex, ExtractClientInfo.ipv6Regex.
  rewrite !ExtractClientInfoFacts.separated_spec.
  split.
  - intros [[[(l & Hlen & Hall & ->)|(l & Hlen & Hall & ->)]|H]|H]; auto.
    + left. exists l. split; [exact Hlen|]. split; [|reflexivity].
      exact (proj1 (ExtractClientInfoFacts.Forall_iff _ _ l
                      ExtractClientInfoFacts.lang_octet) Hall).
    + right. left. exists l. split; [exact Hlen|]. split; [|reflexivity].
      exact (proj1 (ExtractClientInfoFacts.Forall_iff _ _ l
                      ExtractClientInfoFacts.lang_hexGroup) Hall).
  - intros [(l & Hlen & Hall & ->)|[(l & Hlen & Hall & ->)|[H|H]]]; auto.
    + left. left. left. exists l. split; [exact Hlen|]. split; [|reflexivity].
      exact (proj2 (ExtractClientInfoFacts.Forall_iff _ _ l
                      ExtractClientInfoFacts.lang_octet) Hall).
    + left. left. right. exists l. split; [exact Hlen|].
      split; [|reflexivity].
      exact (proj2 (ExtractClientInfoFacts.Forall_iff _ _ l
                      ExtractClientInfoFacts.lang_hexGroup) Hall).
Qed.

Example isValidIP_samples :
  ExtractClientInfo.isValidIP "203.0.113.7" = true /\
  ExtractClientInfo.isValidIP "256.0.0.1" = false /\
  ExtractClientInfo.isValidIP "2001:db8:0:0:0:0:0:1" = true /\
  ExtractClientInfo.isValidIP "2001:db8::1" = false /\
  ExtractClientInfo.isValidIP "::1" = true /\
  ExtractClientInfo.isValidIP "" = false.
Proof. repeat split; vm_compute; reflexivity. Qed.

Lemma firstValidIP_valid c names ip :
  ExtractClientInfo.firstValidIP c names = Some ip ->
  ExtractClientInfo.isValidIP ip = true /\
  exists name value,
    In name names /\ header c name = Some value /\
    ExtractClientInfo.firstEntry value = Some ip.
Proof.
  induction names as [|name rest IH]; cbn [ExtractClientInfo.firstValidIP];
    [discriminate|].
  intros H.
  assert (Hrest : ExtractClientInfo.firstValidIP c rest = Some ip ->
                  ExtractClientInfo.isValidIP ip = true /\
                  exists name0 value,
                    In name0 (name :: rest) /\ header c name0 = Some value /\
                    ExtractClientInfo.firstEntry value = Some ip).
  { intros Hr. destruct (IH Hr) as (Hv & n & v & Hin & Hh & Hf).
    split; [exact Hv|]. exists n, v. split; [now right | now split]. }
  destruct (header c name) as [value|] eqn:Hh; [|auto].
  destruct (String.eqb value ""); [auto|].
  destruct (ExtractClientInfo.firstEntry value) as [candidate|] eqn:Hf;
    [|auto].
  destruct (negb (String.eqb candidate "")
            && ExtractClientInfo.isValidIP candidate) eqn:Hok; [|auto].
  injection H as <-. apply andb_true_iff in Hok. split; [tauto|].
  exists name, value. split; [now left | now split].
Qed.

Lemma firstValidIP_none c names :
  (forall name value candidate,
     In name names -> header c name = Some value ->
     ExtractClientInfo.firstEntry value = Some candidate ->
     ExtractClientInfo.isValidIP candidate = false) ->
  ExtractClientInfo.firstValidIP c names = None.
Proof.
  induction names as [|name rest IH]; intros H;
    cbn [ExtractClientInfo.firstValidIP]; [reflexivity|].
  assert (Hrest : ExtractClientInfo.firstValidIP c rest = None).
  { apply IH. intros n v cand Hin. apply H. now right. }
  destruct (header c name) as [value|] eqn:Hh; [|exact Hrest].
  destruct (String.eqb value ""); [exact Hrest|].
  destruct (ExtractClientInfo.firstEntry value) as [candidate|] eqn:Hf;
    [|exact Hrest].
  rewrite (H name value candidate (or_introl eq_refl) Hh Hf).
  rewrite andb_false_r. exact Hrest.
Qed.

Lemma firstEntry_empty : ExtractClientInfo.firstEntry "" = Some "".
Proof. reflexivity. Qed.

(** The address [extractClientIP] reports is one [isValidIP] accepts,
    taken from the first entry of one of the seven headers, or it is
    ["unknown"]; a valid first entry of [x-forwarded-for] wins over
    every other header. *)
Theorem extractClientIP_valid_or_unknown (c : Context) :
  (ExtractClientInfo.extractClientIP c = "unknown" \/
   ExtractClientInfo.isValidIP (ExtractClientInfo.extractClientIP c) = true /\
   exists name value,
     In name ExtractClientInfo.headers /\ header c name = Some value /\
     ExtractClientInfo.firstEntry value
     = Some (ExtractClientInfo.extractClientIP c)) /\
  (forall value ip,
     header c "x-forwarded-for" = Some value ->
     ExtractClientInfo.firstEntry value = Some ip ->
     ExtractClientInfo.isValidIP ip = true ->
     ExtractClientInfo.extractClientIP c = ip) /\
  ((forall name value candidate,
      In name ExtractClientInfo.headers -> header c name = Some value ->
      ExtractClientInfo.firstEntry value = Some candidate ->
      ExtractClientInfo.isValidIP candidate = false) ->
   ExtractClientInfo.extractClientIP c = "unknown").
Proof.
  unfold ExtractClientInfo.extractClientIP. split; [|split].
  - destruct (ExtractClientInfo.firstValidIP c ExtractClientInfo.headers)
      as [ip|] eqn:H; [|now left].
    right. exact (firstValidIP_valid c _ ip H).
  - intros value ip Hh Hf Hv.
    unfold ExtractClientInfo.headers.
    cbn [ExtractClientInfo.firstValidIP]. rewrite Hh.
    destruct (String.eqb_spec value "") as [->|_].
    { rewrite firstEntry_empty in Hf. injection Hf as <-.
      discriminate Hv. }
    rewrite Hf, Hv.
    destruct (String.eqb_spec ip "") as [->|_]; [discriminate Hv|].
    reflexivity.
  - intros H. now rewrite (firstValidIP_none c _ H).
Qed.

Example extractClientIP_behind_a_proxy :
  ExtractClientInfo.extractClientIP Demo.behindProxy = "203.0.113.7" /\
  ExtractClientInfo.extractClientIP
    (mkContext (fun name =>
       if String.eqb name "x-forwarded-for" then Some "2001:db8::1"
       else None)) = "unknown" /\
  ExtractClientInfo.extractClientIP (mkContext (fun _ => None)) = "unknown".
Proof. repeat split; vm_compute; reflexivity. Qed.

(** No header selects a user or a paid tier: whatever [authorization]
    says, the tier read off the request is ["default"] and the client
    is known by its address. *)
Theorem headers_select_no_user_and_no_tier (c : Context) :
  ExtractClientInfo.extractUserIdFromAuth c = None /\
  ExtractClientInfo.extractUserTier c = "default" /\
  ExtractClientInfo.extractClientId c
  = "ip:" +++ ExtractClientInfo.extractClientIP c /\
  (forall input,
     tierOf (App.rateLimitRequest c input)
     = tierOf (mkRequest (in_serviceId input) "" (in_metadata input)) /\
     req_serviceId (App.rateLimitRequest c input) = in_serviceId input /\
     clientId (App.rateLimitRequest c input)
     = match in_clientId input with
       | Some id =>
           if String.eqb id ""
           then "ip:" +++ ExtractClientInfo.extractClientIP c
           else id
       | None => "ip:" +++ ExtractClientInfo.extractClientIP c
       end /\
     clientId (App.rateLimitRequest c input) <> "").
Proof.
  assert (Hid : ExtractClientInfo.extractUserIdFromAuth c = None).
  { unfold ExtractClientInfo.extractUserIdFromAuth.
    destruct (header c "authorization") as [authHeader|]; [|reflexivity].
    destruct (String.eqb authHeader ""); [reflexivity|].
    destruct (Js.includes authHeader "Bearer"); reflexivity. }
  assert (Htier : ExtractClientInfo.extractUserTier c = "default").
  { unfold ExtractClientInfo.extractUserTier.
    destruct (header c "authorization") as [authHeader|]; [|reflexivity].
    destruct (String.eqb authHeader ""); [reflexivity|].
    destruct (Js.includes authHeader "Bearer"); [reflexivity|].
    destruct (Js.includes authHeader "ApiKey"); reflexivity. }
  assert (Hclient : ExtractClientInfo.extractClientId c
                    = "ip:" +++ ExtractClientInfo.extractClientIP c).
  { unfold ExtractClientInfo.extractClientId. now rewrite Hid. }
  split; [exact Hid|]. split; [exact Htier|]. split; [exact Hclient|].
  intros input. unfold App.rateLimitRequest, tierOf.
  cbn [req_serviceId clientId metadata userTier].
  rewrite Htier, Hclient. split; [|split; [reflexivity|split]].
  - destruct (in_metadata input) as [m|]; [|reflexivity].
    destruct (userTier m) as [t|]; [|reflexivity].
    destruct (String.eqb t "") eqn:Ht; [reflexivity|]. now rewrite Ht.
  - reflexivity.
  - destruct (in_clientId input) as [id|]; [|discriminate].
    destruct (String.eqb_spec id ""); [discriminate | assumption].
Qed.

(* ================================================================= *)
(** ** The routes *)

(** A route that awaits a call and answers with what it gave, or with
    [500] when it threw. *)
Lemma route_outcome W (h : handler W) A (p : prog A)
  (answer : A -> HttpResponse) (line : string) w :
  outcome (run h (tryCatch (x <- p ;; Ret (answer x))
                    (fun error =>
                       perform (ConsoleError line) ;;
                       Ret App.internalServerError)) w)
  = inr (match outcome (run h p w) with
         | inr x => answer x
         | inl _ => App.internalServerError
         end) /\
  storeCalls (trace (run h (tryCatch (x <- p ;; Ret (answer x))
                    (fun error =>
                       perform (ConsoleError line) ;;
                       Ret App.internalServerError)) w))
  = storeCalls (trace (run h p w)).
Proof.
  rewrite run_tryCatch, run_bind. unfold outcome, trace.
  destruct (run h p w) as [[[e|x] w1] t1]; cbn [run perform bind fst snd].
  - destruct (handle h (ConsoleError line) w1) as [[] w2]. cbn [fst snd].
    rewrite storeCalls_app. cbn. now rewrite app_nil_r.
  - now rewrite app_nil_r.
Qed.

(** [POST /check] always answers: with the decision, as status 200,
    when the check completed, be the request allowed or denied; with
    status 500 and no detail when the body could not be read or the
    check threw. *)
Theorem postCheck_always_answers
  (W : Type) (h : handler W) (w : W) (c : Context)
  (parsed : exn + RateLimitRequestInput) :
  (exists response,
     outcome (run h (App.postCheck c parsed) w) = inr response /\
     (status response = 200 \/ response = App.internalServerError)) /\
  (forall e,
     parsed = inl e ->
     outcome (run h (App.postCheck c parsed) w)
     = inr App.internalServerError /\
     storeCalls (trace (run h (App.postCheck c parsed) w)) = []) /\
  (forall input,
     parsed = inr input ->
     outcome (run h (App.postCheck c parsed) w)
     = inr (match outcome (run h (RateLimitService.checkRateLimit
                                   (App.rateLimitRequest c input))
                             (snd (handle h DateNow w))) with
            | inr response => App.json (CheckBody response)
            | inl _ => App.internalServerError
            end)).
Proof.
  assert (Hbad : forall e,
    parsed = inl e ->
    outcome (run h (App.postCheck c parsed) w) = inr App.internalServerError /\
    storeCalls (trace (run h (App.postCheck c parsed) w)) = []).
  { intros e ->. unfold App.postCheck, outcome, trace.
    cbn [lift bind tryCatch perform run].
    destruct (handle h (ConsoleError _) w) as [[] w1]. split; reflexivity. }
  assert (Hgood : forall input,
    parsed = inr input ->
    outcome (run h (App.postCheck c parsed) w)
    = inr (match outcome (run h (RateLimitService.checkRateLimit
                                  (App.rateLimitRequest c input))
                            (snd (handle h DateNow w))) with
           | inr response => App.json (CheckBody response)
           | inl _ => App.internalServerError
           end)).
  { intros input ->. unfold App.postCheck.
    cbn [lift bind ExtractClientInfo.extractRequestMetadata perform].
    rewrite run_tryCatch. cbn [run].
    destruct (handle h DateNow w) as [now w1]. cbn [snd].
    rewrite run_bind. unfold outcome.
    destruct (run h (RateLimitService.checkRateLimit _) w1)
      as [[[e|response] w2] t2]; cbn [run perform bind fst snd].
    - destruct (handle h (ConsoleError _) w2) as [[] w3]. reflexivity.
    - reflexivity. }
  split; [|split; [exact Hbad | exact Hgood]].
  destruct parsed as [e|input].
  - exists App.internalServerError. split; [apply (Hbad e eq_refl) | now right].
  - rewrite (Hgood input eq_refl).
    destruct (outcome (run h (RateLimitService.checkRateLimit _) _))
      as [e|response]; eexists; (split; [reflexivity|]).
    + now right.
    + left. reflexivity.
Qed.

Example postCheck_denied_is_status_200 :
  outcome (run Dynamo.store
             (App.postCheck Demo.behindProxy
                (inr (mkInput "uploads" (Some "ip:203.0.113.7") None)))
             Demo.atLimit)
  = inr (mkHttp 200 (CheckBody Demo.denied)) /\
  outcome (run Dynamo.store
             (App.postCheck Demo.behindProxy
                (inr (mkInput "reports" None None)))
             Demo.atLimit)
  = inr (mkHttp 500 (ErrorBody "Internal server error")).
Proof. split; vm_compute; reflexivity. Qed.

(** The configuration routes answer every failure, a rejected
    configuration included, with status 500 and no detail. *)
Theorem config_routes_answer (W : Type) (h : handler W) (w : W) :
  (forall parsed,
     outcome (run h (App.postConfig parsed) w)
     = inr (match parsed with
            | inl _ => App.internalServerError
            | inr cfg =>
                match outcome (run h (ConfigService.saveServiceConfig cfg) w)
                with
                | inr _ =>
                    App.json (MessageBody "Configuration saved successfully")
                | inl _ => App.internalServerError
                end
            end)) /\
  (forall cfg e,
     ConfigService.validateConfig cfg = inl e ->
     outcome (run h (App.postConfig (inr cfg)) w)
     = inr App.internalServerError /\
     storeCalls (trace (run h (App.postConfig (inr cfg)) w)) = []) /\
  (forall serviceId,
     outcome (run h (App.getConfig serviceId) w)
     = inr (match outcome (run h (ConfigService.getServiceConfig serviceId) w)
            with
            | inr cfg => App.json (ConfigBody cfg)
            | inl _ => App.internalServerError
            end)) /\
  (forall serviceId parsed,
     outcome (run h (App.putConfig serviceId parsed) w)
     = inr (match parsed with
            | inl _ => App.internalServerError
            | inr newRules =>
                match outcome (run h (ConfigService.updateServiceConfig
                                        serviceId newRules) w) with
                | inr _ =>
                    App.json
                      (MessageBody "Configuration updated successfully")
                | inl _ => App.internalServerError
                end
            end)) /\
  (forall (ha : adminHandler W),
     adminOutcome (adminRun ha App.getConfigs w)
     = inr (match adminOutcome
                   (adminRun ha ConfigService.getAllServiceConfigs w) with
            | inr configs => App.json (ConfigsBody configs)
            | inl _ => App.internalServerError
            end)).
Proof.
  assert (Hpost : forall cfg,
    outcome (run h (App.postConfig (inr cfg)) w)
    = inr (match outcome (run h (ConfigService.saveServiceConfig cfg) w) with
           | inr _ => App.json (MessageBody "Configuration saved successfully")
           | inl _ => App.internalServerError
           end) /\
    storeCalls (trace (run h (App.postConfig (inr cfg)) w))
    = storeCalls (trace (run h (ConfigService.saveServiceConfig cfg) w))).
  { intros cfg. unfold App.postConfig. cbn [lift bind].
    apply (route_outcome W h unit (ConfigService.saveServiceConfig cfg)
             (fun _ => App.json
                         (MessageBody "Configuration saved successfully"))). }
  split.
  { intros [e|cfg]; [|apply Hpost].
    unfold App.postConfig, outcome. cbn [lift bind tryCatch perform run].
    destruct (handle h (ConsoleError _) w) as [[] w1]. reflexivity. }
  split.
  { intros cfg e He. destruct (Hpost cfg) as [Hout Hcalls].
    rewrite Hout, Hcalls.
    destruct (saveServiceConfig_rejected W h w cfg e He) as [-> ->].
    split; reflexivity. }
  split.
  { intros serviceId. unfold App.getConfig.
    apply (route_outcome W h RateLimitConfig
             (ConfigService.getServiceConfig serviceId)
             (fun cfg => App.json (ConfigBody cfg))). }
  split.
  { intros serviceId [e|newRules].
    - unfold App.putConfig, outcome. cbn [lift bind tryCatch perform run].
      destruct (handle h (ConsoleError _) w) as [[] w1]. reflexivity.
    - unfold App.putConfig. cbn [lift bind].
      apply (route_outcome W h unit
               (ConfigService.updateServiceConfig serviceId newRules)
               (fun _ => App.json
                           (MessageBody
                              "Configuration updated successfully"))). }
  intros ha. unfold App.getConfigs, ConfigService.getAllServiceConfigs,
    DynamoDBService.getAllConfigs, adminOutcome.
  cbn [adminTry adminBind sendConfig adminRun adminRethrow].
  destruct (handleConfig ha (QueryConfigItems "ALL") w) as [[e|custom] w1].
  - cbn [adminTry adminBind adminRun adminRethrow].
    destruct (handle (base ha) _ w1) as [[] w2].
    cbn [adminTry adminBind adminRun adminRethrow].
    destruct (handle (base ha) _ w2) as [[] w3].
    cbn [adminTry adminBind adminRun adminRethrow].
    destruct (handle (base ha) _ w3) as [[] w4]. reflexivity.
  - reflexivity.
Qed.

Example postConfig_rejected_configuration :
  outcome (run Dynamo.store
             (App.postConfig
                (inr (mkConfig "uploads" [("pro", mkRule 60000 5)])))
             Demo.underLimit)
  = inr (mkHttp 500 (ErrorBody "Internal server error")) /\
  outcome (run Dynamo.store (App.getConfig "reports") Demo.underLimit)
  = inr (mkHttp 500 (ErrorBody "Internal server error")).
Proof. split; vm_compute; reflexivity. Qed.

